(** * Captcha relay Worker: submit / poll task lifecycle

    A shallow embedding of the two Worker scripts of the repository
    ([captcha-gemini.js] and the later script that also serves the HTML
    page) together with the properties of the task lifecycle: the
    configuration gate, the order of the checks in the handlers, the
    writes to the result store and the behaviour of the background
    inference step.

    Effects are explicit: a handler is a function from the state of the
    world (store contents, clock, drawn identifiers, detached work and
    the trace of host calls) to an outcome and a new world.  A JavaScript
    exception is the outcome [Thrown]. *)

From Stdlib Require Import ZArith QArith_base String Ascii List Bool Lia.
From stdpp Require Import base option list gmap strings pretty.

Set Warnings "-register-all".

Local Open Scope Z_scope.
Local Open Scope string_scope.

(** ** JavaScript values that come out of [JSON.parse] *)

Inductive json : Type :=
| JNull
| JBool (b : bool)
| JNum (q : Q)
| JStr (s : string)
| JArr (items : list json)
| JObj (fields : list (string * json)).

(** A JavaScript value is a JSON value or [undefined] ([None]). *)
Abbreviation jsval := (option json).

Definition is_empty (s : string) : bool :=
  match s with EmptyString => true | String _ _ => false end.

(** ToBoolean: [undefined], [null], [false], [0] and the empty string are
    falsy, every object and array is truthy. *)
Definition truthy (v : jsval) : bool :=
  match v with
  | None => false
  | Some JNull => false
  | Some (JBool b) => b
  | Some (JNum q) => negb (Z.eqb (Qnum q) 0)
  | Some (JStr s) => negb (is_empty s)
  | Some (JArr _) => true
  | Some (JObj _) => true
  end.

(** ToBoolean of a value that is a string or [undefined]/[null]. *)
Definition truthy_str (v : option string) : bool :=
  match v with
  | None => false
  | Some s => negb (is_empty s)
  end.

Inductive exn : Type :=
| TypeError
| SyntaxError
| NetworkError.

Inductive outcome (A : Type) : Type :=
| Returned (a : A)
| Thrown (e : exn).
Arguments Returned {A} a.
Arguments Thrown {A} e.

Fixpoint assoc {A : Type} (k : string) (l : list (string * A)) : option A :=
  match l with
  | [] => None
  | (k', v) :: l' => if String.eqb k k' then Some v else assoc k l'
  end.

(** [v.name]: reading a property of [undefined] or [null] throws a
    TypeError; an object gives its own property or [undefined]; arrays
    and strings only have [length] among the names read here; numbers and
    booleans have none. *)
Definition get_prop (v : jsval) (name : string) : outcome jsval :=
  match v with
  | None | Some JNull => Thrown TypeError
  | Some (JObj fields) => Returned (assoc name fields)
  | Some (JArr items) =>
      if String.eqb name "length"
      then Returned (Some (JNum (inject_Z (Z.of_nat (List.length items)))))
      else Returned None
  | Some (JStr s) =>
      if String.eqb name "length"
      then Returned (Some (JNum (inject_Z (Z.of_nat (String.length s)))))
      else Returned None
  | Some (JBool _) | Some (JNum _) => Returned None
  end.

(** [v[i]] for a literal index [i]. *)
Definition get_index (v : jsval) (i : nat) : outcome jsval :=
  match v with
  | None | Some JNull => Thrown TypeError
  | Some (JArr items) => Returned (items !! i)
  | Some (JObj fields) => Returned (assoc (pretty i) fields)
  | Some (JStr s) =>
      Returned (if (i <? String.length s)%nat
                then Some (JStr (String.substring i 1 s)) else None)
  | Some (JBool _) | Some (JNum _) => Returned None
  end.

(** ** Strings

    A string holds the UTF-8 encoding of the JavaScript string.  The
    length and the index of a string in [get_prop] and [get_index] count
    bytes, which are the units of the string on ASCII text; the scripts
    never read the length of a string, and they index a string only at
    0, where a unit is present exactly when a byte is, to read a
    property of it, which is [undefined] whatever the unit. *)

(** White space and line terminators of one byte: U+0009 to U+000D and
    U+0020. *)
Definition is_space (c : ascii) : bool :=
  let n := nat_of_ascii c in
  ((9 <=? n) && (n <=? 13) || (n =? 32))%nat.

(** White space of two bytes: U+00A0 (C2 A0). *)
Definition is_space2 (a b : ascii) : bool :=
  ((nat_of_ascii a =? 194) && (nat_of_ascii b =? 160))%nat.

(** White space and line terminators of three bytes: U+1680 (E1 9A 80),
    U+2000 to U+200A (E2 80 80 to E2 80 8A), U+2028 and U+2029
    (E2 80 A8, E2 80 A9), U+202F (E2 80 AF), U+205F (E2 81 9F), U+3000
    (E3 80 80) and U+FEFF (EF BB BF). *)
Definition is_space3 (a b c : ascii) : bool :=
  let x := nat_of_ascii a in
  let y := nat_of_ascii b in
  let z := nat_of_ascii c in
  ((x =? 225) && (y =? 154) && (z =? 128)
   || (x =? 226) && (y =? 128)
      && ((128 <=? z) && (z <=? 138) || (z =? 168) || (z =? 169) || (z =? 175))
   || (x =? 226) && (y =? 129) && (z =? 159)
   || (x =? 227) && (y =? 128) && (z =? 128)
   || (x =? 239) && (y =? 187) && (z =? 191))%nat.

(** Drop from the front of [l] every character that [one], [two] or
    [three] recognises on its one, two or three bytes. *)
Fixpoint strip (one : ascii -> bool) (two : ascii -> ascii -> bool)
    (three : ascii -> ascii -> ascii -> bool) (l : list ascii) : list ascii :=
  match l with
  | [] => []
  | a :: l1 =>
      if one a then strip one two three l1
      else match l1 with
           | [] => l
           | b :: l2 =>
               if two a b then strip one two three l2
               else match l2 with
                    | [] => l
                    | c :: l3 => if three a b c then strip one two three l3 else l
                    end
           end
  end.

Definition trim_start (s : string) : string :=
  string_of_list_ascii (strip is_space is_space2 is_space3 (list_ascii_of_string s)).

(** The same from the end: the bytes are met last to first. *)
Definition trim_end (s : string) : string :=
  string_of_list_ascii
    (List.rev (strip is_space (fun b a => is_space2 a b) (fun c b a => is_space3 a b c)
                 (List.rev (list_ascii_of_string s)))).

(** [String.prototype.trim]: white space and line terminators are
    removed at both ends. *)
Definition trim (s : string) : string := trim_end (trim_start s).

Definition ascii_lower (c : ascii) : ascii :=
  let n := nat_of_ascii c in
  if ((65 <=? n) && (n <=? 90))%nat then ascii_of_nat (n + 32) else c.

Fixpoint lower (s : string) : string :=
  match s with
  | EmptyString => EmptyString
  | String c s' => String (ascii_lower c) (lower s')
  end.

Definition dquote : string := String (ascii_of_nat 34) EmptyString.
Definition backslash : string := String (ascii_of_nat 92) EmptyString.

Definition hex_digit (n : nat) : string :=
  String.substring n 1 "0123456789abcdef".

(** QuoteJSONString, one character at a time. *)
Definition json_escape_char (c : ascii) : string :=
  let n := nat_of_ascii c in
  if (n =? 34)%nat then backslash +:+ dquote
  else if (n =? 92)%nat then backslash +:+ backslash
  else if (n =? 8)%nat then backslash +:+ "b"
  else if (n =? 12)%nat then backslash +:+ "f"
  else if (n =? 10)%nat then backslash +:+ "n"
  else if (n =? 13)%nat then backslash +:+ "r"
  else if (n =? 9)%nat then backslash +:+ "t"
  else if (n <? 32)%nat
       then backslash +:+ "u00" +:+ hex_digit (n / 16) +:+ hex_digit (n mod 16)
  else String c EmptyString.

Fixpoint json_escape (s : string) : string :=
  match s with
  | EmptyString => EmptyString
  | String c s' => json_escape_char c +:+ json_escape s'
  end.

Definition json_quote (s : string) : string :=
  dquote +:+ json_escape s +:+ dquote.

Fixpoint stringify_props (ps : list (string * option string)) : list string :=
  match ps with
  | [] => []
  | (k, Some v) :: ps' => (json_quote k +:+ ":" +:+ json_quote v) :: stringify_props ps'
  | (_, None) :: ps' => stringify_props ps'
  end.

Fixpoint join (sep : string) (l : list string) : string :=
  match l with
  | [] => EmptyString
  | [x] => x
  | x :: l' => x +:+ sep +:+ join sep l'
  end.

(** [JSON.stringify] of an object literal whose property values are
    strings or [undefined]; a property whose value is [undefined] is left
    out. *)
Definition JSON_stringify (ps : list (string * option string)) : string :=
  "{" +:+ join "," (stringify_props ps) +:+ "}".

(** ** The world around the Worker *)

(** The binding of the result store in the Worker environment. *)
Inductive KVNamespace : Type := ResultsKV.

Record kv_entry : Type := KvEntry {
  entry_value : string;
  entry_expiry : Z
}.

Record response : Type := Response {
  status : Z;
  body : string;
  resp_headers : list (string * string)
}.

(** What [await fetch(url, init)] gives: a rejection, or a response with
    its status, the text [res.text()] resolves to, and the value
    [res.json()] resolves to ([None] when it rejects with a SyntaxError). *)
Record provider_response : Type := ProviderResponse {
  res_status : Z;
  res_text : string;
  res_json : option json
}.

Inductive fetch_outcome : Type :=
| FetchRejected
| FetchResponse (res : provider_response).

(** The object [fetch] passes to the handlers; a property is [None] when
    the environment has no value for it. *)
Record configuration : Type := Config {
  geminiApiKey : option string;
  geminiModel : option string;
  authToken : option string;
  apiKey : option string;
  kv : option KVNamespace
}.

(** A promise handed to [ctx.waitUntil]: the arguments of the pending
    [solveAndStore] call.  [job_mimeType] is [None] for the script whose
    [solveAndStore] takes no media type. *)
Record job : Type := Job {
  job_taskId : string;
  job_image : jsval;
  job_mimeType : option jsval;
  job_config : configuration
}.

Inductive event : Type :=
| EvRandomUUID (id : string)
| EvKvPut (key value : string) (expirationTtl : Z)
| EvKvGet (key : string)
| EvWaitUntil (taskId : string)
| EvRespond (r : response)
| EvSettled (taskId : string) (fulfilled : bool).

Record world : Type := World {
  kv_data : gmap string kv_entry;
  clock : Z;
  entropy : nat -> string;
  uuids_drawn : nat;
  gemini : string -> json -> fetch_outcome;
  background : list job;
  trace : list event
}.

Definition set_kv_data (f : gmap string kv_entry -> gmap string kv_entry) (w : world) : world :=
  World (f (kv_data w)) (clock w) (entropy w) (uuids_drawn w) (gemini w) (background w) (trace w).

Definition set_clock (t : Z) (w : world) : world :=
  World (kv_data w) t (entropy w) (uuids_drawn w) (gemini w) (background w) (trace w).

Definition set_uuids_drawn (n : nat) (w : world) : world :=
  World (kv_data w) (clock w) (entropy w) n (gemini w) (background w) (trace w).

Definition set_gemini (g : string -> json -> fetch_outcome) (w : world) : world :=
  World (kv_data w) (clock w) (entropy w) (uuids_drawn w) g (background w) (trace w).

Definition set_background (f : list job -> list job) (w : world) : world :=
  World (kv_data w) (clock w) (entropy w) (uuids_drawn w) (gemini w) (f (background w)) (trace w).

Definition log (e : event) (w : world) : world :=
  World (kv_data w) (clock w) (entropy w) (uuids_drawn w) (gemini w) (background w) (trace w ++ [e])%list.

(** ** The effect monad: state and exceptions *)

Definition M (A : Type) : Type := world -> outcome A * world.

#[global] Instance outcome_ret : MRet outcome := fun A a => Returned a.
#[global] Instance outcome_bind : MBind outcome := fun A B f o =>
  match o with
  | Returned a => f a
  | Thrown e => Thrown e
  end.

#[global] Instance M_ret : MRet M := fun A a w => (Returned a, w).
#[global] Instance M_bind : MBind M := fun A B f m w =>
  match m w with
  | (Returned a, w') => f a w'
  | (Thrown e, w') => (Thrown e, w')
  end.

Definition throw {A : Type} (e : exn) : M A := fun w => (Thrown e, w).

Definition lift {A : Type} (o : outcome A) : M A := fun w => (o, w).

(** [try { m } catch { h }]: what [m] did before it threw stays done. *)
Definition try_catch {A : Type} (m : M A) (h : exn -> M A) : M A := fun w =>
  match m w with
  | (Returned a, w') => (Returned a, w')
  | (Thrown e, w') => h e w'
  end.

Definition emit (e : event) : M unit := fun w => (Returned tt, log e w).

(** ** The result store

    The store is the host's key-value namespace, not code of the
    repository. *)

(** Modelled from the spec: the store's [put(key, value, ttl_seconds)],
    an upsert that overwrites any existing value and resets its expiry to
    [ttl_seconds] from now. *)
Definition store_put (key value : string) (ttl : Z) (now : Z)
    (m : gmap string kv_entry) : gmap string kv_entry :=
  <[key := KvEntry value (now + ttl)]> m.

(** Modelled from the spec: the store's [get(key)], the most recently
    written value, or not-found once the TTL has elapsed or the key was
    never written. *)
Definition store_get (key : string) (now : Z) (m : gmap string kv_entry) : option string :=
  match m !! key with
  | Some e => if Z.ltb now (entry_expiry e) then Some (entry_value e) else None
  | None => None
  end.

(** [await ns.put(key, value, { expirationTtl })] *)
Definition kv_put (ns : option KVNamespace) (key value : string) (expirationTtl : Z) : M unit :=
  match ns with
  | None => throw TypeError
  | Some ResultsKV => fun w =>
      (Returned tt,
       log (EvKvPut key value expirationTtl)
           (set_kv_data (store_put key value expirationTtl (clock w)) w))
  end.

(** [await ns.get(key)] *)
Definition kv_get (ns : option KVNamespace) (key : string) : M (option string) :=
  match ns with
  | None => throw TypeError
  | Some ResultsKV => fun w =>
      (Returned (store_get key (clock w) (kv_data w)), log (EvKvGet key) w)
  end.

(** [crypto.randomUUID()] *)
Definition crypto_randomUUID : M string := fun w =>
  let id := entropy w (uuids_drawn w) in
  (Returned id, log (EvRandomUUID id) (set_uuids_drawn (S (uuids_drawn w)) w)).

(** [ctx.waitUntil(promise)] *)
Definition waitUntil (j : job) : M unit := fun w =>
  (Returned tt, log (EvWaitUntil (job_taskId j)) (set_background (fun js => (js ++ [j])%list) w)).

(** The global [fetch(url, { method: 'POST', headers, body: JSON.stringify(payload) })]. *)
Definition global_fetch (url : string) (payload : json) : M provider_response := fun w =>
  match gemini w url payload with
  | FetchRejected => (Thrown NetworkError, w)
  | FetchResponse res => (Returned res, w)
  end.

(** [res.ok] *)
Definition ok (res : provider_response) : bool :=
  Z.leb 200 (res_status res) && Z.leb (res_status res) 299.

(** [await res.json()] *)
Definition response_json (res : provider_response) : M json :=
  match res_json res with
  | Some j => mret j
  | None => throw SyntaxError
  end.

(** ** Requests, settings and comparisons *)

Record request : Type := Request {
  method : string;
  pathname : string;
  searchParams : list (string * string);
  headers : list (string * string);
  request_json : option json
}.

(** [url.searchParams.get(name)]: the first value, or [null]. *)
Definition searchParams_get (params : list (string * string)) (name : string) : option string :=
  assoc name params.

(** [request.headers.get(name)]: names compare without case, values of a
    repeated header are joined, [null] when there is none. *)
Definition headers_get (hs : list (string * string)) (name : string) : option string :=
  match List.filter (fun h => String.eqb (lower (fst h)) (lower name)) hs with
  | [] => None
  | found => Some (join ", " (List.map snd found))
  end.

Record environment : Type := Env {
  GEMINI_API_KEY : option string;
  GEMINI_MODEL : option string;
  AUTH_TOKEN : option string;
  API_KEY : option string;
  RESULTS_KV : option KVNamespace
}.

(** A value inside a template literal. *)
Definition interpolate (v : option string) : string :=
  match v with
  | Some s => s
  | None => "undefined"
  end.

(** [a !== b] where [a] is a string or [null] and [b] a string or
    [undefined]: equal only when both are the same string. *)
Definition strict_neq (a b : option string) : bool :=
  match a, b with
  | Some x, Some y => negb (String.eqb x y)
  | _, _ => true
  end.

Definition is_some {A : Type} (o : option A) : bool :=
  match o with Some _ => true | None => false end.

(** The [for (const key in config) if (!config[key]) return ...] loop:
    the name of the first property, in insertion order, whose value is
    falsy. *)
Definition config_entries (config : configuration) : list (string * bool) :=
  [ ("geminiApiKey", truthy_str (geminiApiKey config));
    ("geminiModel", truthy_str (geminiModel config));
    ("authToken", truthy_str (authToken config));
    ("apiKey", truthy_str (apiKey config));
    ("kv", is_some (kv config)) ].

(** The object [fetch] builds from the Worker environment. *)
Definition read_config (env : environment) : configuration :=
  Config (GEMINI_API_KEY env) (GEMINI_MODEL env) (AUTH_TOKEN env) (API_KEY env) (RESULTS_KV env).

Fixpoint first_falsy (entries : list (string * bool)) : option string :=
  match entries with
  | [] => None
  | (key, present) :: rest => if present then first_falsy rest else Some key
  end.

Definition text_response (text : string) (code : Z) : response :=
  Response code text [].

Definition json_response (text : string) : response :=
  Response 200 text [("Content-Type", "application/json")].

Definition not_configured (key : string) : response :=
  text_response ("Required setting " +:+ dquote +:+ key +:+ dquote
                 +:+ " is not configured in Worker environment.") 500.

(** The record the inference client resolves to: [{ solution }] or
    [{ error }]. *)
Record gemini_result : Type := GeminiResult {
  error : option string;
  solution : option string
}.

(** [text.trim()]: only a string has a callable [trim]. *)
Definition call_trim (text : jsval) : outcome string :=
  match text with
  | Some (JStr s) => Returned (trim s)
  | _ => Thrown TypeError
  end.

(** [json.candidates[0].content.parts[0].text.trim()] *)
Definition extract_solution (j : json) : outcome string :=
  candidates ← get_prop (Some j) "candidates";
  candidate ← get_index candidates 0;
  content ← get_prop candidate "content";
  parts ← get_prop content "parts";
  part ← get_index parts 0;
  text ← get_prop part "text";
  call_trim text.

Definition GENERATION_CONFIG : json :=
  JObj [("temperature", JNum (Qmake 1 10)); ("maxOutputTokens", JNum (inject_Z 20))].

(** An object literal as it is sent in a request body: [JSON.stringify]
    leaves out the properties whose value is [undefined]. *)
Fixpoint object_literal (props : list (string * jsval)) : list (string * json) :=
  match props with
  | [] => []
  | (k, Some v) :: rest => (k, v) :: object_literal rest
  | (_, None) :: rest => object_literal rest
  end.

(** ** The Worker that also serves the page (the later script) *)

Module PageWorker.

Definition PROMPT_TEXT : string :=
  "Analyze the captcha image. If it contains alphanumeric characters, extract the exact string. If it shows a mathematical problem (using +, -, ×, ÷ symbols), calculate the result and return only the final number. The output should always be the raw answer, without any explanation, formatting, or quotes.".

Definition callGemini (apiKey model : option string) (payload : json) : M gemini_result :=
  let url := "https://generativelanguage.googleapis.com/v1beta/models/"
             +:+ interpolate model +:+ ":generateContent?key=" +:+ interpolate apiKey in
  res ← global_fetch url payload;
  if negb (ok res)
  then mret (GeminiResult (Some ("Gemini API error: " +:+ res_text res)) None)
  else
    j ← response_json res;
    try_catch
      (s ← lift (extract_solution j); mret (GeminiResult None (Some s)))
      (fun _ => mret (GeminiResult (Some "Failed to parse Gemini response") None)).

Definition solveAndStore (taskId : string) (imageBase64 mimeType : jsval)
    (config : configuration) : M unit :=
  let geminiPayload :=
    JObj [("contents",
           JArr [JObj [("parts",
                        JArr [JObj [("text", JStr PROMPT_TEXT)];
                              JObj [("inline_data",
                                     JObj (object_literal [("mime_type", mimeType);
                                                           ("data", imageBase64)]))]])]]);
          ("generationConfig", GENERATION_CONFIG)] in
  result ← callGemini (geminiApiKey config) (geminiModel config) geminiPayload;
  let final :=
    if truthy_str (error result)
    then [("status", Some "error"); ("message", error result)]
    else [("status", Some "completed"); ("solution", solution result)] in
  kv_put (kv config) taskId (JSON_stringify final) 300.

Definition handleSubmit (request : request) (config : configuration) : M response :=
  if negb (String.eqb (method request) "POST")
  then mret (text_response "Expected POST" 405)
  else
    let token := headers_get (headers request) "Authorization" in
    if strict_neq token (Some ("Bearer " +:+ interpolate (authToken config)))
    then mret (text_response "Unauthorized: Invalid AUTH_TOKEN" 401)
    else
      match request_json request with
      | None => mret (text_response "Invalid JSON body" 400)
      | Some body =>
          image ← lift (get_prop (Some body) "image");
          missing ← (if negb (truthy image) then mret true
                     else mimeType ← lift (get_prop (Some body) "mimeType");
                          mret (negb (truthy mimeType)));
          if (missing : bool)
          then mret (text_response
                       ("Missing " +:+ dquote +:+ "image" +:+ dquote +:+ " or "
                        +:+ dquote +:+ "mimeType" +:+ dquote +:+ " field in JSON body.") 400)
          else
            taskId ← crypto_randomUUID;
            kv_put (kv config) taskId (JSON_stringify [("status", Some "pending")]) 300;;
            mimeType ← lift (get_prop (Some body) "mimeType");
            waitUntil (Job taskId image (Some mimeType) config);;
            mret (json_response (JSON_stringify [("taskId", Some taskId)]))
      end.

Definition handleResult (request : request) (config : configuration) : M response :=
  if negb (String.eqb (method request) "GET")
  then mret (text_response "Expected GET" 405)
  else
    let taskId := searchParams_get (searchParams request) "taskId" in
    let apiKey' := searchParams_get (searchParams request) "apiKey" in
    if strict_neq apiKey' (apiKey config)
    then mret (text_response "Unauthorized: Invalid API_KEY" 401)
    else
      let missing := text_response ("Missing " +:+ dquote +:+ "taskId" +:+ dquote
                                    +:+ " parameter") 400 in
      match taskId with
      | None => mret missing
      | Some id =>
          if is_empty id then mret missing
          else
            result ← kv_get (kv config) id;
            match result with
            | None => mret (text_response "Task not found or expired" 404)
            | Some value =>
                if is_empty value
                then mret (text_response "Task not found or expired" 404)
                else mret (json_response value)
            end
      end.

Section Entry.

(** The text of the HTML page, [getHtmlPage()]. *)
Variable getHtmlPage : string.

Definition fetch (request : request) (env : environment) : M response :=
  let config := read_config env in
  match first_falsy (config_entries config) with
  | Some key => mret (not_configured key)
  | None =>
      if String.eqb (pathname request) "/"
      then mret (Response 200 getHtmlPage [("Content-Type", "text/html; charset=UTF-8")])
      else if String.eqb (pathname request) "/submit" then handleSubmit request config
      else if String.eqb (pathname request) "/result" then handleResult request config
      else mret (text_response "Not Found. Use /, /submit or /result." 404)
  end.

End Entry.

(** The body of the promise given to [ctx.waitUntil]. *)
Definition run_job (j : job) : M unit :=
  solveAndStore (job_taskId j) (job_image j) (default None (job_mimeType j)) (job_config j).

End PageWorker.

(** ** The Worker of [captcha-gemini.js] *)

Module ApiWorker.

Definition PROMPT_TEXT : string :=
  "Analyze this captcha image. If it contains a mathematical expression, solve it and respond with only the numerical result. If it contains a string of characters, respond with only that string. Do not include any explanation.".

Definition callGemini (apiKey model : option string) (payload : json) : M gemini_result :=
  let geminiUrl := "https://generativelanguage.googleapis.com/v1beta/models/"
                   +:+ interpolate model +:+ ":generateContent?key=" +:+ interpolate apiKey in
  response ← global_fetch geminiUrl payload;
  if negb (ok response)
  then mret (GeminiResult (Some ("Gemini API error: " +:+ res_text response)) None)
  else
    result ← response_json response;
    try_catch
      (solution ← lift (extract_solution result); mret (GeminiResult None (Some solution)))
      (fun _ => mret (GeminiResult (Some "Failed to parse Gemini response") None)).

Definition solveAndStore (taskId : string) (imageBase64 : jsval)
    (config : configuration) : M unit :=
  let geminiPayload :=
    JObj [("contents",
           JArr [JObj [("parts",
                        JArr [JObj [("text", JStr PROMPT_TEXT)];
                              JObj [("inline_data",
                                     JObj (object_literal [("mime_type", Some (JStr "image/png"));
                                                           ("data", imageBase64)]))]])]]);
          ("generationConfig", GENERATION_CONFIG)] in
  geminiResult ← callGemini (geminiApiKey config) (geminiModel config) geminiPayload;
  let finalResult :=
    if truthy_str (error geminiResult)
    then [("status", Some "error"); ("message", error geminiResult)]
    else [("status", Some "completed"); ("solution", solution geminiResult)] in
  kv_put (kv config) taskId (JSON_stringify finalResult) 300.

Definition handleSubmit (request : request) (config : configuration) : M response :=
  if negb (String.eqb (method request) "POST")
  then mret (text_response "Expected POST" 405)
  else
    let clientAuthToken := headers_get (headers request) "Authorization" in
    if strict_neq clientAuthToken (Some ("Bearer " +:+ interpolate (authToken config)))
    then mret (text_response "Unauthorized: Invalid AUTH_TOKEN" 401)
    else
      match request_json request with
      | None => mret (text_response "Invalid JSON body" 400)
      | Some body =>
          image ← lift (get_prop (Some body) "image");
          if negb (truthy image)
          then mret (text_response
                       ("Missing " +:+ dquote +:+ "image" +:+ dquote +:+ " field") 400)
          else
            taskId ← crypto_randomUUID;
            kv_put (kv config) taskId (JSON_stringify [("status", Some "pending")]) 300;;
            waitUntil (Job taskId image None config);;
            mret (json_response (JSON_stringify [("taskId", Some taskId)]))
      end.

Definition handleResult (request : request) (config : configuration) : M response :=
  if negb (String.eqb (method request) "GET")
  then mret (text_response "Expected GET" 405)
  else
    let taskId := searchParams_get (searchParams request) "taskId" in
    let clientApiKey := searchParams_get (searchParams request) "apiKey" in
    if strict_neq clientApiKey (apiKey config)
    then mret (text_response "Unauthorized: Invalid API_KEY" 401)
    else
      let missing := text_response ("Missing " +:+ dquote +:+ "taskId" +:+ dquote
                                    +:+ " query parameter") 400 in
      match taskId with
      | None => mret missing
      | Some id =>
          if is_empty id then mret missing
          else
            result ← kv_get (kv config) id;
            match result with
            | None => mret (text_response "Task not found or expired" 404)
            | Some value => mret (json_response value)
            end
      end.

Definition fetch (request : request) (env : environment) : M response :=
  let externalConfig := read_config env in
  match first_falsy (config_entries externalConfig) with
  | Some key => mret (not_configured key)
  | None =>
      if String.eqb (pathname request) "/submit" then handleSubmit request externalConfig
      else if String.eqb (pathname request) "/result" then handleResult request externalConfig
      else mret (text_response "Not Found. Use /submit or /result endpoints." 404)
  end.

(** The body of the promise given to [ctx.waitUntil]. *)
Definition run_job (j : job) : M unit :=
  solveAndStore (job_taskId j) (job_image j) (job_config j).

End ApiWorker.

(** ** The Worker as a transition system

    One step serves a request to its response, settles one detached
    promise, lets time pass, or changes how the provider will answer.
    The code of a handler after [ctx.waitUntil] runs without awaiting,
    and the code of [solveAndStore] that writes sits behind the awaited
    provider call, so a promise is settled in a step of its own, after
    the step that detached it.  A handler that throws makes the host
    answer with its own error page (status 500). *)

Definition host_error_page : response := text_response "Worker threw exception" 500.

Definition serve (entry : request -> environment -> M response)
    (req : request) (env : environment) (w : world) : response * world :=
  match entry req env w with
  | (Returned r, w') => (r, log (EvRespond r) w')
  | (Thrown _, w') => (host_error_page, log (EvRespond host_error_page) w')
  end.

Fixpoint remove_nth {A : Type} (n : nat) (l : list A) : list A :=
  match n, l with
  | _, [] => []
  | O, _ :: l' => l'
  | S n', x :: l' => x :: remove_nth n' l'
  end.

Definition settle (runner : job -> M unit) (n : nat) (w : world) : world :=
  match background w !! n with
  | None => w
  | Some j =>
      let w0 := set_background (remove_nth n) w in
      match runner j w0 with
      | (Returned _, w') => log (EvSettled (job_taskId j) true) w'
      | (Thrown _, w') => log (EvSettled (job_taskId j) false) w'
      end
  end.

Inductive step (entry : request -> environment -> M response) (runner : job -> M unit)
    (env : environment) : world -> world -> Prop :=
| step_serve (req : request) (w : world) :
    step entry runner env w (snd (serve entry req env w))
| step_settle (n : nat) (j : job) (w : world) :
    background w !! n = Some j ->
    step entry runner env w (settle runner n w)
| step_tick (d : Z) (w : world) :
    0 <= d ->
    step entry runner env w (set_clock (clock w + d) w)
| step_provider (g : string -> json -> fetch_outcome) (w : world) :
    step entry runner env w (set_gemini g w).

Inductive steps (entry : request -> environment -> M response) (runner : job -> M unit)
    (env : environment) : world -> world -> Prop :=
| steps_refl (w : world) : steps entry runner env w w
| steps_snoc (w1 w2 w3 : world) :
    steps entry runner env w1 w2 ->
    step entry runner env w2 w3 ->
    steps entry runner env w1 w3.

(** The stored text of the three task states. *)
Definition pending_json : string := JSON_stringify [("status", Some "pending")].
Definition error_json (message : string) : string :=
  JSON_stringify [("status", Some "error"); ("message", Some message)].
Definition completed_json (solution : string) : string :=
  JSON_stringify [("status", Some "completed"); ("solution", Some solution)].

(** ** Vocabulary of the statements *)


(** A text setting is falsy when it is absent or the empty string. *)
Definition falsy_text (v : option string) : Prop :=
  v = None ∨ v = Some EmptyString.

Definition falsy_setting (env : environment) : Prop :=
  falsy_text (GEMINI_API_KEY env) ∨ falsy_text (GEMINI_MODEL env)
  ∨ falsy_text (AUTH_TOKEN env) ∨ falsy_text (API_KEY env) ∨ RESULTS_KV env = None.

(** All five settings are present and non-empty. *)
Definition configured (env : environment) : bool :=
  truthy_str (GEMINI_API_KEY env) && truthy_str (GEMINI_MODEL env)
  && truthy_str (AUTH_TOKEN env) && truthy_str (API_KEY env) && is_some (RESULTS_KV env).

(** The request carries the submission credential of the configuration. *)
Definition authenticated (req : request) (config : configuration) : Prop :=
  ∃ token, authToken config = Some token
           ∧ headers_get (headers req) "Authorization" = Some ("Bearer " +:+ token).

(** The request carries the query credential of the configuration. *)
Definition right_query_credential (req : request) (config : configuration) : Prop :=
  ∃ key, apiKey config = Some key
         ∧ searchParams_get (searchParams req) "apiKey" = Some key.

Definition is_store_read (e : event) : bool :=
  match e with EvKvGet _ => true | _ => false end.

Definition is_store_write (e : event) : bool :=
  match e with EvKvPut _ _ _ => true | _ => false end.

Definition taskId_json (id : string) : string := JSON_stringify [("taskId", Some id)].

(** The world after a submission was accepted: the identifier is drawn,
    the pending entry is written with its expiry, the promise is handed
    to the host, and three host calls are on the trace in that order. *)
Definition created (j : job) (w : world) : world :=
  World (<[job_taskId j := KvEntry pending_json (clock w + 300)]> (kv_data w))
        (clock w) (entropy w) (S (uuids_drawn w)) (gemini w)
        (background w ++ [j])%list
        (trace w ++ [EvRandomUUID (job_taskId j);
                     EvKvPut (job_taskId j) pending_json 300;
                     EvWaitUntil (job_taskId j)])%list.

(** What a lookup of [id] answers on the store contents [m] at time
    [now], for the script with the page ([!result]) and for
    [captcha-gemini.js] ([result === null]). *)
Definition page_lookup_response (id : string) (now : Z) (m : gmap string kv_entry) : response :=
  match store_get id now m with
  | None => text_response "Task not found or expired" 404
  | Some value =>
      if is_empty value then text_response "Task not found or expired" 404
      else json_response value
  end.

Definition api_lookup_response (id : string) (now : Z) (m : gmap string kv_entry) : response :=
  match store_get id now m with
  | None => text_response "Task not found or expired" 404
  | Some value => json_response value
  end.

(** What the inference client resolves to, or throws, on a given reply
    of the provider. *)
Definition client_outcome (reply : fetch_outcome) : outcome gemini_result :=
  match reply with
  | FetchRejected => Thrown NetworkError
  | FetchResponse res =>
      if ok res then
        match res_json res with
        | None => Thrown SyntaxError
        | Some j =>
            match extract_solution j with
            | Returned s => Returned (GeminiResult None (Some s))
            | Thrown _ => Returned (GeminiResult (Some "Failed to parse Gemini response") None)
            end
        end
      else Returned (GeminiResult (Some ("Gemini API error: " +:+ res_text res)) None)
  end.

(** The text the background step stores for a result of the client. *)
Definition terminal_text (result : gemini_result) : string :=
  JSON_stringify
    (if truthy_str (error result)
     then [("status", Some "error"); ("message", error result)]
     else [("status", Some "completed"); ("solution", solution result)]).

(** The address the client posts to for a model and a provider
    credential. *)
Definition gemini_endpoint (model apiKey : option string) : string :=
  "https://generativelanguage.googleapis.com/v1beta/models/" +:+ interpolate model
  +:+ ":generateContent?key=" +:+ interpolate apiKey.

(** The provider answers [reply] to whatever it is asked. *)
Definition provider_replies (w : world) (reply : fetch_outcome) : Prop :=
  ∀ url payload, gemini w url payload = reply.

(** The identifier the next [crypto.randomUUID()] gives. *)
Definition next_id (w : world) : string := entropy w (uuids_drawn w).

(** The world after the terminal write of a task. *)
Definition terminated (taskId final : string) (w : world) : world :=
  World (<[taskId := KvEntry final (clock w + 300)]> (kv_data w))
        (clock w) (entropy w) (uuids_drawn w) (gemini w) (background w)
        (trace w ++ [EvKvPut taskId final 300])%list.

(** What a handler may do to the world: nothing, one store read, one
    identifier drawn before a throw, or the creation of a task. *)
Inductive handler_effect (w : world) : outcome response -> world -> Prop :=
| effect_none (o : outcome response) :
    handler_effect w o w
| effect_read (o : outcome response) (id : string) :
    handler_effect w o (log (EvKvGet id) w)
| effect_drawn (e : exn) :
    handler_effect w (Thrown e)
      (log (EvRandomUUID (next_id w)) (set_uuids_drawn (S (uuids_drawn w)) w))
| effect_created (j : job) :
    handler_effect w (Returned (json_response (taskId_json (job_taskId j)))) (created j w).

(** What the background step may do to the world: nothing (it threw), or
    the terminal write. *)
Inductive job_effect (j : job) (w : world) : outcome unit -> world -> Prop :=
| effect_thrown (e : exn) :
    job_effect j w (Thrown e) w
| effect_terminated (final : string) :
    job_effect j w (Returned tt) (terminated (job_taskId j) final w).

(** In the trace [tr], before position [n], the pending write of [id] is
    followed by the response that returns [id]. *)
Definition responded (tr : list event) (id : string) (n : nat) : Prop :=
  ∃ a b, (a < b < n)%nat
         ∧ tr !! a = Some (EvKvPut id pending_json 300)
         ∧ tr !! b = Some (EvRespond (json_response (taskId_json id))).

(** Every write of a text other than the pending one comes after the
    pending write and the response of its identifier. *)
Definition terminal_after_response (tr : list event) : Prop :=
  ∀ i id value ttl,
    tr !! i = Some (EvKvPut id value ttl) → value ≠ pending_json → responded tr id i.

(** Every promise held by the host belongs to a task whose identifier
    was already returned. *)
Definition announced (w : world) : Prop :=
  ∀ j, j ∈ background w → responded (trace w) (job_taskId j) (List.length (trace w)).

Definition ordered (w : world) : Prop :=
  terminal_after_response (trace w) ∧ announced w.


(** The value at [candidates[0].content.parts[0].text] of a provider
    body, before [trim] is called on it. *)
Definition answer_field (j : json) : outcome jsval :=
  candidates ← get_prop (Some j) "candidates";
  candidate ← get_index candidates 0;
  content ← get_prop candidate "content";
  parts ← get_prop content "parts";
  part ← get_index parts 0;
  get_prop part "text".

(** The world after a list of polls, one after the other. *)
Fixpoint after_polls (handle : request -> configuration -> M response)
    (polls : list request) (config : configuration) (w : world) : world :=
  match polls with
  | [] => w
  | req :: rest => after_polls handle rest config (snd (handle req config w))
  end.

(** A request that submits a truthy image with the right credential. *)
Definition submits_image (req : request) (config : configuration) (image : jsval) : Prop :=
  method req = "POST" ∧ authenticated req config
  ∧ ∃ body, request_json req = Some body
            ∧ get_prop (Some body) "image" = Returned image ∧ truthy image = true.

(** A request whose body declares a truthy media type. *)
Definition declares_media_type (req : request) (mimeType : jsval) : Prop :=
  ∃ body, request_json req = Some body
          ∧ get_prop (Some body) "mimeType" = Returned mimeType ∧ truthy mimeType = true.

(** A request that polls [id] with the right credential. *)
Definition polls_task (req : request) (config : configuration) (id : string) : Prop :=
  method req = "GET" ∧ right_query_credential req config
  ∧ searchParams_get (searchParams req) "taskId" = Some id.

(** A poll changes nothing but the trace, to which it may add one store
    read. *)
Definition only_reads (handle : request -> configuration -> M response)
    (req : request) (config : configuration) (w : world) : Prop :=
  snd (handle req config w) = w
  ∨ ∃ id, snd (handle req config w) = log (EvKvGet id) w.

Definition no_store_write (evs : list event) : bool :=
  forallb (fun e => negb (is_store_write e)) evs.

(** A submit handler either writes nothing to the store, or writes the
    pending text under the identifier it returns, with expiry 300 seconds
    after the time of the write. *)
Definition pending_write_ttl_300 (handle : request -> configuration -> M response)
    (req : request) (config : configuration) (w : world) : Prop :=
  (kv_data (snd (handle req config w)) = kv_data w
   ∧ ∃ evs, trace (snd (handle req config w)) = (trace w ++ evs)%list
            ∧ no_store_write evs = true)
  ∨ (∃ id,
       fst (handle req config w) = Returned (json_response (taskId_json id))
       ∧ kv_data (snd (handle req config w))
         = <[id := KvEntry pending_json (clock w + 300)]> (kv_data w)
       ∧ trace (snd (handle req config w))
         = (trace w ++ [EvRandomUUID id; EvKvPut id pending_json 300; EvWaitUntil id])%list).

(** A background step either throws and leaves the world as it was, or,
    whatever the store held before ([f] replaces its contents), writes
    one text under the identifier of its task, as a whole entry with
    expiry 300 seconds after the time of the write. *)
Definition terminal_write_ttl_300 (run : job -> M unit) (j : job) (w : world) : Prop :=
  (∃ e, run j w = (Thrown e, w))
  ∨ (∃ final, ∀ f,
       fst (run j (set_kv_data f w)) = Returned tt
       ∧ kv_data (snd (run j (set_kv_data f w)))
         = <[job_taskId j := KvEntry final (clock w + 300)]> (f (kv_data w))
       ∧ kv_data (snd (run j (set_kv_data f w))) !! job_taskId j
         = Some (KvEntry final (clock w + 300))
       ∧ trace (snd (run j (set_kv_data f w)))
         = (trace w ++ [EvKvPut (job_taskId j) final 300])%list).

(** The provider answers [reply] to whatever is posted to the
    generateContent address of the configured model with the configured
    credential. *)
Definition provider_replies_to (config : configuration) (w : world) (reply : fetch_outcome)
  : Prop :=
  ∀ payload, gemini w (gemini_endpoint (geminiModel config) (geminiApiKey config)) payload = reply.

(** The submit handler returns the identifier it draws and writes the
    pending text under it, as an entry whose expiry is 300 seconds after
    the time of the write. *)
Definition writes_pending (handle : request -> configuration -> M response)
    (req : request) (config : configuration) (w : world) : Prop :=
  fst (handle req config w) = Returned (json_response (taskId_json (next_id w)))
  ∧ kv_data (snd (handle req config w))
    = <[next_id w := KvEntry pending_json (clock w + 300)]> (kv_data w)
  ∧ kv_data (snd (handle req config w)) !! next_id w
    = Some (KvEntry pending_json (clock w + 300))
  ∧ trace (snd (handle req config w))
    = (trace w ++ [EvRandomUUID (next_id w); EvKvPut (next_id w) pending_json 300;
                   EvWaitUntil (next_id w)])%list.

(** Whatever the store held before ([f] replaces its contents), the
    background step returns and writes [final] under the identifier of
    its task, as a whole entry whose expiry is 300 seconds after the
    time of the write. *)
Definition writes_terminal (run : job -> M unit) (j : job) (final : string) (w : world)
  : Prop :=
  ∀ f,
    fst (run j (set_kv_data f w)) = Returned tt
    ∧ kv_data (snd (run j (set_kv_data f w)))
      = <[job_taskId j := KvEntry final (clock w + 300)]> (f (kv_data w))
    ∧ kv_data (snd (run j (set_kv_data f w))) !! job_taskId j
      = Some (KvEntry final (clock w + 300))
    ∧ trace (snd (run j (set_kv_data f w)))
      = (trace w ++ [EvKvPut (job_taskId j) final 300])%list.

(** The submission is served in [w] and the background step of its task
    [j] runs when the clock shows [t]: the pending entry, which expires
    300 seconds after the submission, is replaced by the entry of
    [final], which expires 300 seconds after [t]; the other entries stay
    as they were. *)
Definition replaces_pending (handle : request -> configuration -> M response)
    (run : job -> M unit) (req : request) (config : configuration) (j : job)
    (final : string) (t : Z) (w : world) : Prop :=
  let w1 := snd (handle req config w) in
  let w2 := snd (run j (set_clock t w1)) in
  background w1 = (background w ++ [j])%list
  ∧ kv_data w1 !! job_taskId j = Some (KvEntry pending_json (clock w + 300))
  ∧ fst (run j (set_clock t w1)) = Returned tt
  ∧ kv_data w2 !! job_taskId j = Some (KvEntry final (t + 300))
  ∧ (∀ id, id ≠ job_taskId j → kv_data w2 !! id = kv_data w !! id).

(** ** A concrete deployment, for the examples *)

Definition demo_page : string := "<!DOCTYPE html>".

Definition demo_env : environment :=
  Env (Some "provider-key") (Some "gemini-pro-vision") (Some "submit-secret")
      (Some "query-secret") (Some ResultsKV).

Definition demo_world (reply : fetch_outcome) : world :=
  World ∅ 1000 (fun n => "task-" +:+ pretty n) 0 (fun _ _ => reply) [] [].

Definition demo_submit (body : json) : request :=
  Request "POST" "/submit" [] [("Authorization", "Bearer submit-secret")] (Some body).

Definition demo_poll (id key : string) : request :=
  Request "GET" "/result" [("taskId", id); ("apiKey", key)] [] None.

Definition demo_body : json :=
  JObj [("image", JStr "iVBORw0KGgo="); ("mimeType", JStr "image/png")].

(** A provider body whose answer field holds [text]. *)
Definition provider_answer (text : string) : json :=
  JObj [("candidates",
         JArr [JObj [("content", JObj [("parts", JArr [JObj [("text", JStr text)]])])]])].

(** A provider reply with a success status whose body is not JSON. *)
Definition html_reply : fetch_outcome :=
  FetchResponse (ProviderResponse 200 "<html>Service Unavailable</html>" None).

(** A provider reply with a success status whose answer text is [text]. *)
Definition answer_reply (text : string) : fetch_outcome :=
  FetchResponse (ProviderResponse 200 "{...}" (Some (provider_answer text))).

(** The deployment after one valid submission, and after the background
    step of that submission has run to its end. *)
Definition submitted (entry : request -> environment -> M response)
    (reply : fetch_outcome) : world :=
  snd (serve entry (demo_submit demo_body) demo_env (demo_world reply)).

Definition settled (entry : request -> environment -> M response)
    (runner : job -> M unit) (reply : fetch_outcome) : world :=
  settle runner 0 (submitted entry reply).

(** U+00A0, U+3000 and U+FEFF in UTF-8. *)
Definition nbsp : string :=
  String (ascii_of_nat 194) (String (ascii_of_nat 160) EmptyString).
Definition ideographic_space : string :=
  String (ascii_of_nat 227) (String (ascii_of_nat 128) (String (ascii_of_nat 128) EmptyString)).
Definition byte_order_mark : string :=
  String (ascii_of_nat 239) (String (ascii_of_nat 187) (String (ascii_of_nat 191) EmptyString)).

(** A submission body with an image and no media type. *)
Definition image_only : json := JObj [("image", JStr "iVBORw0KGgo=")].

(** ** Vocabulary of the further properties *)

(** The four ways a submit handler can end: a refusal that leaves the
    world as it was, a created task whose identifier is the one returned,
    a TypeError on a body that is JSON [null], or a TypeError on an
    unbound store after the identifier was drawn. *)
Definition submit_outcome_class (handle : request -> configuration -> M response)
    (req : request) (config : configuration) (w : world) : Prop :=
  (∃ r, handle req config w = (Returned r, w)
        ∧ (status r = 405 ∨ status r = 401 ∨ status r = 400))
  ∨ (∃ j, handle req config w
          = (Returned (json_response (taskId_json (next_id w))), created j w)
          ∧ job_taskId j = next_id w ∧ job_config j = config
          ∧ kv config = Some ResultsKV)
  ∨ (handle req config w = (Thrown TypeError, w) ∧ request_json req = Some JNull)
  ∨ (handle req config w
     = (Thrown TypeError,
        log (EvRandomUUID (next_id w)) (set_uuids_drawn (S (uuids_drawn w)) w))
     ∧ kv config = None).

(** The status codes the scripts answer with. *)
Definition known_status (code : Z) : Prop :=
  code = 200 ∨ code = 400 ∨ code = 401 ∨ code = 404 ∨ code = 405 ∨ code = 500.

(** The entry of [id] is absent from the store contents [m], or its
    expiry has passed at time [now]. *)
Definition no_live_entry (id : string) (now : Z) (m : gmap string kv_entry) : Prop :=
  m !! id = None ∨ ∃ e, m !! id = Some e ∧ entry_expiry e <= now.

(** The world [d] seconds later. *)
Definition later (d : Z) (w : world) : world := set_clock (clock w + d) w.

(** A request the script with the page accepts as a submission: the
    settings are in place, the path is /submit, the credential is right,
    and the body holds a truthy image and a truthy media type. *)
Definition accepted_by_page (req : request) (env : environment) (image mimeType : jsval) : Prop :=
  configured env = true ∧ pathname req = "/submit"
  ∧ submits_image req (read_config env) image ∧ declares_media_type req mimeType.

(** A request [captcha-gemini.js] accepts as a submission. *)
Definition accepted_by_api (req : request) (env : environment) (image : jsval) : Prop :=
  configured env = true ∧ pathname req = "/submit"
  ∧ submits_image req (read_config env) image.

(** A request to /result that polls [id] with the right credential. *)
Definition poll_of (poll : request) (env : environment) (id : string) : Prop :=
  pathname poll = "/result" ∧ polls_task poll (read_config env) id.

(** The world after a submission was served in [w] and, [d] seconds
    later, the background step of that submission has run to its end. *)
Definition after_background (entry : request -> environment -> M response)
    (runner : job -> M unit) (req : request) (env : environment) (d : Z) (w : world) : world :=
  settle runner (List.length (background w)) (later d (snd (serve entry req env w))).

(** The text of one of the three task states: pending, error with a
    message that is not empty, or completed with a solution. *)
Definition task_state_text (v : string) : Prop :=
  v = pending_json
  ∨ (∃ message, is_empty message = false ∧ v = error_json message)
  ∨ (∃ solution, v = completed_json solution).

(** Every entry of the store holds the text of a task state and expires
    at most 300 seconds from now. *)
Definition store_well_formed (w : world) : Prop :=
  ∀ id e, kv_data w !! id = Some e →
          task_state_text (entry_value e) ∧ entry_expiry e <= clock w + 300.

(** What serving a request does to the world, with the identifier of a
    created task. *)
Definition request_effect (w w' : world) : Prop :=
  w' = w
  ∨ (∃ id, w' = log (EvKvGet id) w)
  ∨ w' = log (EvRandomUUID (next_id w)) (set_uuids_drawn (S (uuids_drawn w)) w)
  ∨ (∃ j, job_taskId j = next_id w ∧ w' = created j w).

(** What a background step does to the world, with the shape of the text
    it writes. *)
Definition background_effect (j : job) (w w' : world) : Prop :=
  w' = w ∨ ∃ final, task_state_text final ∧ w' = terminated (job_taskId j) final w.

(** The values written under [id], in the order of the trace. *)
Definition writes_of (id : string) (tr : list event) : list string :=
  flat_map (fun e => match e with
                     | EvKvPut key value _ => if String.eqb key id then [value] else []
                     | _ => []
                     end) tr.

(** [id] is one of the identifiers drawn so far. *)
Definition drawn (w : world) (id : string) : Prop :=
  ∃ k, (k < uuids_drawn w)%nat ∧ entropy w k = id.

(** No identifier is given twice. *)
Definition distinct_identifiers (source : nat -> string) : Prop :=
  ∀ a b, source a = source b → a = b.

(** The writes under [id] are none, the pending text, or the pending
    text followed by one more text. *)
Definition create_then_terminate (tr : list event) (id : string) : Prop :=
  writes_of id tr = []
  ∨ writes_of id tr = [pending_json]
  ∨ ∃ final, writes_of id tr = [pending_json; final].

Definition lifecycle_inv (w : world) : Prop :=
  distinct_identifiers (entropy w)
  ∧ (∀ id, writes_of id (trace w) ≠ [] → drawn w id)
  ∧ (∀ j, j ∈ background w →
          drawn w (job_taskId j) ∧ writes_of (job_taskId j) (trace w) = [pending_json])
  ∧ NoDup (job_taskId <$> background w)
  ∧ (∀ id, create_then_terminate (trace w) id).





(** What the background step does once the provider has answered
    [reply]. *)
Definition background_result (j : job) (reply : fetch_outcome) (w : world)
  : outcome unit * world :=
  match client_outcome reply with
  | Returned result => (Returned tt, terminated (job_taskId j) (terminal_text result) w)
  | Thrown e => (Thrown e, w)
  end.

(** The result of the client carries an error that is not empty and no
    solution, or no error and a solution that [trim] leaves as it is. *)
Definition well_shaped (result : gemini_result) : Prop :=
  (∃ message, is_empty message = false
              ∧ error result = Some message ∧ solution result = None)
  ∨ (∃ s, error result = None ∧ solution result = Some s ∧ trim s = s).

(** ** Basic facts *)

Ltac run_m :=
  unfold mbind, mret, M_bind, M_ret, outcome_bind, outcome_ret, throw, lift, try_catch in *;
  simpl in *.

Arguments get_prop : simpl never.
Arguments get_index : simpl never.
Arguments extract_solution : simpl never.
Arguments JSON_stringify : simpl never.

(** Whether reading a property throws depends on the value read from,
    not on the name. *)
Lemma get_prop_throws (v : jsval) (a b : string) (e : exn) :
  get_prop v a = Thrown e → get_prop v b = Thrown TypeError.
Proof.
  unfold get_prop. destruct v as [[]|]; try reflexivity; try discriminate;
    destruct (String.eqb a "length"); discriminate.
Qed.

Example trim_both_ends : trim "  42 " = "42".
Proof. reflexivity. Qed.

Example trim_only_spaces : trim "   " = EmptyString.
Proof. reflexivity. Qed.

Example trim_no_break_space :
  trim (nbsp +:+ " 42" +:+ nbsp) = "42" ∧ trim (nbsp +:+ nbsp) = EmptyString.
Proof. split; reflexivity. Qed.

Example trim_wide_spaces :
  trim (ideographic_space +:+ "4 2" +:+ byte_order_mark) = "4 2".
Proof. reflexivity. Qed.

Example trim_keeps_other_bytes :
  trim (String (ascii_of_nat 226) (String (ascii_of_nat 128) (String (ascii_of_nat 148) "7")))
  = String (ascii_of_nat 226) (String (ascii_of_nat 128) (String (ascii_of_nat 148) "7")).
Proof. reflexivity. Qed.

Example headers_get_ignores_case :
  headers_get [("authorization", "Bearer t")] "Authorization" = Some "Bearer t".
Proof. reflexivity. Qed.

Example pending_json_text :
  pending_json = "{" +:+ dquote +:+ "status" +:+ dquote +:+ ":"
                 +:+ dquote +:+ "pending" +:+ dquote +:+ "}".
Proof. reflexivity. Qed.

Example error_json_escapes :
  error_json ("a" +:+ dquote +:+ "b")
  = "{" +:+ dquote +:+ "status" +:+ dquote +:+ ":" +:+ dquote +:+ "error" +:+ dquote
    +:+ "," +:+ dquote +:+ "message" +:+ dquote +:+ ":"
    +:+ dquote +:+ "a" +:+ backslash +:+ dquote +:+ "b" +:+ dquote +:+ "}".
Proof. reflexivity. Qed.

Example answer_of_provider_body :
  extract_solution (provider_answer " 42 ") = Returned "42".
Proof. reflexivity. Qed.

Example null_body_throws : get_prop (Some JNull) "image" = Thrown TypeError.
Proof. reflexivity. Qed.

Example first_missing_is_named :
  first_falsy (config_entries (Config (Some "k") None None (Some "q") None))
  = Some "geminiModel".
Proof. reflexivity. Qed.

Lemma eqb_false_of_neq (a b : string) : a ≠ b → String.eqb a b = false.
Proof. intros H. by apply String.eqb_neq. Qed.

Lemma truthy_str_falsy (v : option string) : falsy_text v → truthy_str v = false.
Proof. by intros [-> | ->]. Qed.


Lemma configured_first_falsy (env : environment) :
  configured env = true ↔ first_falsy (config_entries (read_config env)) = None.
Proof.
  unfold configured, config_entries, read_config. simpl.
  destruct (truthy_str (GEMINI_API_KEY env)), (truthy_str (GEMINI_MODEL env)),
    (truthy_str (AUTH_TOKEN env)), (truthy_str (API_KEY env)), (is_some (RESULTS_KV env));
    simpl; split; congruence.
Qed.

(** A falsy setting makes the presence loop stop at a property whose
    value is falsy. *)
Lemma falsy_setting_first_falsy (env : environment) :
  falsy_setting env →
  ∃ key, first_falsy (config_entries (read_config env)) = Some key
         ∧ assoc key (config_entries (read_config env)) = Some false.
Proof.
  intros H.
  assert (configured env = false) as Hc.
  { unfold configured. destruct H as [H|[H|[H|[H|H]]]];
      [apply truthy_str_falsy in H; rewrite H ..| rewrite H]; simpl;
      rewrite ?andb_false_r; reflexivity. }
  clear H. revert Hc. unfold configured, config_entries, read_config. simpl.
  destruct (truthy_str (GEMINI_API_KEY env)), (truthy_str (GEMINI_MODEL env)),
    (truthy_str (AUTH_TOKEN env)), (truthy_str (API_KEY env)), (is_some (RESULTS_KV env));
    simpl; intros Hc; try discriminate; eexists; (split; [reflexivity|reflexivity]).
Qed.

Section Gate.

Variable page : string.

Lemma page_fetch_not_configured (req : request) (env : environment) (key : string) (w : world) :
  first_falsy (config_entries (read_config env)) = Some key →
  PageWorker.fetch page req env w = (Returned (not_configured key), w).
Proof. intros H. unfold PageWorker.fetch. by rewrite H. Qed.

Lemma api_fetch_not_configured (req : request) (env : environment) (key : string) (w : world) :
  first_falsy (config_entries (read_config env)) = Some key →
  ApiWorker.fetch req env w = (Returned (not_configured key), w).
Proof. intros H. unfold ApiWorker.fetch. by rewrite H. Qed.

Lemma page_fetch_configured (req : request) (env : environment) :
  configured env = true →
  PageWorker.fetch page req env =
    if String.eqb (pathname req) "/"
    then mret (Response 200 page [("Content-Type", "text/html; charset=UTF-8")])
    else if String.eqb (pathname req) "/submit" then PageWorker.handleSubmit req (read_config env)
    else if String.eqb (pathname req) "/result" then PageWorker.handleResult req (read_config env)
    else mret (text_response "Not Found. Use /, /submit or /result." 404).
Proof.
  intros H. apply configured_first_falsy in H. unfold PageWorker.fetch. by rewrite H.
Qed.

Lemma api_fetch_configured (req : request) (env : environment) :
  configured env = true →
  ApiWorker.fetch req env =
    if String.eqb (pathname req) "/submit" then ApiWorker.handleSubmit req (read_config env)
    else if String.eqb (pathname req) "/result" then ApiWorker.handleResult req (read_config env)
    else mret (text_response "Not Found. Use /submit or /result endpoints." 404).
Proof.
  intros H. apply configured_first_falsy in H. unfold ApiWorker.fetch. by rewrite H.
Qed.

End Gate.

(** ** The submit handlers, case by case *)

Lemma strict_neq_same (s : string) : strict_neq (Some s) (Some s) = false.
Proof. simpl. by rewrite String.eqb_refl. Qed.

Lemma strict_neq_wrong (a b : option string) :
  (∀ s, b = Some s → a ≠ Some s) → strict_neq a b = true.
Proof.
  intros H. destruct a as [x|], b as [y|]; simpl; try reflexivity.
  destruct (String.eqb x y) eqn:E; [|reflexivity].
  apply String.eqb_eq in E. subst y. by destruct (H x).
Qed.

Lemma authenticated_token (req : request) (config : configuration) :
  authenticated req config →
  strict_neq (headers_get (headers req) "Authorization")
             (Some ("Bearer " +:+ interpolate (authToken config))) = false.
Proof. intros (token & -> & ->). apply strict_neq_same. Qed.

Lemma page_submit_wrong_method (req : request) (config : configuration) (w : world) :
  method req ≠ "POST" →
  PageWorker.handleSubmit req config w = (Returned (text_response "Expected POST" 405), w).
Proof.
  intros H. unfold PageWorker.handleSubmit. by rewrite (eqb_false_of_neq _ _ H).
Qed.

Lemma api_submit_wrong_method (req : request) (config : configuration) (w : world) :
  method req ≠ "POST" →
  ApiWorker.handleSubmit req config w = (Returned (text_response "Expected POST" 405), w).
Proof.
  intros H. unfold ApiWorker.handleSubmit. by rewrite (eqb_false_of_neq _ _ H).
Qed.

Lemma page_submit_missing (req : request) (config : configuration) (w : world) (body : json) :
  method req = "POST" → authenticated req config → request_json req = Some body →
  get_prop (Some body) "image" = Returned None
  ∨ get_prop (Some body) "mimeType" = Returned None →
  ∃ r, PageWorker.handleSubmit req config w = (Returned r, w) ∧ status r = 400.
Proof.
  intros Hm Ha Hb Hmiss. unfold PageWorker.handleSubmit.
  rewrite Hm, (authenticated_token _ _ Ha), Hb. simpl.
  destruct Hmiss as [Hi | Ht].
  - run_m. rewrite Hi. simpl. eauto.
  - run_m. destruct (get_prop (Some body) "image") as [image|e] eqn:Hi.
    + destruct (truthy image); simpl; [|eauto]. rewrite Ht. simpl. eauto.
    + apply (get_prop_throws _ _ "mimeType") in Hi. congruence.
Qed.

Lemma api_submit_missing_image (req : request) (config : configuration) (w : world) (body : json) :
  method req = "POST" → authenticated req config → request_json req = Some body →
  get_prop (Some body) "image" = Returned None →
  ∃ r, ApiWorker.handleSubmit req config w = (Returned r, w) ∧ status r = 400.
Proof.
  intros Hm Ha Hb Hi. unfold ApiWorker.handleSubmit.
  rewrite Hm, (authenticated_token _ _ Ha), Hb. simpl.
  run_m. rewrite Hi. simpl. eauto.
Qed.

Lemma page_submit_created (req : request) (config : configuration) (w : world)
    (body : json) (image mimeType : jsval) :
  method req = "POST" → authenticated req config → request_json req = Some body →
  get_prop (Some body) "image" = Returned image → truthy image = true →
  get_prop (Some body) "mimeType" = Returned mimeType → truthy mimeType = true →
  kv config = Some ResultsKV →
  PageWorker.handleSubmit req config w =
    (Returned (json_response (taskId_json (next_id w))),
     created (Job (next_id w) image (Some mimeType) config) w).
Proof.
  intros Hm Ha Hb Hi Hti Ht Htt Hkv. unfold PageWorker.handleSubmit.
  rewrite Hm, (authenticated_token _ _ Ha), Hb. simpl.
  run_m. rewrite Hi. simpl. rewrite Hti. simpl. rewrite Ht. simpl. rewrite Htt. simpl.
  unfold crypto_randomUUID, kv_put. rewrite Hkv. simpl.
  unfold created, next_id, taskId_json, store_put, set_kv_data, log. simpl.
  by rewrite <- !app_assoc.
Qed.

Lemma api_submit_created (req : request) (config : configuration) (w : world)
    (body : json) (image : jsval) :
  method req = "POST" → authenticated req config → request_json req = Some body →
  get_prop (Some body) "image" = Returned image → truthy image = true →
  kv config = Some ResultsKV →
  ApiWorker.handleSubmit req config w =
    (Returned (json_response (taskId_json (next_id w))),
     created (Job (next_id w) image None config) w).
Proof.
  intros Hm Ha Hb Hi Hti Hkv. unfold ApiWorker.handleSubmit.
  rewrite Hm, (authenticated_token _ _ Ha), Hb. simpl.
  run_m. rewrite Hi. simpl. rewrite Hti. simpl.
  unfold crypto_randomUUID, kv_put. rewrite Hkv. simpl.
  unfold created, next_id, taskId_json, store_put, set_kv_data, log. simpl.
  by rewrite <- !app_assoc.
Qed.

(** ** The result handlers, case by case *)

Lemma page_result_wrong_method (req : request) (config : configuration) (w : world) :
  method req ≠ "GET" →
  PageWorker.handleResult req config w = (Returned (text_response "Expected GET" 405), w).
Proof.
  intros H. unfold PageWorker.handleResult. by rewrite (eqb_false_of_neq _ _ H).
Qed.

Lemma api_result_wrong_method (req : request) (config : configuration) (w : world) :
  method req ≠ "GET" →
  ApiWorker.handleResult req config w = (Returned (text_response "Expected GET" 405), w).
Proof.
  intros H. unfold ApiWorker.handleResult. by rewrite (eqb_false_of_neq _ _ H).
Qed.

Lemma page_result_wrong_key (req : request) (config : configuration) (w : world) :
  method req = "GET" →
  (∀ key, apiKey config = Some key → searchParams_get (searchParams req) "apiKey" ≠ Some key) →
  PageWorker.handleResult req config w
  = (Returned (text_response "Unauthorized: Invalid API_KEY" 401), w).
Proof.
  intros Hm Hk. unfold PageWorker.handleResult. rewrite Hm. simpl.
  by rewrite (strict_neq_wrong _ _ Hk).
Qed.

Lemma api_result_wrong_key (req : request) (config : configuration) (w : world) :
  method req = "GET" →
  (∀ key, apiKey config = Some key → searchParams_get (searchParams req) "apiKey" ≠ Some key) →
  ApiWorker.handleResult req config w
  = (Returned (text_response "Unauthorized: Invalid API_KEY" 401), w).
Proof.
  intros Hm Hk. unfold ApiWorker.handleResult. rewrite Hm. simpl.
  by rewrite (strict_neq_wrong _ _ Hk).
Qed.

Lemma right_query_credential_eq (req : request) (config : configuration) :
  right_query_credential req config →
  strict_neq (searchParams_get (searchParams req) "apiKey") (apiKey config) = false.
Proof. intros (key & -> & ->). apply strict_neq_same. Qed.

Lemma page_result_lookup (req : request) (config : configuration) (w : world) (id : string) :
  method req = "GET" → right_query_credential req config →
  searchParams_get (searchParams req) "taskId" = Some id → is_empty id = false →
  kv config = Some ResultsKV →
  PageWorker.handleResult req config w
  = (Returned (page_lookup_response id (clock w) (kv_data w)), log (EvKvGet id) w).
Proof.
  intros Hm Hk Hid Hne Hkv. unfold PageWorker.handleResult.
  rewrite Hm, (right_query_credential_eq _ _ Hk), Hid, Hne. simpl.
  unfold kv_get, page_lookup_response. rewrite Hkv. run_m.
  destruct (store_get id (clock w) (kv_data w)) as [value|]; [|done].
  by destruct (is_empty value).
Qed.

Lemma api_result_lookup (req : request) (config : configuration) (w : world) (id : string) :
  method req = "GET" → right_query_credential req config →
  searchParams_get (searchParams req) "taskId" = Some id → is_empty id = false →
  kv config = Some ResultsKV →
  ApiWorker.handleResult req config w
  = (Returned (api_lookup_response id (clock w) (kv_data w)), log (EvKvGet id) w).
Proof.
  intros Hm Hk Hid Hne Hkv. unfold ApiWorker.handleResult.
  rewrite Hm, (right_query_credential_eq _ _ Hk), Hid, Hne. simpl.
  unfold kv_get, api_lookup_response. rewrite Hkv. run_m.
  by destruct (store_get id (clock w) (kv_data w)).
Qed.

(** A poll leaves the world as it is, or adds one store read to the
    trace. *)
Lemma page_result_frame (req : request) (config : configuration) (w : world) :
  snd (PageWorker.handleResult req config w) = w
  ∨ ∃ id, snd (PageWorker.handleResult req config w) = log (EvKvGet id) w.
Proof.
  unfold PageWorker.handleResult.
  destruct (negb _); [by left|]. simpl.
  destruct (strict_neq _ _); [by left|].
  destruct (searchParams_get _ "taskId") as [id|]; [|by left].
  destruct (is_empty id); [by left|].
  unfold kv_get. destruct (kv config) as [[]|]; [|by left]. run_m.
  right. exists id.
  destruct (store_get _ _ _) as [value|]; [|done]. by destruct (is_empty value).
Qed.

Lemma api_result_frame (req : request) (config : configuration) (w : world) :
  snd (ApiWorker.handleResult req config w) = w
  ∨ ∃ id, snd (ApiWorker.handleResult req config w) = log (EvKvGet id) w.
Proof.
  unfold ApiWorker.handleResult.
  destruct (negb _); [by left|]. simpl.
  destruct (strict_neq _ _); [by left|].
  destruct (searchParams_get _ "taskId") as [id|]; [|by left].
  destruct (is_empty id); [by left|].
  unfold kv_get. destruct (kv config) as [[]|]; [|by left]. run_m.
  right. exists id. by destruct (store_get _ _ _).
Qed.

(** The answer of a poll is a function of the store contents and the
    clock. *)
Lemma page_result_answer (req : request) (config : configuration) (w1 w2 : world) :
  kv_data w1 = kv_data w2 → clock w1 = clock w2 →
  fst (PageWorker.handleResult req config w1) = fst (PageWorker.handleResult req config w2).
Proof.
  intros Hkv Hc. unfold PageWorker.handleResult.
  destruct (negb _); [done|]. simpl.
  destruct (strict_neq _ _); [done|].
  destruct (searchParams_get _ "taskId") as [id|]; [|done].
  destruct (is_empty id); [done|].
  unfold kv_get. destruct (kv config) as [[]|]; [|done]. run_m.
  rewrite Hkv, Hc.
  destruct (store_get _ _ _) as [value|]; [|done]. by destruct (is_empty value).
Qed.

Lemma api_result_answer (req : request) (config : configuration) (w1 w2 : world) :
  kv_data w1 = kv_data w2 → clock w1 = clock w2 →
  fst (ApiWorker.handleResult req config w1) = fst (ApiWorker.handleResult req config w2).
Proof.
  intros Hkv Hc. unfold ApiWorker.handleResult.
  destruct (negb _); [done|]. simpl.
  destruct (strict_neq _ _); [done|].
  destruct (searchParams_get _ "taskId") as [id|]; [|done].
  destruct (is_empty id); [done|].
  unfold kv_get. destruct (kv config) as [[]|]; [|done]. run_m.
  rewrite Hkv, Hc. by destruct (store_get _ _ _).
Qed.

(** ** The inference client and the background step, case by case *)

Lemma page_callGemini_at (k m : option string) (payload : json) (w : world)
    (reply : fetch_outcome) :
  gemini w (gemini_endpoint m k) payload = reply →
  PageWorker.callGemini k m payload w = (client_outcome reply, w).
Proof.
  intros H. unfold PageWorker.callGemini, global_fetch, gemini_endpoint in *. run_m. rewrite H.
  destruct reply as [|res]; simpl; [done|].
  destruct (ok res); simpl; [|done].
  unfold response_json. destruct (res_json res) as [j|]; run_m; [|done].
  by destruct (extract_solution j).
Qed.

Lemma api_callGemini_at (k m : option string) (payload : json) (w : world)
    (reply : fetch_outcome) :
  gemini w (gemini_endpoint m k) payload = reply →
  ApiWorker.callGemini k m payload w = (client_outcome reply, w).
Proof.
  intros H. unfold ApiWorker.callGemini, global_fetch, gemini_endpoint in *. run_m. rewrite H.
  destruct reply as [|res]; simpl; [done|].
  destruct (ok res); simpl; [|done].
  unfold response_json. destruct (res_json res) as [j|]; run_m; [|done].
  by destruct (extract_solution j).
Qed.

Lemma page_callGemini_outcome (k m : option string) (payload : json) (w : world)
    (reply : fetch_outcome) :
  provider_replies w reply →
  PageWorker.callGemini k m payload w = (client_outcome reply, w).
Proof. intros H. apply page_callGemini_at, H. Qed.

Lemma api_callGemini_outcome (k m : option string) (payload : json) (w : world)
    (reply : fetch_outcome) :
  provider_replies w reply →
  ApiWorker.callGemini k m payload w = (client_outcome reply, w).
Proof. intros H. apply api_callGemini_at, H. Qed.

Lemma page_job_outcome (j : job) (w : world) (reply : fetch_outcome) :
  provider_replies w reply → kv (job_config j) = Some ResultsKV →
  PageWorker.run_job j w =
    match client_outcome reply with
    | Returned result => (Returned tt, terminated (job_taskId j) (terminal_text result) w)
    | Thrown e => (Thrown e, w)
    end.
Proof.
  intros H Hkv. unfold PageWorker.run_job, PageWorker.solveAndStore.
  unfold mbind at 1. unfold M_bind. rewrite (page_callGemini_outcome _ _ _ _ _ H).
  destruct (client_outcome reply) as [result|e]; [|done].
  unfold kv_put. rewrite Hkv. unfold terminated, terminal_text. simpl.
  by destruct (truthy_str (error result)).
Qed.

Lemma api_job_outcome (j : job) (w : world) (reply : fetch_outcome) :
  provider_replies w reply → kv (job_config j) = Some ResultsKV →
  ApiWorker.run_job j w =
    match client_outcome reply with
    | Returned result => (Returned tt, terminated (job_taskId j) (terminal_text result) w)
    | Thrown e => (Thrown e, w)
    end.
Proof.
  intros H Hkv. unfold ApiWorker.run_job, ApiWorker.solveAndStore.
  unfold mbind at 1. unfold M_bind. rewrite (api_callGemini_outcome _ _ _ _ _ H).
  destruct (client_outcome reply) as [result|e]; [|done].
  unfold kv_put. rewrite Hkv. unfold terminated, terminal_text. simpl.
  by destruct (truthy_str (error result)).
Qed.

(** ** What a request and a background step can do to the world *)

Lemma set_kv_data_id (w : world) : set_kv_data (fun m => m) w = w.
Proof. by destruct w. Qed.

Lemma page_submit_effect (req : request) (config : configuration) (w : world) :
  handler_effect w (fst (PageWorker.handleSubmit req config w))
                   (snd (PageWorker.handleSubmit req config w)).
Proof.
  unfold PageWorker.handleSubmit.
  destruct (negb _); [apply effect_none|].
  destruct (strict_neq _ _); [apply effect_none|].
  destruct (request_json req) as [body|]; [|apply effect_none].
  run_m. destruct (get_prop (Some body) "image") as [image|e]; [|apply effect_none].
  destruct (truthy image) eqn:Hi; simpl; [|apply effect_none].
  destruct (get_prop (Some body) "mimeType") as [mimeType|e]; simpl; [|apply effect_none].
  destruct (truthy mimeType); simpl; [|apply effect_none].
  unfold kv_put. destruct (kv config) as [[]|]; simpl; [|apply effect_drawn].
  replace (log _ (set_background _ _))
    with (created (Job (next_id w) image (Some mimeType) config) w).
  - apply (effect_created w (Job (next_id w) image (Some mimeType) config)).
  - unfold created, next_id, store_put, set_kv_data, log. simpl. by rewrite <- !app_assoc.
Qed.

Lemma api_submit_effect (req : request) (config : configuration) (w : world) :
  handler_effect w (fst (ApiWorker.handleSubmit req config w))
                   (snd (ApiWorker.handleSubmit req config w)).
Proof.
  unfold ApiWorker.handleSubmit.
  destruct (negb _); [apply effect_none|].
  destruct (strict_neq _ _); [apply effect_none|].
  destruct (request_json req) as [body|]; [|apply effect_none].
  run_m. destruct (get_prop (Some body) "image") as [image|e]; [|apply effect_none].
  destruct (truthy image) eqn:Hi; simpl; [|apply effect_none].
  unfold kv_put. destruct (kv config) as [[]|]; simpl; [|apply effect_drawn].
  replace (log _ (set_background _ _))
    with (created (Job (next_id w) image None config) w).
  - apply (effect_created w (Job (next_id w) image None config)).
  - unfold created, next_id, store_put, set_kv_data, log. simpl. by rewrite <- !app_assoc.
Qed.

Lemma page_result_effect (req : request) (config : configuration) (w : world) :
  handler_effect w (fst (PageWorker.handleResult req config w))
                   (snd (PageWorker.handleResult req config w)).
Proof.
  destruct (page_result_frame req config w) as [-> | [id ->]]; constructor.
Qed.

Lemma api_result_effect (req : request) (config : configuration) (w : world) :
  handler_effect w (fst (ApiWorker.handleResult req config w))
                   (snd (ApiWorker.handleResult req config w)).
Proof.
  destruct (api_result_frame req config w) as [-> | [id ->]]; constructor.
Qed.

Lemma page_fetch_effect (page : string) (req : request) (env : environment) (w : world) :
  handler_effect w (fst (PageWorker.fetch page req env w))
                   (snd (PageWorker.fetch page req env w)).
Proof.
  unfold PageWorker.fetch.
  destruct (first_falsy _); [apply effect_none|].
  destruct (String.eqb _ "/"); [apply effect_none|].
  destruct (String.eqb _ "/submit"); [apply page_submit_effect|].
  destruct (String.eqb _ "/result"); [apply page_result_effect|apply effect_none].
Qed.

Lemma api_fetch_effect (req : request) (env : environment) (w : world) :
  handler_effect w (fst (ApiWorker.fetch req env w)) (snd (ApiWorker.fetch req env w)).
Proof.
  unfold ApiWorker.fetch.
  destruct (first_falsy _); [apply effect_none|].
  destruct (String.eqb _ "/submit"); [apply api_submit_effect|].
  destruct (String.eqb _ "/result"); [apply api_result_effect|apply effect_none].
Qed.

(** The background step on a world whose store contents were replaced:
    it throws without touching the world, or makes the terminal write of
    a text that does not depend on the store contents. *)
Lemma page_job_effect (j : job) (w : world) :
  (∃ e, ∀ f, PageWorker.run_job j (set_kv_data f w) = (Thrown e, set_kv_data f w))
  ∨ (∃ final, ∀ f, PageWorker.run_job j (set_kv_data f w)
                   = (Returned tt, terminated (job_taskId j) final (set_kv_data f w))).
Proof.
  unfold PageWorker.run_job, PageWorker.solveAndStore, PageWorker.callGemini, global_fetch.
  run_m.
  destruct (gemini w _ _) as [|res]; [left; by exists NetworkError|].
  destruct (ok res); simpl.
  - unfold response_json. destruct (res_json res) as [body|]; run_m;
      [|left; by exists SyntaxError].
    unfold kv_put.
    destruct (extract_solution body) as [s|e]; simpl;
      (destruct (kv (job_config j)) as [[]|]; [right|left; by exists TypeError]);
      eexists; intros f; reflexivity.
  - unfold kv_put.
    destruct (kv (job_config j)) as [[]|]; [right|left; by exists TypeError].
    eexists; intros f; reflexivity.
Qed.

Lemma api_job_effect (j : job) (w : world) :
  (∃ e, ∀ f, ApiWorker.run_job j (set_kv_data f w) = (Thrown e, set_kv_data f w))
  ∨ (∃ final, ∀ f, ApiWorker.run_job j (set_kv_data f w)
                   = (Returned tt, terminated (job_taskId j) final (set_kv_data f w))).
Proof.
  unfold ApiWorker.run_job, ApiWorker.solveAndStore, ApiWorker.callGemini, global_fetch.
  run_m.
  destruct (gemini w _ _) as [|res]; [left; by exists NetworkError|].
  destruct (ok res); simpl.
  - unfold response_json. destruct (res_json res) as [body|]; run_m;
      [|left; by exists SyntaxError].
    unfold kv_put.
    destruct (extract_solution body) as [s|e]; simpl;
      (destruct (kv (job_config j)) as [[]|]; [right|left; by exists TypeError]);
      eexists; intros f; reflexivity.
  - unfold kv_put.
    destruct (kv (job_config j)) as [[]|]; [right|left; by exists TypeError].
    eexists; intros f; reflexivity.
Qed.

Lemma page_run_job_effect (j : job) (w : world) :
  job_effect j w (fst (PageWorker.run_job j w)) (snd (PageWorker.run_job j w)).
Proof.
  destruct (page_job_effect j w) as [[e H] | [final H]];
    specialize (H (fun m => m)); rewrite set_kv_data_id in H; rewrite H; constructor.
Qed.

Lemma api_run_job_effect (j : job) (w : world) :
  job_effect j w (fst (ApiWorker.run_job j w)) (snd (ApiWorker.run_job j w)).
Proof.
  destruct (api_job_effect j w) as [[e H] | [final H]];
    specialize (H (fun m => m)); rewrite set_kv_data_id in H; rewrite H; constructor.
Qed.

(** ** Order of the writes in every execution *)

Lemma responded_mono (tr evs : list event) (id : string) (n n' : nat) :
  responded tr id n → (n ≤ n')%nat → responded (tr ++ evs) id n'.
Proof.
  intros (a & b & Hab & Ha & Hb) Hn. exists a, b. split; [lia|].
  split; rewrite lookup_app_l; eauto using lookup_lt_Some.
Qed.

Lemma terminal_after_response_app (tr evs : list event) :
  terminal_after_response tr →
  (∀ k id value ttl, evs !! k = Some (EvKvPut id value ttl) → value ≠ pending_json →
                     responded tr id (List.length tr)) →
  terminal_after_response (tr ++ evs).
Proof.
  intros Htr Hevs i id value ttl Hi Hv.
  destruct (decide (i < List.length tr)%nat) as [Hlt | Hge].
  - rewrite lookup_app_l in Hi by done.
    apply responded_mono with (n := i); [|lia]. by eapply Htr.
  - rewrite lookup_app_r in Hi by lia.
    apply responded_mono with (n := List.length tr); [|lia]. by eapply Hevs.
Qed.

Lemma elem_of_remove_nth {A : Type} (n : nat) (l : list A) (x : A) :
  x ∈ remove_nth n l → x ∈ l.
Proof.
  revert n. induction l as [|y l IH]; intros n; destruct n; simpl; try done.
  - intros H. by apply list_elem_of_further.
  - intros [-> | H]%elem_of_cons; [apply list_elem_of_here|].
    apply list_elem_of_further. by eapply IH.
Qed.

Ltac no_terminal_write :=
  let k := fresh "k" in
  let Hk := fresh "Hk" in
  intros k ? ? ? Hk ?;
  repeat (destruct k as [|k]; simpl in Hk; try congruence).

Ltac still_announced Ha :=
  intros ? ?; simpl in *; rewrite <- ?app_assoc;
  eapply responded_mono; [by apply Ha | rewrite ?length_app; simpl; lia].

Section Ordering.

Variable entry : request -> environment -> M response.
Variable runner : job -> M unit.

Hypothesis entry_effect : ∀ req env w,
  handler_effect w (fst (entry req env w)) (snd (entry req env w)).
Hypothesis runner_effect : ∀ j w,
  job_effect j w (fst (runner j w)) (snd (runner j w)).

Lemma serve_ordered (req : request) (env : environment) (w : world) :
  ordered w → ordered (snd (serve entry req env w)).
Proof.
  intros [Ht Ha]. unfold serve.
  pose proof (entry_effect req env w) as He.
  destruct (entry req env w) as [o w']. simpl in He.
  inversion He as [o' | o' id | e | j]; subst.
  - (* nothing but the response *)
    assert (∀ r, ordered (log (EvRespond r) w')) as Hr.
    { intros r. split.
      - simpl. apply terminal_after_response_app; [done|]. no_terminal_write.
      - still_announced Ha. }
    destruct o; apply Hr.
  - (* one store read, then the response *)
    assert (∀ r, ordered (log (EvRespond r) (log (EvKvGet id) w))) as Hr.
    { intros r. split.
      - simpl. rewrite <- app_assoc. apply terminal_after_response_app; [done|].
        no_terminal_write.
      - still_announced Ha. }
    destruct o; apply Hr.
  - (* an identifier drawn, then the host's error page *)
    split.
    + simpl. rewrite <- app_assoc. apply terminal_after_response_app; [done|].
      no_terminal_write.
    + still_announced Ha.
  - (* a task is created, then its identifier is returned *)
    split.
    + simpl. rewrite <- app_assoc. apply terminal_after_response_app; [done|].
      no_terminal_write.
    + intros j' Hj'. simpl in *. rewrite <- app_assoc.
      apply elem_of_app in Hj' as [Hj' | Hj'].
      * eapply responded_mono; [by apply Ha|]. rewrite length_app; lia.
      * apply list_elem_of_singleton in Hj'. subst j'.
        exists (S (List.length (trace w))), (3 + List.length (trace w))%nat.
        split; [rewrite !length_app; simpl; lia|].
        split; rewrite lookup_app_r by lia;
          [replace (_ - _)%nat with 1%nat by lia | replace (_ - _)%nat with 3%nat by lia];
          reflexivity.
Qed.

Lemma settle_ordered (n : nat) (w : world) :
  ordered w → ordered (settle runner n w).
Proof.
  intros [Ht Ha]. unfold settle.
  destruct (background w !! n) as [j|] eqn:Hj; [|done].
  assert (j ∈ background w) as Hin by (by eapply list_elem_of_lookup_2).
  pose proof (runner_effect j (set_background (remove_nth n) w)) as He.
  destruct (runner j (set_background (remove_nth n) w)) as [o w']. simpl in He.
  inversion He as [e | final]; subst; split.
  - simpl. apply terminal_after_response_app; [done|]. no_terminal_write.
  - intros j' Hj'. cbn [trace background log set_background terminated] in *.
    apply elem_of_remove_nth in Hj'.
    eapply responded_mono; [by apply Ha|]. rewrite length_app; lia.
  - simpl. rewrite <- app_assoc. apply terminal_after_response_app; [done|].
    intros k id value ttl Hk Hv. destruct k as [|k]; simpl in Hk.
    + injection Hk as <- <- <-. by apply Ha.
    + repeat (destruct k as [|k]; simpl in Hk; try congruence).
  - intros j' Hj'. cbn [trace background log set_background terminated] in *.
    apply elem_of_remove_nth in Hj'. rewrite <- app_assoc.
    eapply responded_mono; [by apply Ha|]. rewrite length_app; lia.
Qed.

Lemma step_ordered (env : environment) (w w' : world) :
  step entry runner env w w' → ordered w → ordered w'.
Proof.
  intros Hs Ho. destruct Hs as [req w | n j w Hj | d w Hd | g w].
  - by apply serve_ordered.
  - by apply settle_ordered.
  - exact Ho.
  - exact Ho.
Qed.

Lemma steps_ordered (env : environment) (w0 w : world) :
  steps entry runner env w0 w → ordered w0 → ordered w.
Proof.
  induction 1 as [w | w1 w2 w3 _ IH Hs]; [done|].
  intros Ho. eapply step_ordered; eauto.
Qed.

Lemma fresh_ordered (w0 : world) :
  trace w0 = [] → background w0 = [] → ordered w0.
Proof.
  intros Ht Hb. split.
  - intros i id value ttl Hi. rewrite Ht in Hi. by rewrite lookup_nil in Hi.
  - intros j. rewrite Hb. by intros ?%elem_of_nil.
Qed.

End Ordering.

(** ** The configuration gate *)



(** C10: the presence check treats every falsy value, the empty string
    included, as missing, and it runs before routing: with a falsy
    setting, every request, whatever its path (the root page and unknown
    paths included) and method, gets the same HTTP 500 configuration
    error from both scripts, while with all settings in place the root
    path of the script with the page answers 200 with the page. *)
Theorem C10_falsy_setting_gates_every_path (page : string) (env : environment) :
  falsy_setting env →
  (∃ key,
     assoc key (config_entries (read_config env)) = Some false
     ∧ status (not_configured key) = 500
     ∧ ∀ req w,
         PageWorker.fetch page req env w = (Returned (not_configured key), w)
         ∧ ApiWorker.fetch req env w = (Returned (not_configured key), w))
  ∧ (∀ env' req w,
       configured env' = true → pathname req = "/" →
       PageWorker.fetch page req env' w
       = (Returned (Response 200 page [("Content-Type", "text/html; charset=UTF-8")]), w)).
Proof.
  intros H. split.
  - destruct (falsy_setting_first_falsy env H) as (key & Hkey & Hfalsy).
    exists key. split; [exact Hfalsy|]. split; [reflexivity|].
    intros req w. split.
    + by apply page_fetch_not_configured.
    + by apply api_fetch_not_configured.
  - intros env' req w Hc Hp. rewrite (page_fetch_configured page req env' Hc).
    by rewrite Hp.
Qed.

Lemma C10_witness :
  (∃ key,
     assoc key (config_entries
                  (read_config (Env (Some "provider-key") (Some "m") (Some EmptyString)
                                    (Some "q") (Some ResultsKV)))) = Some false
     ∧ status (not_configured key) = 500
     ∧ ∀ req w,
         PageWorker.fetch demo_page req
           (Env (Some "provider-key") (Some "m") (Some EmptyString) (Some "q") (Some ResultsKV)) w
         = (Returned (not_configured key), w)
         ∧ ApiWorker.fetch req
             (Env (Some "provider-key") (Some "m") (Some EmptyString) (Some "q") (Some ResultsKV)) w
           = (Returned (not_configured key), w))
  ∧ PageWorker.fetch demo_page (Request "GET" "/" [] [] None) demo_env (demo_world FetchRejected)
    = (Returned (Response 200 demo_page [("Content-Type", "text/html; charset=UTF-8")]),
       demo_world FetchRejected).
Proof.
  destruct (C10_falsy_setting_gates_every_path demo_page
              (Env (Some "provider-key") (Some "m") (Some EmptyString) (Some "q")
                   (Some ResultsKV))) as [Hgate Hroot].
  - right; right; left. right. reflexivity.
  - split; [exact Hgate|]. apply Hroot; reflexivity.
Defined.

(** ** Order of the checks in the handlers *)

(** C9: in both handlers of both scripts the method check comes first: a
    submit request whose method is not POST, and a result request whose
    method is not GET, is answered 405 whatever its credential is (so
    never 401), and the world is left as it was, so no store operation
    is performed.  The same holds through [fetch] once the settings are
    in place. *)
Theorem C9_method_check_precedes_credential_check (page : string) (req : request) (w : world) :
  (∀ config, method req ≠ "POST" →
     PageWorker.handleSubmit req config w = (Returned (text_response "Expected POST" 405), w)
     ∧ ApiWorker.handleSubmit req config w = (Returned (text_response "Expected POST" 405), w))
  ∧ (∀ config, method req ≠ "GET" →
       PageWorker.handleResult req config w = (Returned (text_response "Expected GET" 405), w)
       ∧ ApiWorker.handleResult req config w = (Returned (text_response "Expected GET" 405), w))
  ∧ (∀ env, configured env = true → pathname req = "/submit" → method req ≠ "POST" →
       PageWorker.fetch page req env w = (Returned (text_response "Expected POST" 405), w)
       ∧ ApiWorker.fetch req env w = (Returned (text_response "Expected POST" 405), w))
  ∧ (∀ env, configured env = true → pathname req = "/result" → method req ≠ "GET" →
       PageWorker.fetch page req env w = (Returned (text_response "Expected GET" 405), w)
       ∧ ApiWorker.fetch req env w = (Returned (text_response "Expected GET" 405), w)).
Proof.
  split; [|split; [|split]].
  - intros config Hm. split.
    + by apply page_submit_wrong_method.
    + by apply api_submit_wrong_method.
  - intros config Hm. split.
    + by apply page_result_wrong_method.
    + by apply api_result_wrong_method.
  - intros env Hc Hp Hm.
    rewrite (page_fetch_configured page req env Hc), (api_fetch_configured req env Hc), Hp.
    simpl. split.
    + by apply page_submit_wrong_method.
    + by apply api_submit_wrong_method.
  - intros env Hc Hp Hm.
    rewrite (page_fetch_configured page req env Hc), (api_fetch_configured req env Hc), Hp.
    simpl. split.
    + by apply page_result_wrong_method.
    + by apply api_result_wrong_method.
Qed.

Lemma C9_witness :
  (PageWorker.fetch demo_page (Request "GET" "/submit" [] [] None) demo_env
     (demo_world FetchRejected)
   = (Returned (text_response "Expected POST" 405), demo_world FetchRejected)
   ∧ ApiWorker.fetch (Request "GET" "/submit" [] [] None) demo_env (demo_world FetchRejected)
     = (Returned (text_response "Expected POST" 405), demo_world FetchRejected))
  ∧ (PageWorker.fetch demo_page (Request "POST" "/result" [("taskId", "task-0")] [] None)
       demo_env (demo_world FetchRejected)
     = (Returned (text_response "Expected GET" 405), demo_world FetchRejected)
     ∧ ApiWorker.fetch (Request "POST" "/result" [("taskId", "task-0")] [] None)
         demo_env (demo_world FetchRejected)
       = (Returned (text_response "Expected GET" 405), demo_world FetchRejected)).
Proof.
  split.
  - apply (proj1 (proj2 (proj2
      (C9_method_check_precedes_credential_check demo_page
         (Request "GET" "/submit" [] [] None) (demo_world FetchRejected))))).
    + reflexivity.
    + reflexivity.
    + discriminate.
  - apply (proj2 (proj2 (proj2
      (C9_method_check_precedes_credential_check demo_page
         (Request "POST" "/result" [("taskId", "task-0")] [] None)
         (demo_world FetchRejected))))).
    + reflexivity.
    + reflexivity.
    + discriminate.
Defined.

(** C5: a GET request for a result that carries an incorrect query
    credential (or none) is answered 401 by both scripts without any
    store lookup: the world, trace included, is left as it was, whatever
    the task identifier of the request is (present or not, known or not,
    expired or not) and whatever the store holds.  The credential check
    thus comes before the check of the identifier and before the read. *)
Theorem C5_wrong_query_credential_401_before_lookup (page : string) (req : request)
    (config : configuration) (w : world) :
  method req = "GET" →
  (∀ key, apiKey config = Some key → searchParams_get (searchParams req) "apiKey" ≠ Some key) →
  PageWorker.handleResult req config w
  = (Returned (text_response "Unauthorized: Invalid API_KEY" 401), w)
  ∧ ApiWorker.handleResult req config w
    = (Returned (text_response "Unauthorized: Invalid API_KEY" 401), w)
  ∧ (∀ env, configured env = true → read_config env = config → pathname req = "/result" →
       PageWorker.fetch page req env w
       = (Returned (text_response "Unauthorized: Invalid API_KEY" 401), w)
       ∧ ApiWorker.fetch req env w
         = (Returned (text_response "Unauthorized: Invalid API_KEY" 401), w)).
Proof.
  intros Hm Hk.
  pose proof (page_result_wrong_key req config w Hm Hk) as Hp.
  pose proof (api_result_wrong_key req config w Hm Hk) as Ha.
  split; [exact Hp|]. split; [exact Ha|].
  intros env Hc He Hpath.
  rewrite (page_fetch_configured page req env Hc), (api_fetch_configured req env Hc), Hpath, He.
  simpl. by split.
Qed.

Lemma C5_witness :
  PageWorker.handleResult (demo_poll "task-0" "guess") (read_config demo_env)
    (demo_world FetchRejected)
  = (Returned (text_response "Unauthorized: Invalid API_KEY" 401), demo_world FetchRejected)
  ∧ ApiWorker.handleResult (demo_poll "task-0" "guess") (read_config demo_env)
      (demo_world FetchRejected)
    = (Returned (text_response "Unauthorized: Invalid API_KEY" 401), demo_world FetchRejected)
  ∧ PageWorker.fetch demo_page (demo_poll "task-0" "guess") demo_env (demo_world FetchRejected)
    = (Returned (text_response "Unauthorized: Invalid API_KEY" 401), demo_world FetchRejected)
  ∧ ApiWorker.fetch (demo_poll "task-0" "guess") demo_env (demo_world FetchRejected)
    = (Returned (text_response "Unauthorized: Invalid API_KEY" 401), demo_world FetchRejected).
Proof.
  destruct (C5_wrong_query_credential_401_before_lookup demo_page (demo_poll "task-0" "guess")
              (read_config demo_env) (demo_world FetchRejected)) as (Hp & Ha & Hf).
  - reflexivity.
  - intros key Hkey. simpl in Hkey. injection Hkey as <-. discriminate.
  - split; [exact Hp|]. split; [exact Ha|]. apply (Hf demo_env); reflexivity.
Defined.

(** ** Polling *)

Lemma page_after_polls_store (polls : list request) (config : configuration) (w : world) :
  kv_data (after_polls PageWorker.handleResult polls config w) = kv_data w
  ∧ clock (after_polls PageWorker.handleResult polls config w) = clock w.
Proof.
  revert w. induction polls as [|req rest IH]; intros w; simpl; [done|].
  destruct (IH (snd (PageWorker.handleResult req config w))) as [-> ->].
  by destruct (page_result_frame req config w) as [-> | [id ->]].
Qed.

Lemma api_after_polls_store (polls : list request) (config : configuration) (w : world) :
  kv_data (after_polls ApiWorker.handleResult polls config w) = kv_data w
  ∧ clock (after_polls ApiWorker.handleResult polls config w) = clock w.
Proof.
  revert w. induction polls as [|req rest IH]; intros w; simpl; [done|].
  destruct (IH (snd (ApiWorker.handleResult req config w))) as [-> ->].
  by destruct (api_result_frame req config w) as [-> | [id ->]].
Qed.

(** C6: the result handler of both scripts is read-only with respect to
    the task state.  A poll leaves the world as it was or adds one store
    read to the trace, never a write; after any number of polls (by one
    caller or several) the store holds the same values with the same
    expiries, and a poll then answers exactly what it would have answered
    without them, at once or [d] seconds later. *)
Theorem C6_polling_is_read_only (req : request) (polls : list request)
    (config : configuration) (w : world) (d : Z) :
  only_reads PageWorker.handleResult req config w
  ∧ only_reads ApiWorker.handleResult req config w
  ∧ kv_data (after_polls PageWorker.handleResult polls config w) = kv_data w
  ∧ kv_data (after_polls ApiWorker.handleResult polls config w) = kv_data w
  ∧ fst (PageWorker.handleResult req config (after_polls PageWorker.handleResult polls config w))
    = fst (PageWorker.handleResult req config w)
  ∧ fst (ApiWorker.handleResult req config (after_polls ApiWorker.handleResult polls config w))
    = fst (ApiWorker.handleResult req config w)
  ∧ fst (PageWorker.handleResult req config
           (set_clock (clock w + d) (after_polls PageWorker.handleResult polls config w)))
    = fst (PageWorker.handleResult req config (set_clock (clock w + d) w))
  ∧ fst (ApiWorker.handleResult req config
           (set_clock (clock w + d) (after_polls ApiWorker.handleResult polls config w)))
    = fst (ApiWorker.handleResult req config (set_clock (clock w + d) w)).
Proof.
  destruct (page_after_polls_store polls config w) as [Hpk Hpc].
  destruct (api_after_polls_store polls config w) as [Hak Hac].
  split; [apply page_result_frame|]. split; [apply api_result_frame|].
  split; [exact Hpk|]. split; [exact Hak|].
  split; [by apply page_result_answer|]. split; [by apply api_result_answer|].
  split.
  - by apply page_result_answer.
  - by apply api_result_answer.
Qed.

(** ** The two writes of a task *)

Lemma submit_effect_pending (handle : request -> configuration -> M response)
    (req : request) (config : configuration) (w : world) :
  handler_effect w (fst (handle req config w)) (snd (handle req config w)) →
  pending_write_ttl_300 handle req config w.
Proof.
  unfold pending_write_ttl_300. destruct (handle req config w) as [o w']. simpl.
  intros He. inversion He as [o0 | o0 id | e | j]; subst.
  - left. split; [done|]. exists []. by rewrite app_nil_r.
  - left. split; [done|]. by exists [EvKvGet id].
  - left. split; [done|]. by exists [EvRandomUUID (next_id w)].
  - right. by exists (job_taskId j).
Qed.

Lemma job_effect_terminal (run : job -> M unit) (j : job) (w : world) :
  (∃ e, ∀ f, run j (set_kv_data f w) = (Thrown e, set_kv_data f w))
  ∨ (∃ final, ∀ f, run j (set_kv_data f w)
                   = (Returned tt, terminated (job_taskId j) final (set_kv_data f w))) →
  terminal_write_ttl_300 run j w.
Proof.
  intros [[e H] | [final H]].
  - left. exists e. specialize (H (fun m => m)). by rewrite set_kv_data_id in H.
  - right. exists final. intros f. rewrite (H f). simpl.
    repeat split. by rewrite lookup_insert_eq.
Qed.

Lemma page_job_outcome_at (j : job) (w : world) (reply : fetch_outcome) :
  provider_replies_to (job_config j) w reply → kv (job_config j) = Some ResultsKV →
  PageWorker.run_job j w = background_result j reply w.
Proof.
  intros Hr Hkv. unfold PageWorker.run_job, PageWorker.solveAndStore, background_result.
  unfold mbind at 1. unfold M_bind.
  rewrite (page_callGemini_at _ _ _ w reply (Hr _)).
  destruct (client_outcome reply) as [result|e]; [|done].
  unfold kv_put. rewrite Hkv. unfold terminated, terminal_text. simpl.
  by destruct (truthy_str (error result)).
Qed.

Lemma api_job_outcome_at (j : job) (w : world) (reply : fetch_outcome) :
  provider_replies_to (job_config j) w reply → kv (job_config j) = Some ResultsKV →
  ApiWorker.run_job j w = background_result j reply w.
Proof.
  intros Hr Hkv. unfold ApiWorker.run_job, ApiWorker.solveAndStore, background_result.
  unfold mbind at 1. unfold M_bind.
  rewrite (api_callGemini_at _ _ _ w reply (Hr _)).
  destruct (client_outcome reply) as [result|e]; [|done].
  unfold kv_put. rewrite Hkv. unfold terminated, terminal_text. simpl.
  by destruct (truthy_str (error result)).
Qed.

Lemma created_writes_pending (handle : request -> configuration -> M response)
    (req : request) (config : configuration) (w : world) (j : job) :
  job_taskId j = next_id w →
  handle req config w = (Returned (json_response (taskId_json (next_id w))), created j w) →
  writes_pending handle req config w.
Proof.
  intros Hj H. unfold writes_pending. rewrite H. simpl. rewrite Hj.
  repeat split. by rewrite lookup_insert_eq.
Qed.

Lemma outcome_writes_terminal (run : job -> M unit) (j : job) (w : world)
    (reply : fetch_outcome) (result : gemini_result) :
  (∀ w', provider_replies_to (job_config j) w' reply →
         run j w' = background_result j reply w') →
  provider_replies_to (job_config j) w reply → client_outcome reply = Returned result →
  writes_terminal run j (terminal_text result) w.
Proof.
  intros Hrun Hr Hc f. rewrite (Hrun (set_kv_data f w)); [|exact Hr].
  unfold background_result. rewrite Hc. simpl.
  repeat split. by rewrite lookup_insert_eq.
Qed.

Lemma outcome_replaces_pending (handle : request -> configuration -> M response)
    (run : job -> M unit) (req : request) (config : configuration) (j : job) (w : world)
    (reply : fetch_outcome) (result : gemini_result) (t : Z) :
  (∀ w', provider_replies_to (job_config j) w' reply →
         run j w' = background_result j reply w') →
  handle req config w = (Returned (json_response (taskId_json (next_id w))), created j w) →
  provider_replies_to (job_config j) w reply → client_outcome reply = Returned result →
  replaces_pending handle run req config j (terminal_text result) t w.
Proof.
  intros Hrun Hh Hr Hc. unfold replaces_pending. rewrite Hh. simpl.
  rewrite (Hrun (set_clock t (created j w))); [|exact Hr].
  unfold background_result. rewrite Hc. simpl.
  split; [done|]. split; [by rewrite lookup_insert_eq|]. split; [done|].
  split; [by rewrite lookup_insert_eq|].
  intros id Hid. by rewrite !lookup_insert_ne.
Qed.

(** C7: both store writes of a task use the same fixed TTL of 300
    seconds, and the terminal write replaces the pending entry.
    (1) Whatever the request, a submit handler writes nothing or writes
    the pending text with expiry 300 seconds after the time of the
    write; whatever the task, the background step throws without
    writing, or writes its terminal text with expiry 300 seconds after
    the time of that write.  (2) The pending write is made: for every
    authenticated POST with a truthy image (and, in the script with the
    page, a truthy media type) and the store bound, the handler returns
    the identifier it draws and the entry under it is the pending text
    with expiry 300 seconds after the time of the write.  (3) The
    terminal write is made: whenever the provider answers and the client
    resolves, with the store bound, the background step returns and the
    entry read back under the identifier is exactly the terminal text
    with expiry 300 seconds after the time of that write, whatever the
    store held before.  (4) Together: when the background step of a
    submission runs at a later time [t], the pending entry written at
    the submission is replaced by the terminal entry with expiry
    [t + 300], and no other entry changes. *)
Theorem C7_both_writes_use_ttl_300_and_replace (req : request) (config : configuration)
    (j : job) (w : world) :
  (pending_write_ttl_300 PageWorker.handleSubmit req config w
   ∧ pending_write_ttl_300 ApiWorker.handleSubmit req config w
   ∧ terminal_write_ttl_300 PageWorker.run_job j w
   ∧ terminal_write_ttl_300 ApiWorker.run_job j w)
  ∧ (∀ image, submits_image req config image → kv config = Some ResultsKV →
       ((∃ mimeType, declares_media_type req mimeType) →
          writes_pending PageWorker.handleSubmit req config w)
       ∧ writes_pending ApiWorker.handleSubmit req config w)
  ∧ (∀ reply result,
       provider_replies_to (job_config j) w reply → client_outcome reply = Returned result →
       kv (job_config j) = Some ResultsKV →
       writes_terminal PageWorker.run_job j (terminal_text result) w
       ∧ writes_terminal ApiWorker.run_job j (terminal_text result) w)
  ∧ (∀ image reply result t,
       submits_image req config image → kv config = Some ResultsKV →
       provider_replies_to config w reply → client_outcome reply = Returned result →
       (∀ mimeType, declares_media_type req mimeType →
          replaces_pending PageWorker.handleSubmit PageWorker.run_job req config
            (Job (next_id w) image (Some mimeType) config) (terminal_text result) t w)
       ∧ replaces_pending ApiWorker.handleSubmit ApiWorker.run_job req config
           (Job (next_id w) image None config) (terminal_text result) t w).
Proof.
  split; [|split; [|split]].
  - split; [|split; [|split]].
    + apply submit_effect_pending, page_submit_effect.
    + apply submit_effect_pending, api_submit_effect.
    + apply job_effect_terminal, page_job_effect.
    + apply job_effect_terminal, api_job_effect.
  - intros image (Hm & Ha & body & Hb & Hi & Hti) Hkv. split.
    + intros (mimeType & body' & Hb' & Ht & Htt).
      rewrite Hb in Hb'. injection Hb' as <-.
      apply (created_writes_pending _ _ _ _ (Job (next_id w) image (Some mimeType) config));
        [done|].
      by apply (page_submit_created req config w body image mimeType).
    + apply (created_writes_pending _ _ _ _ (Job (next_id w) image None config)); [done|].
      by apply (api_submit_created req config w body image).
  - intros reply result Hr Hc Hkv. split.
    + apply (outcome_writes_terminal _ j w reply result); [|done..].
      intros w' Hr'. by apply page_job_outcome_at.
    + apply (outcome_writes_terminal _ j w reply result); [|done..].
      intros w' Hr'. by apply api_job_outcome_at.
  - intros image reply result t (Hm & Ha & body & Hb & Hi & Hti) Hkv Hr Hc. split.
    + intros mimeType (body' & Hb' & Ht & Htt).
      rewrite Hb in Hb'. injection Hb' as <-.
      apply (outcome_replaces_pending _ _ _ _ _ _ reply); [| |done..].
      * intros w' Hr'. by apply page_job_outcome_at.
      * by apply (page_submit_created req config w body image mimeType).
    + apply (outcome_replaces_pending _ _ _ _ _ _ reply); [| |done..].
      * intros w' Hr'. by apply api_job_outcome_at.
      * by apply (api_submit_created req config w body image).
Qed.

Lemma demo_submit_authenticated (body : json) :
  authenticated (demo_submit body) (read_config demo_env).
Proof. exists "submit-secret". split; reflexivity. Defined.

Lemma demo_submits_image :
  submits_image (demo_submit demo_body) (read_config demo_env) (Some (JStr "iVBORw0KGgo=")).
Proof.
  split; [reflexivity|]. split; [apply demo_submit_authenticated|].
  exists demo_body. repeat split; reflexivity.
Defined.

Lemma demo_declares_media_type :
  declares_media_type (demo_submit demo_body) (Some (JStr "image/png")).
Proof. exists demo_body. repeat split; reflexivity. Defined.

Lemma demo_provider_replies_to (reply : fetch_outcome) :
  provider_replies_to (read_config demo_env) (demo_world reply) reply.
Proof. intros payload. reflexivity. Defined.

Lemma C7_witness :
  writes_pending PageWorker.handleSubmit (demo_submit demo_body) (read_config demo_env)
    (demo_world (answer_reply " 42 "))
  ∧ writes_terminal PageWorker.run_job
      (Job "task-0" (Some (JStr "iVBORw0KGgo=")) (Some (Some (JStr "image/png")))
           (read_config demo_env))
      (terminal_text (GeminiResult None (Some "42"))) (demo_world (answer_reply " 42 "))
  ∧ replaces_pending PageWorker.handleSubmit PageWorker.run_job (demo_submit demo_body)
      (read_config demo_env)
      (Job (next_id (demo_world (answer_reply " 42 "))) (Some (JStr "iVBORw0KGgo="))
           (Some (Some (JStr "image/png"))) (read_config demo_env))
      (terminal_text (GeminiResult None (Some "42"))) 1120 (demo_world (answer_reply " 42 "))
  ∧ replaces_pending ApiWorker.handleSubmit ApiWorker.run_job (demo_submit demo_body)
      (read_config demo_env)
      (Job (next_id (demo_world (answer_reply " 42 "))) (Some (JStr "iVBORw0KGgo=")) None
           (read_config demo_env))
      (terminal_text (GeminiResult None (Some "42"))) 1120 (demo_world (answer_reply " 42 ")).
Proof.
  pose proof (C7_both_writes_use_ttl_300_and_replace (demo_submit demo_body)
                (read_config demo_env)
                (Job "task-0" (Some (JStr "iVBORw0KGgo=")) (Some (Some (JStr "image/png")))
                     (read_config demo_env))
                (demo_world (answer_reply " 42 "))) as H.
  pose proof (proj1 (proj2 (proj2 H)) (answer_reply " 42 ") (GeminiResult None (Some "42"))
                (demo_provider_replies_to _) eq_refl eq_refl) as Hterminal.
  pose proof (proj2 (proj2 (proj2 H)) (Some (JStr "iVBORw0KGgo=")) (answer_reply " 42 ")
                (GeminiResult None (Some "42")) 1120 demo_submits_image eq_refl
                (demo_provider_replies_to _) eq_refl) as Hboth.
  exact (conj (proj1 (proj1 (proj2 H) (Some (JStr "iVBORw0KGgo=")) demo_submits_image eq_refl)
                 (ex_intro _ (Some (JStr "image/png")) demo_declares_media_type))
           (conj (proj1 Hterminal)
              (conj (proj1 Hboth (Some (JStr "image/png")) demo_declares_media_type)
                    (proj2 Hboth)))).
Defined.

(** ** Creation of a task and the first poll *)

Lemma configured_kv (env : environment) :
  configured env = true → kv (read_config env) = Some ResultsKV.
Proof.
  unfold configured. simpl. destruct (RESULTS_KV env) as [[]|]; [done|].
  rewrite andb_false_r. discriminate.
Qed.

Lemma pending_visible (id : string) (now d : Z) (m : gmap string kv_entry) :
  0 <= d < 300 →
  store_get id (now + d) (<[id := KvEntry pending_json (now + 300)]> m) = Some pending_json.
Proof.
  intros Hd. unfold store_get. rewrite lookup_insert_eq. simpl.
  destruct (Z.ltb_spec (now + d) (now + 300)); [done|lia].
Qed.

Lemma page_serve_created (page : string) (req : request) (env : environment) (w : world)
    (image mimeType : jsval) :
  configured env = true → pathname req = "/submit" →
  submits_image req (read_config env) image → declares_media_type req mimeType →
  serve (PageWorker.fetch page) req env w
  = (json_response (taskId_json (next_id w)),
     log (EvRespond (json_response (taskId_json (next_id w))))
         (created (Job (next_id w) image (Some mimeType) (read_config env)) w)).
Proof.
  intros Hc Hp (Hm & Ha & body & Hb & Hi & Hti) (body' & Hb' & Ht & Htt).
  assert (body' = body) as -> by congruence.
  unfold serve. rewrite (page_fetch_configured page req env Hc), Hp. simpl.
  by rewrite (page_submit_created req (read_config env) w body image mimeType
                Hm Ha Hb Hi Hti Ht Htt (configured_kv env Hc)).
Qed.

Lemma api_serve_created (req : request) (env : environment) (w : world) (image : jsval) :
  configured env = true → pathname req = "/submit" →
  submits_image req (read_config env) image →
  serve ApiWorker.fetch req env w
  = (json_response (taskId_json (next_id w)),
     log (EvRespond (json_response (taskId_json (next_id w))))
         (created (Job (next_id w) image None (read_config env)) w)).
Proof.
  intros Hc Hp (Hm & Ha & body & Hb & Hi & Hti).
  unfold serve. rewrite (api_fetch_configured req env Hc), Hp. simpl.
  by rewrite (api_submit_created req (read_config env) w body image
                Hm Ha Hb Hi Hti (configured_kv env Hc)).
Qed.

Lemma page_serve_poll_pending (page : string) (poll : request) (env : environment)
    (w : world) (id : string) :
  configured env = true → pathname poll = "/result" →
  polls_task poll (read_config env) id → is_empty id = false →
  store_get id (clock w) (kv_data w) = Some pending_json →
  fst (serve (PageWorker.fetch page) poll env w) = json_response pending_json.
Proof.
  intros Hc Hp (Hm & Hk & Hid) Hne Hget.
  unfold serve. rewrite (page_fetch_configured page poll env Hc), Hp. simpl.
  rewrite (page_result_lookup poll (read_config env) w id Hm Hk Hid Hne (configured_kv env Hc)).
  simpl. unfold page_lookup_response. by rewrite Hget.
Qed.

Lemma api_serve_poll_pending (poll : request) (env : environment) (w : world) (id : string) :
  configured env = true → pathname poll = "/result" →
  polls_task poll (read_config env) id → is_empty id = false →
  store_get id (clock w) (kv_data w) = Some pending_json →
  fst (serve ApiWorker.fetch poll env w) = json_response pending_json.
Proof.
  intros Hc Hp (Hm & Hk & Hid) Hne Hget.
  unfold serve. rewrite (api_fetch_configured poll env Hc), Hp. simpl.
  rewrite (api_result_lookup poll (read_config env) w id Hm Hk Hid Hne (configured_kv env Hc)).
  simpl. unfold api_lookup_response. by rewrite Hget.
Qed.

(** C4: for every valid submission, in both scripts, the write of the
    pending text under the new identifier is on the trace before the
    response that returns the identifier, and no other write of that
    step is; the promise of the background step is only handed to the
    host.  A poll of that identifier made after the response and less
    than 300 seconds later, before the background step has written,
    answers the pending text, not 404.  In every execution that starts
    with an empty trace and no detached work, each write of a text other
    than the pending one comes after the pending write and after the
    response of its identifier. *)
Theorem C4_pending_write_precedes_response (page : string) :
  (∀ req env w image mimeType,
     configured env = true → pathname req = "/submit" →
     submits_image req (read_config env) image → declares_media_type req mimeType →
     is_empty (next_id w) = false →
     fst (serve (PageWorker.fetch page) req env w) = json_response (taskId_json (next_id w))
     ∧ trace (snd (serve (PageWorker.fetch page) req env w))
       = (trace w ++ [EvRandomUUID (next_id w); EvKvPut (next_id w) pending_json 300;
                      EvWaitUntil (next_id w);
                      EvRespond (json_response (taskId_json (next_id w)))])%list
     ∧ background (snd (serve (PageWorker.fetch page) req env w))
       = (background w ++ [Job (next_id w) image (Some mimeType) (read_config env)])%list
     ∧ ∀ poll d,
         0 <= d < 300 → pathname poll = "/result" →
         polls_task poll (read_config env) (next_id w) →
         fst (serve (PageWorker.fetch page) poll env
                (set_clock (clock w + d) (snd (serve (PageWorker.fetch page) req env w))))
         = json_response pending_json)
  ∧ (∀ req env w image,
       configured env = true → pathname req = "/submit" →
       submits_image req (read_config env) image →
       is_empty (next_id w) = false →
       fst (serve ApiWorker.fetch req env w) = json_response (taskId_json (next_id w))
       ∧ trace (snd (serve ApiWorker.fetch req env w))
         = (trace w ++ [EvRandomUUID (next_id w); EvKvPut (next_id w) pending_json 300;
                        EvWaitUntil (next_id w);
                        EvRespond (json_response (taskId_json (next_id w)))])%list
       ∧ background (snd (serve ApiWorker.fetch req env w))
         = (background w ++ [Job (next_id w) image None (read_config env)])%list
       ∧ ∀ poll d,
           0 <= d < 300 → pathname poll = "/result" →
           polls_task poll (read_config env) (next_id w) →
           fst (serve ApiWorker.fetch poll env
                  (set_clock (clock w + d) (snd (serve ApiWorker.fetch req env w))))
           = json_response pending_json)
  ∧ (∀ env w0 w,
       trace w0 = [] → background w0 = [] →
       steps (PageWorker.fetch page) PageWorker.run_job env w0 w →
       terminal_after_response (trace w))
  ∧ (∀ env w0 w,
       trace w0 = [] → background w0 = [] →
       steps ApiWorker.fetch ApiWorker.run_job env w0 w →
       terminal_after_response (trace w)).
Proof.
  split; [|split; [|split]].
  - intros req env w image mimeType Hc Hp Hs Hd Hne.
    rewrite (page_serve_created page req env w image mimeType Hc Hp Hs Hd).
    split; [done|]. split; [simpl; by rewrite <- app_assoc|]. split; [done|].
    intros poll d Hdl Hpp Hpoll.
    apply (page_serve_poll_pending page poll env _ (next_id w) Hc Hpp Hpoll Hne).
    simpl. by apply pending_visible.
  - intros req env w image Hc Hp Hs Hne.
    rewrite (api_serve_created req env w image Hc Hp Hs).
    split; [done|]. split; [simpl; by rewrite <- app_assoc|]. split; [done|].
    intros poll d Hdl Hpp Hpoll.
    apply (api_serve_poll_pending poll env _ (next_id w) Hc Hpp Hpoll Hne).
    simpl. by apply pending_visible.
  - intros env w0 w Ht Hb Hsteps.
    apply (steps_ordered (PageWorker.fetch page) PageWorker.run_job
             (page_fetch_effect page) page_run_job_effect env w0 w Hsteps).
    by apply fresh_ordered.
  - intros env w0 w Ht Hb Hsteps.
    apply (steps_ordered ApiWorker.fetch ApiWorker.run_job
             api_fetch_effect api_run_job_effect env w0 w Hsteps).
    by apply fresh_ordered.
Qed.

Lemma C4_witness :
  fst (serve (PageWorker.fetch demo_page) (demo_submit demo_body) demo_env
         (demo_world FetchRejected))
  = json_response (taskId_json (next_id (demo_world FetchRejected)))
  ∧ trace (snd (serve (PageWorker.fetch demo_page) (demo_submit demo_body) demo_env
                  (demo_world FetchRejected)))
    = (trace (demo_world FetchRejected)
       ++ [EvRandomUUID (next_id (demo_world FetchRejected));
           EvKvPut (next_id (demo_world FetchRejected)) pending_json 300;
           EvWaitUntil (next_id (demo_world FetchRejected));
           EvRespond (json_response (taskId_json (next_id (demo_world FetchRejected))))])%list
  ∧ background (snd (serve (PageWorker.fetch demo_page) (demo_submit demo_body) demo_env
                       (demo_world FetchRejected)))
    = (background (demo_world FetchRejected)
       ++ [Job (next_id (demo_world FetchRejected)) (Some (JStr "iVBORw0KGgo="))
               (Some (Some (JStr "image/png"))) (read_config demo_env)])%list
  ∧ fst (serve (PageWorker.fetch demo_page) (demo_poll "task-0" "query-secret") demo_env
           (set_clock (clock (demo_world FetchRejected) + 299)
              (snd (serve (PageWorker.fetch demo_page) (demo_submit demo_body) demo_env
                      (demo_world FetchRejected)))))
    = json_response pending_json.
Proof.
  assert (submits_image (demo_submit demo_body) (read_config demo_env)
            (Some (JStr "iVBORw0KGgo="))) as Hs.
  { split; [reflexivity|]. split.
    - exists "submit-secret". split; reflexivity.
    - exists demo_body. repeat split; reflexivity. }
  assert (declares_media_type (demo_submit demo_body) (Some (JStr "image/png"))) as Hd.
  { exists demo_body. repeat split; reflexivity. }
  assert (polls_task (demo_poll "task-0" "query-secret") (read_config demo_env)
            (next_id (demo_world FetchRejected))) as Hp.
  { split; [reflexivity|]. split.
    - exists "query-secret". split; reflexivity.
    - vm_compute. reflexivity. }
  destruct (proj1 (C4_pending_write_precedes_response demo_page)
              (demo_submit demo_body) demo_env (demo_world FetchRejected)
              (Some (JStr "iVBORw0KGgo=")) (Some (JStr "image/png"))
              eq_refl eq_refl Hs Hd eq_refl)
    as (H1 & H2 & H3 & H4).
  split; [exact H1|]. split; [exact H2|]. split; [exact H3|].
  apply H4.
  - lia.
  - reflexivity.
  - exact Hp.
Defined.

(** ** The background step when the client throws *)

(** C1, evaluated on the code: a valid submission is followed by a
    background step in which the transport to the provider rejects, or
    in which the provider answers with a success status and a body that
    is not JSON.  In both scripts the step ends rejected without any
    store write: the entry of the task is still the pending text with
    its first expiry, and a poll made after the step has finished still
    answers pending. *)
Theorem C1_background_throw_leaves_task_pending :
  (background (settled (PageWorker.fetch demo_page) PageWorker.run_job FetchRejected) = []
   ∧ trace (settled (PageWorker.fetch demo_page) PageWorker.run_job FetchRejected)
     = (trace (submitted (PageWorker.fetch demo_page) FetchRejected)
        ++ [EvSettled "task-0" false])%list
   ∧ kv_data (settled (PageWorker.fetch demo_page) PageWorker.run_job FetchRejected) !! "task-0"
     = Some (KvEntry pending_json 1300)
   ∧ fst (serve (PageWorker.fetch demo_page) (demo_poll "task-0" "query-secret") demo_env
            (settled (PageWorker.fetch demo_page) PageWorker.run_job FetchRejected))
     = json_response pending_json)
  ∧ (background (settled (PageWorker.fetch demo_page) PageWorker.run_job html_reply) = []
     ∧ trace (settled (PageWorker.fetch demo_page) PageWorker.run_job html_reply)
       = (trace (submitted (PageWorker.fetch demo_page) html_reply)
          ++ [EvSettled "task-0" false])%list
     ∧ kv_data (settled (PageWorker.fetch demo_page) PageWorker.run_job html_reply) !! "task-0"
       = Some (KvEntry pending_json 1300)
     ∧ fst (serve (PageWorker.fetch demo_page) (demo_poll "task-0" "query-secret") demo_env
              (settled (PageWorker.fetch demo_page) PageWorker.run_job html_reply))
       = json_response pending_json)
  ∧ (background (settled ApiWorker.fetch ApiWorker.run_job FetchRejected) = []
     ∧ trace (settled ApiWorker.fetch ApiWorker.run_job FetchRejected)
       = (trace (submitted ApiWorker.fetch FetchRejected) ++ [EvSettled "task-0" false])%list
     ∧ kv_data (settled ApiWorker.fetch ApiWorker.run_job FetchRejected) !! "task-0"
       = Some (KvEntry pending_json 1300)
     ∧ fst (serve ApiWorker.fetch (demo_poll "task-0" "query-secret") demo_env
              (settled ApiWorker.fetch ApiWorker.run_job FetchRejected))
       = json_response pending_json)
  ∧ (background (settled ApiWorker.fetch ApiWorker.run_job html_reply) = []
     ∧ trace (settled ApiWorker.fetch ApiWorker.run_job html_reply)
       = (trace (submitted ApiWorker.fetch html_reply) ++ [EvSettled "task-0" false])%list
     ∧ kv_data (settled ApiWorker.fetch ApiWorker.run_job html_reply) !! "task-0"
       = Some (KvEntry pending_json 1300)
     ∧ fst (serve ApiWorker.fetch (demo_poll "task-0" "query-secret") demo_env
              (settled ApiWorker.fetch ApiWorker.run_job html_reply))
       = json_response pending_json).
Proof.
  repeat split; vm_compute; reflexivity.
Qed.

(** The same for every task and every world: when the transport rejects,
    or the body of a success response is not JSON, the background step
    throws and writes nothing. *)
Lemma background_throw_writes_nothing (j : job) (w : world) (reply : fetch_outcome) :
  provider_replies w reply →
  reply = FetchRejected
  ∨ (∃ res, reply = FetchResponse res ∧ ok res = true ∧ res_json res = None) →
  ∃ e, PageWorker.run_job j w = (Thrown e, w) ∧ ApiWorker.run_job j w = (Thrown e, w).
Proof.
  intros Hr Hbad.
  assert (∃ e, client_outcome reply = Thrown e) as [e He].
  { destruct Hbad as [-> | (res & -> & Hok & Hjson)]; simpl.
    - by exists NetworkError.
    - rewrite Hok, Hjson. by exists SyntaxError. }
  exists e.
  unfold PageWorker.run_job, PageWorker.solveAndStore, ApiWorker.run_job, ApiWorker.solveAndStore.
  unfold mbind, M_bind.
  rewrite (page_callGemini_outcome _ _ _ _ _ Hr), (api_callGemini_outcome _ _ _ _ _ Hr), He.
  done.
Qed.

(** ** Submissions with a missing field *)

(** C2 as stated fails on [captcha-gemini.js]: an authenticated POST
    whose JSON body has an image and no media type is answered 200 with
    a task identifier, and the pending entry of that task is written. *)
Lemma C2_counterexample :
  method (demo_submit image_only) = "POST"
  ∧ authenticated (demo_submit image_only) (read_config demo_env)
  ∧ get_prop (request_json (demo_submit image_only)) "mimeType" = Returned None
  ∧ fst (ApiWorker.handleSubmit (demo_submit image_only) (read_config demo_env)
           (demo_world FetchRejected))
    = Returned (Response 200 (taskId_json "task-0") [("Content-Type", "application/json")])
  ∧ kv_data (snd (ApiWorker.handleSubmit (demo_submit image_only) (read_config demo_env)
                    (demo_world FetchRejected))) !! "task-0"
    = Some (KvEntry pending_json 1300)
  ∧ ¬ (∃ r, ApiWorker.handleSubmit (demo_submit image_only) (read_config demo_env)
              (demo_world FetchRejected) = (Returned r, demo_world FetchRejected)
            ∧ status r = 400).
Proof.
  split; [reflexivity|]. split.
  { exists "submit-secret". split; reflexivity. }
  split; [reflexivity|]. split; [vm_compute; reflexivity|].
  split; [vm_compute; reflexivity|].
  intros (r & Hr & Hs).
  apply (f_equal fst) in Hr. vm_compute in Hr. injection Hr as <-. discriminate Hs.
Qed.

Lemma get_prop_returns (body : json) (name : string) :
  body ≠ JNull → ∃ v, get_prop (Some body) name = Returned v.
Proof.
  intros Hn. unfold get_prop. destruct body; try done; try (by eexists).
  - destruct (String.eqb name "length"); by eexists.
  - destruct (String.eqb name "length"); by eexists.
Qed.

(** C2, amended: for an authenticated POST whose JSON body is not
    [null], both fields can be read (a missing field reads as
    [undefined]), and (1) when the image is missing both scripts answer
    400 and leave the world as it was (no identifier drawn, no store
    write, no task), (2) when the media type is missing the script with
    the page does the same, and (3) [captcha-gemini.js] never reads the
    media type: with a truthy image and the store bound it creates the
    task and returns its identifier.  The body [null] is left out. *)
Theorem C2_missing_field_400_no_task (req : request) (config : configuration) (w : world)
    (body : json) :
  method req = "POST" → authenticated req config → request_json req = Some body →
  body ≠ JNull →
  (∃ image mimeType, get_prop (Some body) "image" = Returned image
                     ∧ get_prop (Some body) "mimeType" = Returned mimeType)
  ∧ (get_prop (Some body) "image" = Returned None →
       (∃ r, PageWorker.handleSubmit req config w = (Returned r, w) ∧ status r = 400)
       ∧ (∃ r, ApiWorker.handleSubmit req config w = (Returned r, w) ∧ status r = 400))
  ∧ (get_prop (Some body) "mimeType" = Returned None →
       ∃ r, PageWorker.handleSubmit req config w = (Returned r, w) ∧ status r = 400)
  ∧ (∀ image,
       get_prop (Some body) "image" = Returned image → truthy image = true →
       kv config = Some ResultsKV →
       ApiWorker.handleSubmit req config w
       = (Returned (json_response (taskId_json (next_id w))),
          created (Job (next_id w) image None config) w)).
Proof.
  intros Hm Ha Hb Hn. split; [|split; [|split]].
  - destruct (get_prop_returns body "image" Hn) as [image Hi].
    destruct (get_prop_returns body "mimeType" Hn) as [mimeType Ht].
    by exists image, mimeType.
  - intros Hi. split.
    + apply (page_submit_missing req config w body Hm Ha Hb). by left.
    + by apply (api_submit_missing_image req config w body).
  - intros Ht. apply (page_submit_missing req config w body Hm Ha Hb). by right.
  - intros image Hi Hti Hkv. by apply (api_submit_created req config w body image).
Qed.

Lemma image_only_not_null : image_only ≠ JNull.
Proof. discriminate. Defined.

Lemma C2_witness :
  (∃ r, PageWorker.handleSubmit (demo_submit image_only) (read_config demo_env)
          (demo_world FetchRejected) = (Returned r, demo_world FetchRejected)
        ∧ status r = 400)
  ∧ ApiWorker.handleSubmit (demo_submit image_only) (read_config demo_env)
      (demo_world FetchRejected)
    = (Returned (json_response (taskId_json (next_id (demo_world FetchRejected)))),
       created (Job (next_id (demo_world FetchRejected)) (Some (JStr "iVBORw0KGgo=")) None
                    (read_config demo_env))
               (demo_world FetchRejected)).
Proof.
  pose proof (C2_missing_field_400_no_task (demo_submit image_only) (read_config demo_env)
                (demo_world FetchRejected) image_only eq_refl
                (demo_submit_authenticated image_only) eq_refl image_only_not_null) as H.
  exact (conj (proj1 (proj2 (proj2 H)) eq_refl)
              (proj2 (proj2 (proj2 H)) (Some (JStr "iVBORw0KGgo=")) eq_refl eq_refl eq_refl)).
Defined.

(** ** Results of the inference client *)

Lemma extract_solution_answer_field (j : json) :
  extract_solution j = (text ← answer_field j; call_trim text).
Proof.
  unfold extract_solution, answer_field, mbind, outcome_bind.
  destruct (get_prop (Some j) "candidates") as [candidates|]; [|done].
  destruct (get_index candidates 0) as [candidate|]; [|done].
  destruct (get_prop candidate "content") as [content|]; [|done].
  destruct (get_prop content "parts") as [parts|]; [|done].
  destruct (get_index parts 0) as [part|]; [|done].
  done.
Qed.

Lemma extract_solution_text (j : json) (s : string) :
  answer_field j = Returned (Some (JStr s)) → extract_solution j = Returned (trim s).
Proof. intros H. rewrite extract_solution_answer_field, H. reflexivity. Qed.

Lemma extract_solution_no_text (j : json) :
  (∀ s, answer_field j ≠ Returned (Some (JStr s))) → ∃ e, extract_solution j = Thrown e.
Proof.
  intros H. rewrite extract_solution_answer_field.
  destruct (answer_field j) as [[[]|]|e] eqn:E; simpl; eauto.
  by destruct (H s).
Qed.

Example blank_answer_is_empty_solution :
  client_outcome (answer_reply (nbsp +:+ " " +:+ ideographic_space))
  = Returned (GeminiResult None (Some EmptyString))
  ∧ client_outcome (answer_reply (nbsp +:+ "42" +:+ byte_order_mark))
    = Returned (GeminiResult None (Some "42")).
Proof. split; vm_compute; reflexivity. Qed.

(** C3 as stated fails on both scripts: when the provider answers with a
    success status and an empty answer text, the client resolves to a
    solution that is the empty string, not to an error, and the
    background step stores a completed state with an empty solution. *)
Lemma C3_counterexample :
  answer_field (provider_answer EmptyString) = Returned (Some (JStr EmptyString))
  ∧ PageWorker.callGemini (Some "provider-key") (Some "gemini-pro-vision") JNull
      (demo_world (answer_reply EmptyString))
    = (Returned (GeminiResult None (Some EmptyString)), demo_world (answer_reply EmptyString))
  ∧ ApiWorker.callGemini (Some "provider-key") (Some "gemini-pro-vision") JNull
      (demo_world (answer_reply EmptyString))
    = (Returned (GeminiResult None (Some EmptyString)), demo_world (answer_reply EmptyString))
  ∧ kv_data (settled (PageWorker.fetch demo_page) PageWorker.run_job
               (answer_reply EmptyString)) !! "task-0"
    = Some (KvEntry (completed_json EmptyString) 1300)
  ∧ kv_data (settled ApiWorker.fetch ApiWorker.run_job (answer_reply EmptyString)) !! "task-0"
    = Some (KvEntry (completed_json EmptyString) 1300).
Proof.
  repeat split; vm_compute; reflexivity.
Qed.

(** C3, amended: for every call of the client of both scripts in which
    the provider answers the request posted to the model's address with
    a response, (1) on a non-success status the client resolves to an
    error whose message is "Gemini API error: " followed by the body
    text, (2) on a success status with a JSON body whose
    [candidates[0].content.parts[0].text] is missing or is not a string
    it resolves to the error "Failed to parse Gemini response", never
    throwing, and (3) when that field is a string it resolves to the
    solution made of the trimmed string, the empty string included.
    Both error messages are truthy, so the background step stores them
    as an error state. *)
Theorem C3_client_error_results (k m : option string) (payload : json) (w : world)
    (res : provider_response) :
  gemini w (gemini_endpoint m k) payload = FetchResponse res →
  (ok res = false →
     PageWorker.callGemini k m payload w
     = (Returned (GeminiResult (Some ("Gemini API error: " +:+ res_text res)) None), w)
     ∧ ApiWorker.callGemini k m payload w
       = (Returned (GeminiResult (Some ("Gemini API error: " +:+ res_text res)) None), w))
  ∧ (∀ j, ok res = true → res_json res = Some j →
       (∀ s, answer_field j ≠ Returned (Some (JStr s))) →
       PageWorker.callGemini k m payload w
       = (Returned (GeminiResult (Some "Failed to parse Gemini response") None), w)
       ∧ ApiWorker.callGemini k m payload w
         = (Returned (GeminiResult (Some "Failed to parse Gemini response") None), w))
  ∧ (∀ j s, ok res = true → res_json res = Some j →
       answer_field j = Returned (Some (JStr s)) →
       PageWorker.callGemini k m payload w = (Returned (GeminiResult None (Some (trim s))), w)
       ∧ ApiWorker.callGemini k m payload w = (Returned (GeminiResult None (Some (trim s))), w))
  ∧ truthy_str (Some ("Gemini API error: " +:+ res_text res)) = true
  ∧ truthy_str (Some "Failed to parse Gemini response") = true.
Proof.
  intros Hr.
  rewrite (page_callGemini_at k m payload w _ Hr), (api_callGemini_at k m payload w _ Hr).
  simpl client_outcome.
  split; [|split; [|split; [|split]]].
  - intros ->. by split.
  - intros j -> -> Hno. destruct (extract_solution_no_text j Hno) as [e ->]. by split.
  - intros j s -> -> Hs. rewrite (extract_solution_text j s Hs). by split.
  - reflexivity.
  - reflexivity.
Qed.

Lemma C3_witness :
  (PageWorker.callGemini (Some "provider-key") (Some "gemini-pro-vision") JNull
     (demo_world (FetchResponse (ProviderResponse 500 "quota exceeded" None)))
   = (Returned (GeminiResult (Some ("Gemini API error: " +:+ "quota exceeded")) None),
      demo_world (FetchResponse (ProviderResponse 500 "quota exceeded" None)))
   ∧ ApiWorker.callGemini (Some "provider-key") (Some "gemini-pro-vision") JNull
       (demo_world (FetchResponse (ProviderResponse 500 "quota exceeded" None)))
     = (Returned (GeminiResult (Some ("Gemini API error: " +:+ "quota exceeded")) None),
        demo_world (FetchResponse (ProviderResponse 500 "quota exceeded" None))))
  ∧ (PageWorker.callGemini (Some "provider-key") (Some "gemini-pro-vision") JNull
       (demo_world (FetchResponse (ProviderResponse 200 "{}" (Some (JObj [])))))
     = (Returned (GeminiResult (Some "Failed to parse Gemini response") None),
        demo_world (FetchResponse (ProviderResponse 200 "{}" (Some (JObj [])))))
     ∧ ApiWorker.callGemini (Some "provider-key") (Some "gemini-pro-vision") JNull
         (demo_world (FetchResponse (ProviderResponse 200 "{}" (Some (JObj [])))))
       = (Returned (GeminiResult (Some "Failed to parse Gemini response") None),
          demo_world (FetchResponse (ProviderResponse 200 "{}" (Some (JObj []))))))
  ∧ (PageWorker.callGemini (Some "provider-key") (Some "gemini-pro-vision") JNull
       (demo_world (answer_reply " 42 "))
     = (Returned (GeminiResult None (Some (trim " 42 "))), demo_world (answer_reply " 42 "))
     ∧ ApiWorker.callGemini (Some "provider-key") (Some "gemini-pro-vision") JNull
         (demo_world (answer_reply " 42 "))
       = (Returned (GeminiResult None (Some (trim " 42 "))), demo_world (answer_reply " 42 "))).
Proof.
  split; [|split].
  - apply (proj1 (C3_client_error_results (Some "provider-key") (Some "gemini-pro-vision")
                    JNull (demo_world (FetchResponse (ProviderResponse 500 "quota exceeded" None)))
                    (ProviderResponse 500 "quota exceeded" None) eq_refl)).
    reflexivity.
  - apply (proj1 (proj2 (C3_client_error_results (Some "provider-key")
                           (Some "gemini-pro-vision") JNull
                           (demo_world (FetchResponse (ProviderResponse 200 "{}" (Some (JObj [])))))
                           (ProviderResponse 200 "{}" (Some (JObj []))) eq_refl)) (JObj [])).
    + reflexivity.
    + reflexivity.
    + intros s. vm_compute. discriminate.
  - apply (proj1 (proj2 (proj2 (C3_client_error_results (Some "provider-key")
                                  (Some "gemini-pro-vision") JNull
                                  (demo_world (answer_reply " 42 "))
                                  (ProviderResponse 200 "{...}" (Some (provider_answer " 42 ")))
                                  eq_refl))) (provider_answer " 42 ") " 42 ").
    + reflexivity.
    + reflexivity.
    + vm_compute. reflexivity.
Defined.

(** ** Further properties of the submit handlers *)

Lemma get_prop_thrown_null (body : json) (name : string) (e : exn) :
  get_prop (Some body) name = Thrown e → body = JNull ∧ e = TypeError.
Proof.
  unfold get_prop. destruct body; try discriminate.
  - intros H. by injection H as <-.
  - destruct (String.eqb name "length"); discriminate.
  - destruct (String.eqb name "length"); discriminate.
Qed.

Lemma page_submit_class (req : request) (config : configuration) (w : world) :
  submit_outcome_class PageWorker.handleSubmit req config w.
Proof.
  unfold submit_outcome_class, PageWorker.handleSubmit.
  destruct (negb _); [left; eexists; split; [reflexivity|]; simpl; tauto|].
  destruct (strict_neq _ _); [left; eexists; split; [reflexivity|]; simpl; tauto|].
  destruct (request_json req) as [body|];
    [|left; eexists; split; [reflexivity|]; simpl; tauto].
  run_m. destruct (get_prop (Some body) "image") as [image|e] eqn:Hi.
  + destruct (truthy image); simpl;
      [|left; eexists; split; [reflexivity|]; simpl; tauto].
    destruct (get_prop (Some body) "mimeType") as [mimeType|e] eqn:Ht; simpl.
    * destruct (truthy mimeType); simpl;
        [|left; eexists; split; [reflexivity|]; simpl; tauto].
      unfold kv_put. destruct (kv config) as [[]|]; simpl.
      -- right; left. exists (Job (next_id w) image (Some mimeType) config).
         split; [|done].
         unfold created, next_id, taskId_json, store_put, set_kv_data, log. simpl.
         by rewrite <- !app_assoc.
      -- right; right; right. done.
    * destruct (get_prop_thrown_null _ _ _ Ht) as [-> ->]. discriminate Hi.
  + destruct (get_prop_thrown_null _ _ _ Hi) as [-> ->]. right; right; left. done.
Qed.

Lemma api_submit_class (req : request) (config : configuration) (w : world) :
  submit_outcome_class ApiWorker.handleSubmit req config w.
Proof.
  unfold submit_outcome_class, ApiWorker.handleSubmit.
  destruct (negb _); [left; eexists; split; [reflexivity|]; simpl; tauto|].
  destruct (strict_neq _ _); [left; eexists; split; [reflexivity|]; simpl; tauto|].
  destruct (request_json req) as [body|];
    [|left; eexists; split; [reflexivity|]; simpl; tauto].
  run_m. destruct (get_prop (Some body) "image") as [image|e] eqn:Hi.
  + destruct (truthy image); simpl;
      [|left; eexists; split; [reflexivity|]; simpl; tauto].
    unfold kv_put. destruct (kv config) as [[]|]; simpl.
    * right; left. exists (Job (next_id w) image None config).
      split; [|done].
      unfold created, next_id, taskId_json, store_put, set_kv_data, log. simpl.
      by rewrite <- !app_assoc.
    * right; right; right. done.
  + destruct (get_prop_thrown_null _ _ _ Hi) as [-> ->]. right; right; left. done.
Qed.




Lemma strict_neq_true (a : option string) (s : string) :
  a ≠ Some s → strict_neq a (Some s) = true.
Proof.
  intros H. apply strict_neq_wrong. intros s' Hs'. by injection Hs' as <-.
Qed.

(** X2: for a POST, the credential decides alone and first.  When the
    Authorization header is not exactly "Bearer " followed by the
    configured token, both submit handlers answer 401 and leave the
    world as it was, whatever the body is (unreadable, [null], without
    image); when it is, no answer of theirs is a 401. *)
Theorem X2_submit_401_exactly_on_wrong_token (req : request) (config : configuration)
    (w : world) :
  method req = "POST" →
  (headers_get (headers req) "Authorization"
   ≠ Some ("Bearer " +:+ interpolate (authToken config)) →
     PageWorker.handleSubmit req config w
     = (Returned (text_response "Unauthorized: Invalid AUTH_TOKEN" 401), w)
     ∧ ApiWorker.handleSubmit req config w
       = (Returned (text_response "Unauthorized: Invalid AUTH_TOKEN" 401), w))
  ∧ (headers_get (headers req) "Authorization"
     = Some ("Bearer " +:+ interpolate (authToken config)) →
       ∀ r, fst (PageWorker.handleSubmit req config w) = Returned r
            ∨ fst (ApiWorker.handleSubmit req config w) = Returned r →
            status r = 400 ∨ status r = 200).
Proof.
  intros Hm. split.
  - intros Hh. unfold PageWorker.handleSubmit, ApiWorker.handleSubmit.
    rewrite Hm, (strict_neq_true _ _ Hh). simpl. done.
  - intros Hh r. unfold PageWorker.handleSubmit, ApiWorker.handleSubmit.
    rewrite Hm, Hh, strict_neq_same. simpl.
    destruct (request_json req) as [body|]; simpl.
    2:{ intros [H | H]; injection H as <-; by left. }
    run_m. destruct (get_prop (Some body) "image") as [image|e]; simpl.
    2:{ intros [H | H]; discriminate H. }
    destruct (truthy image); simpl.
    2:{ intros [H | H]; injection H as <-; by left. }
    unfold kv_put.
    destruct (get_prop (Some body) "mimeType") as [mimeType|e]; simpl.
    + destruct (truthy mimeType); simpl;
        (destruct (kv config) as [[]|]; simpl;
         [intros [H | H]; injection H as <-; (by left) || (by right)
         |intros [H | H]; try discriminate H; try (injection H as <-; by left)]).
    + destruct (kv config) as [[]|]; simpl;
        intros [H | H]; try discriminate H; injection H as <-; by right.
Qed.

Lemma X2_witness :
  PageWorker.handleSubmit
    (Request "POST" "/submit" [] [("Authorization", "bearer submit-secret")] None)
    (read_config demo_env) (demo_world FetchRejected)
  = (Returned (text_response "Unauthorized: Invalid AUTH_TOKEN" 401), demo_world FetchRejected)
  ∧ ApiWorker.handleSubmit
      (Request "POST" "/submit" [] [("Authorization", "bearer submit-secret")] None)
      (read_config demo_env) (demo_world FetchRejected)
    = (Returned (text_response "Unauthorized: Invalid AUTH_TOKEN" 401),
       demo_world FetchRejected).
Proof.
  apply (proj1 (X2_submit_401_exactly_on_wrong_token
                  (Request "POST" "/submit" [] [("Authorization", "bearer submit-secret")] None)
                  (read_config demo_env) (demo_world FetchRejected) eq_refl)).
  discriminate.
Defined.

(** ** Further properties of the entry point *)



Lemma page_result_returns (req : request) (config : configuration) (w : world) :
  kv config = Some ResultsKV →
  ∃ r, fst (PageWorker.handleResult req config w) = Returned r
       ∧ (status r = 405 ∨ status r = 401 ∨ status r = 400 ∨ status r = 404 ∨ status r = 200).
Proof.
  intros Hkv. unfold PageWorker.handleResult.
  destruct (negb _); [eexists; split; [reflexivity|]; simpl; tauto|]. simpl.
  destruct (strict_neq _ _); [eexists; split; [reflexivity|]; simpl; tauto|].
  destruct (searchParams_get _ "taskId") as [id|];
    [|eexists; split; [reflexivity|]; simpl; tauto].
  destruct (is_empty id); [eexists; split; [reflexivity|]; simpl; tauto|].
  unfold kv_get. rewrite Hkv. run_m.
  destruct (store_get _ _ _) as [value|]; [|eexists; split; [reflexivity|]; simpl; tauto].
  destruct (is_empty value); eexists; (split; [reflexivity|]); simpl; tauto.
Qed.

Lemma api_result_returns (req : request) (config : configuration) (w : world) :
  kv config = Some ResultsKV →
  ∃ r, fst (ApiWorker.handleResult req config w) = Returned r
       ∧ (status r = 405 ∨ status r = 401 ∨ status r = 400 ∨ status r = 404 ∨ status r = 200).
Proof.
  intros Hkv. unfold ApiWorker.handleResult.
  destruct (negb _); [eexists; split; [reflexivity|]; simpl; tauto|]. simpl.
  destruct (strict_neq _ _); [eexists; split; [reflexivity|]; simpl; tauto|].
  destruct (searchParams_get _ "taskId") as [id|];
    [|eexists; split; [reflexivity|]; simpl; tauto].
  destruct (is_empty id); [eexists; split; [reflexivity|]; simpl; tauto|].
  unfold kv_get. rewrite Hkv. run_m.
  destruct (store_get _ _ _) as [value|]; eexists; (split; [reflexivity|]); simpl; tauto.
Qed.




Lemma page_submit_statuses (req : request) (config : configuration) (w : world) (r : response) :
  fst (PageWorker.handleSubmit req config w) = Returned r →
  status r = 405 ∨ status r = 401 ∨ status r = 400 ∨ status r = 200.
Proof.
  destruct (page_submit_class req config w)
    as [(r' & -> & Hs) | [(j & -> & _) | [[-> _] | [-> _]]]]; simpl; intros H;
    try discriminate H; injection H as <-; simpl; tauto.
Qed.

Lemma api_submit_statuses (req : request) (config : configuration) (w : world) (r : response) :
  fst (ApiWorker.handleSubmit req config w) = Returned r →
  status r = 405 ∨ status r = 401 ∨ status r = 400 ∨ status r = 200.
Proof.
  destruct (api_submit_class req config w)
    as [(r' & -> & Hs) | [(j & -> & _) | [[-> _] | [-> _]]]]; simpl; intros H;
    try discriminate H; injection H as <-; simpl; tauto.
Qed.

Lemma page_fetch_statuses (page : string) (req : request) (env : environment) (w : world)
    (r : response) :
  configured env = true → fst (PageWorker.fetch page req env w) = Returned r →
  status r = 405 ∨ status r = 401 ∨ status r = 400 ∨ status r = 404 ∨ status r = 200.
Proof.
  intros Hc. rewrite (page_fetch_configured page req env Hc).
  destruct (String.eqb (pathname req) "/").
  { intros H. injection H as <-. simpl. tauto. }
  destruct (String.eqb (pathname req) "/submit").
  { intros H. pose proof (page_submit_statuses req (read_config env) w r H) as Hs.
    clear H. tauto. }
  destruct (String.eqb (pathname req) "/result").
  { destruct (page_result_returns req (read_config env) w (configured_kv env Hc))
      as (r' & Hr & Hs).
    rewrite Hr. intros H. injection H as <-. exact Hs. }
  intros H. injection H as <-. simpl. tauto.
Qed.

Lemma api_fetch_statuses (req : request) (env : environment) (w : world) (r : response) :
  configured env = true → fst (ApiWorker.fetch req env w) = Returned r →
  status r = 405 ∨ status r = 401 ∨ status r = 400 ∨ status r = 404 ∨ status r = 200.
Proof.
  intros Hc. rewrite (api_fetch_configured req env Hc).
  destruct (String.eqb (pathname req) "/submit").
  { intros H. pose proof (api_submit_statuses req (read_config env) w r H) as Hs.
    clear H. tauto. }
  destruct (String.eqb (pathname req) "/result").
  { destruct (api_result_returns req (read_config env) w (configured_kv env Hc))
      as (r' & Hr & Hs).
    rewrite Hr. intros H. injection H as <-. exact Hs. }
  intros H. injection H as <-. simpl. tauto.
Qed.

(** X4: every response of [fetch], in both scripts, has one of the
    status codes 200, 400, 401, 404, 405 and 500, and it is a 500
    exactly when a setting is missing or empty: once the settings are in
    place no route answers 500. *)
Theorem X4_status_500_exactly_when_misconfigured (page : string) (req : request)
    (env : environment) (w : world) (r : response) :
  fst (PageWorker.fetch page req env w) = Returned r
  ∨ fst (ApiWorker.fetch req env w) = Returned r →
  known_status (status r) ∧ (status r = 500 ↔ configured env = false).
Proof.
  intros H. destruct (configured env) eqn:Hc.
  - assert (status r = 405 ∨ status r = 401 ∨ status r = 400 ∨ status r = 404
            ∨ status r = 200) as Hs.
    { destruct H as [H | H].
      - by apply (page_fetch_statuses page req env w r Hc).
      - by apply (api_fetch_statuses req env w r Hc). }
    clear H. unfold known_status. split.
    + destruct Hs as [-> | [-> | [-> | [-> | ->]]]]; tauto.
    + split; [|discriminate]. intros H500. rewrite H500 in Hs.
      destruct Hs as [? | [? | [? | [? | ?]]]]; discriminate.
  - assert (∃ key, first_falsy (config_entries (read_config env)) = Some key) as [key Hk].
    { destruct (first_falsy (config_entries (read_config env))) as [key|] eqn:E;
        [by exists key|].
      apply configured_first_falsy in E. congruence. }
    rewrite (page_fetch_not_configured page req env key w Hk),
            (api_fetch_not_configured req env key w Hk) in H.
    assert (r = not_configured key) as -> by (destruct H as [H | H]; by injection H).
    unfold known_status. simpl. split; [tauto|done].
Qed.

Lemma X4_witness :
  known_status (status (text_response "Not Found. Use /submit or /result endpoints." 404))
  ∧ (status (text_response "Not Found. Use /submit or /result endpoints." 404) = 500
     ↔ configured demo_env = false).
Proof.
  apply (X4_status_500_exactly_when_misconfigured demo_page
           (Request "GET" "/favicon.ico" [] [] None) demo_env (demo_world FetchRejected)).
  right. reflexivity.
Defined.

(** ** Further properties of the result handlers *)

Lemma store_get_live (id : string) (now : Z) (m : gmap string kv_entry) (e : kv_entry) :
  m !! id = Some e → now < entry_expiry e → store_get id now m = Some (entry_value e).
Proof.
  intros H Hlt. unfold store_get. rewrite H.
  destruct (Z.ltb_spec now (entry_expiry e)); [done|lia].
Qed.

Lemma store_get_dead (id : string) (now : Z) (m : gmap string kv_entry) :
  no_live_entry id now m → store_get id now m = None.
Proof.
  unfold store_get. intros [-> | (e & -> & Hle)]; [done|].
  destruct (Z.ltb_spec now (entry_expiry e)); [lia|done].
Qed.

(** X5: what a poll with the right credential answers, in both scripts
    and with the store bound.  Without a task identifier, or with an
    empty one, it answers 400 and does not read the store.  Otherwise it
    reads the store once under the identifier as given and answers the
    stored text unchanged, as JSON with status 200, when the entry is
    there and has not expired; it answers 404 when the identifier was
    never written or its expiry has passed. *)
Theorem X5_poll_answers_stored_text_or_404 (req : request) (config : configuration)
    (w : world) :
  method req = "GET" → right_query_credential req config → kv config = Some ResultsKV →
  (searchParams_get (searchParams req) "taskId" = None
   ∨ searchParams_get (searchParams req) "taskId" = Some EmptyString →
     (∃ r, PageWorker.handleResult req config w = (Returned r, w) ∧ status r = 400)
     ∧ (∃ r, ApiWorker.handleResult req config w = (Returned r, w) ∧ status r = 400))
  ∧ (∀ id, searchParams_get (searchParams req) "taskId" = Some id → is_empty id = false →
       (∀ e, kv_data w !! id = Some e → clock w < entry_expiry e →
             is_empty (entry_value e) = false →
             PageWorker.handleResult req config w
             = (Returned (json_response (entry_value e)), log (EvKvGet id) w)
             ∧ ApiWorker.handleResult req config w
               = (Returned (json_response (entry_value e)), log (EvKvGet id) w))
       ∧ (no_live_entry id (clock w) (kv_data w) →
            PageWorker.handleResult req config w
            = (Returned (text_response "Task not found or expired" 404), log (EvKvGet id) w)
            ∧ ApiWorker.handleResult req config w
              = (Returned (text_response "Task not found or expired" 404),
                 log (EvKvGet id) w))).
Proof.
  intros Hm Hk Hkv. split.
  - intros Hid. unfold PageWorker.handleResult, ApiWorker.handleResult.
    rewrite Hm, (right_query_credential_eq _ _ Hk). simpl.
    destruct Hid as [-> | ->]; simpl; split; eexists; (split; [reflexivity|reflexivity]).
  - intros id Hid Hne.
    rewrite (page_result_lookup req config w id Hm Hk Hid Hne Hkv),
            (api_result_lookup req config w id Hm Hk Hid Hne Hkv).
    unfold page_lookup_response, api_lookup_response. split.
    + intros e He Hlt Hv. rewrite (store_get_live id (clock w) (kv_data w) e He Hlt), Hv. done.
    + intros Hdead. rewrite (store_get_dead id (clock w) (kv_data w) Hdead). done.
Qed.

Lemma X5_witness :
  PageWorker.handleResult (demo_poll "never-issued" "query-secret") (read_config demo_env)
    (demo_world FetchRejected)
  = (Returned (text_response "Task not found or expired" 404),
     log (EvKvGet "never-issued") (demo_world FetchRejected))
  ∧ ApiWorker.handleResult (demo_poll "never-issued" "query-secret") (read_config demo_env)
      (demo_world FetchRejected)
    = (Returned (text_response "Task not found or expired" 404),
       log (EvKvGet "never-issued") (demo_world FetchRejected)).
Proof.
  assert (right_query_credential (demo_poll "never-issued" "query-secret")
            (read_config demo_env)) as Hk.
  { exists "query-secret". split; reflexivity. }
  destruct (X5_poll_answers_stored_text_or_404 (demo_poll "never-issued" "query-secret")
              (read_config demo_env) (demo_world FetchRejected) eq_refl Hk eq_refl)
    as [_ Hlookup].
  destruct (Hlookup "never-issued" eq_refl eq_refl) as [_ Hdead].
  apply Hdead. left. reflexivity.
Defined.

(** ** A task from submission to the polls *)

Lemma terminal_text_not_empty (result : gemini_result) :
  is_empty (terminal_text result) = false.
Proof. reflexivity. Qed.

Lemma store_get_expired (id value : string) (now d : Z) (m : gmap string kv_entry) :
  300 <= d →
  store_get id (now + d) (<[id := KvEntry value (now + 300)]> m) = None.
Proof.
  intros Hd. unfold store_get. rewrite lookup_insert_eq. simpl.
  destruct (Z.ltb_spec (now + d) (now + 300)); [lia|done].
Qed.

Lemma page_serve_poll (page : string) (poll : request) (env : environment)
    (w : world) (id : string) :
  configured env = true → poll_of poll env id → is_empty id = false →
  fst (serve (PageWorker.fetch page) poll env w)
  = page_lookup_response id (clock w) (kv_data w).
Proof.
  intros Hc (Hp & Hm & Hk & Hid) Hne.
  unfold serve. rewrite (page_fetch_configured page poll env Hc), Hp. simpl.
  by rewrite (page_result_lookup poll (read_config env) w id Hm Hk Hid Hne
                (configured_kv env Hc)).
Qed.

Lemma api_serve_poll (poll : request) (env : environment) (w : world) (id : string) :
  configured env = true → poll_of poll env id → is_empty id = false →
  fst (serve ApiWorker.fetch poll env w) = api_lookup_response id (clock w) (kv_data w).
Proof.
  intros Hc (Hp & Hm & Hk & Hid) Hne.
  unfold serve. rewrite (api_fetch_configured poll env Hc), Hp. simpl.
  by rewrite (api_result_lookup poll (read_config env) w id Hm Hk Hid Hne
                (configured_kv env Hc)).
Qed.

(** The world after the background step of a submission, when the client
    resolves to [result]. *)
Lemma page_after_background (page : string) (req : request) (env : environment) (w : world)
    (image mimeType : jsval) (reply : fetch_outcome) (result : gemini_result) (d : Z) :
  accepted_by_page req env image mimeType →
  provider_replies w reply → client_outcome reply = Returned result →
  kv_data (after_background (PageWorker.fetch page) PageWorker.run_job req env d w)
  = <[next_id w := KvEntry (terminal_text result) (clock w + d + 300)]>
      (<[next_id w := KvEntry pending_json (clock w + 300)]> (kv_data w))
  ∧ clock (after_background (PageWorker.fetch page) PageWorker.run_job req env d w)
    = clock w + d.
Proof.
  intros (Hc & Hp & Hs & Hd) Hr Hres. unfold after_background.
  rewrite (page_serve_created page req env w image mimeType Hc Hp Hs Hd). simpl.
  unfold settle. simpl. rewrite list_lookup_middle by done.
  rewrite (page_job_outcome _ _ reply); [|exact Hr|exact (configured_kv env Hc)].
  rewrite Hres. simpl. done.
Qed.

Lemma api_after_background (req : request) (env : environment) (w : world)
    (image : jsval) (reply : fetch_outcome) (result : gemini_result) (d : Z) :
  accepted_by_api req env image →
  provider_replies w reply → client_outcome reply = Returned result →
  kv_data (after_background ApiWorker.fetch ApiWorker.run_job req env d w)
  = <[next_id w := KvEntry (terminal_text result) (clock w + d + 300)]>
      (<[next_id w := KvEntry pending_json (clock w + 300)]> (kv_data w))
  ∧ clock (after_background ApiWorker.fetch ApiWorker.run_job req env d w) = clock w + d.
Proof.
  intros (Hc & Hp & Hs) Hr Hres. unfold after_background.
  rewrite (api_serve_created req env w image Hc Hp Hs). simpl.
  unfold settle. simpl. rewrite list_lookup_middle by done.
  rewrite (api_job_outcome _ _ reply); [|exact Hr|exact (configured_kv env Hc)].
  rewrite Hres. simpl. done.
Qed.

Lemma page_poll_after_background (page : string) (req poll : request) (env : environment)
    (w : world) (image mimeType : jsval) (reply : fetch_outcome) (result : gemini_result)
    (d1 d2 : Z) :
  accepted_by_page req env image mimeType → is_empty (next_id w) = false →
  provider_replies w reply → client_outcome reply = Returned result →
  poll_of poll env (next_id w) →
  fst (serve (PageWorker.fetch page) poll env
         (later d2 (after_background (PageWorker.fetch page) PageWorker.run_job req env d1 w)))
  = if Z.ltb d2 300 then json_response (terminal_text result)
    else text_response "Task not found or expired" 404.
Proof.
  intros Ha Hne Hr Hres Hpoll.
  destruct (page_after_background page req env w image mimeType reply result d1 Ha Hr Hres)
    as [Hkv Hclock].
  rewrite (page_serve_poll page poll env _ (next_id w) (proj1 Ha) Hpoll Hne).
  unfold later. simpl. rewrite Hkv, Hclock. unfold page_lookup_response.
  destruct (Z.ltb_spec d2 300).
  - unfold store_get. rewrite lookup_insert_eq. simpl.
    destruct (Z.ltb_spec (clock w + d1 + d2) (clock w + d1 + 300)); [|lia].
    by rewrite terminal_text_not_empty.
  - unfold store_get. rewrite lookup_insert_eq. simpl.
    destruct (Z.ltb_spec (clock w + d1 + d2) (clock w + d1 + 300)); [lia|done].
Qed.

Lemma api_poll_after_background (req poll : request) (env : environment)
    (w : world) (image : jsval) (reply : fetch_outcome) (result : gemini_result)
    (d1 d2 : Z) :
  accepted_by_api req env image → is_empty (next_id w) = false →
  provider_replies w reply → client_outcome reply = Returned result →
  poll_of poll env (next_id w) →
  fst (serve ApiWorker.fetch poll env
         (later d2 (after_background ApiWorker.fetch ApiWorker.run_job req env d1 w)))
  = if Z.ltb d2 300 then json_response (terminal_text result)
    else text_response "Task not found or expired" 404.
Proof.
  intros Ha Hne Hr Hres Hpoll.
  destruct (api_after_background req env w image reply result d1 Ha Hr Hres)
    as [Hkv Hclock].
  rewrite (api_serve_poll poll env _ (next_id w) (proj1 Ha) Hpoll Hne).
  unfold later. simpl. rewrite Hkv, Hclock. unfold api_lookup_response.
  destruct (Z.ltb_spec d2 300).
  - unfold store_get. rewrite lookup_insert_eq. simpl.
    by destruct (Z.ltb_spec (clock w + d1 + d2) (clock w + d1 + 300)); [|lia].
  - unfold store_get. rewrite lookup_insert_eq. simpl.
    destruct (Z.ltb_spec (clock w + d1 + d2) (clock w + d1 + 300)); [lia|done].
Qed.

Lemma demo_accepted_by_page : accepted_by_page (demo_submit demo_body) demo_env
                                (Some (JStr "iVBORw0KGgo=")) (Some (JStr "image/png")).
Proof.
  split; [reflexivity|]. split; [reflexivity|]. split.
  - split; [reflexivity|]. split.
    + exists "submit-secret". split; reflexivity.
    + exists demo_body. repeat split; reflexivity.
  - exists demo_body. repeat split; reflexivity.
Defined.

Lemma demo_accepted_by_api : accepted_by_api (demo_submit demo_body) demo_env
                               (Some (JStr "iVBORw0KGgo=")).
Proof.
  split; [reflexivity|]. split; [reflexivity|].
  split; [reflexivity|]. split.
  - exists "submit-secret". split; reflexivity.
  - exists demo_body. repeat split; reflexivity.
Defined.

Lemma demo_poll_of (reply : fetch_outcome) :
  poll_of (demo_poll "task-0" "query-secret") demo_env (next_id (demo_world reply)).
Proof.
  split; [reflexivity|]. split; [reflexivity|]. split.
  - exists "query-secret". split; reflexivity.
  - vm_compute. reflexivity.
Defined.

Lemma demo_first_id (reply : fetch_outcome) : is_empty (next_id (demo_world reply)) = false.
Proof. vm_compute. reflexivity. Defined.

Lemma demo_provider (reply : fetch_outcome) : provider_replies (demo_world reply) reply.
Proof. intros url payload. reflexivity. Defined.

Lemma demo_answer_field (text : string) :
  answer_field (provider_answer text) = Returned (Some (JStr text)).
Proof. reflexivity. Defined.

(** X6: a task whose provider call succeeds is polled as completed.
    After an accepted submission, when the provider answers with a
    success status and a body whose answer field is the string [s], the
    background step, run any time [d1] after the submission (also later
    than the expiry of the pending entry), stores the completed state
    with the trimmed answer, and every poll of the returned identifier
    made less than 300 seconds after that write answers that state,
    in both scripts. *)
Theorem X6_answer_is_polled_as_completed (page : string) (req poll : request)
    (env : environment) (w : world) (image mimeType : jsval) (res : provider_response)
    (j : json) (s : string) (d1 d2 : Z) :
  is_empty (next_id w) = false →
  provider_replies w (FetchResponse res) → ok res = true → res_json res = Some j →
  answer_field j = Returned (Some (JStr s)) →
  poll_of poll env (next_id w) → 0 <= d1 → 0 <= d2 < 300 →
  (accepted_by_page req env image mimeType →
     fst (serve (PageWorker.fetch page) poll env
            (later d2 (after_background (PageWorker.fetch page) PageWorker.run_job
                         req env d1 w)))
     = json_response (completed_json (trim s)))
  ∧ (accepted_by_api req env image →
       fst (serve ApiWorker.fetch poll env
              (later d2 (after_background ApiWorker.fetch ApiWorker.run_job req env d1 w)))
       = json_response (completed_json (trim s))).
Proof.
  intros Hne Hr Hok Hj Hs Hpoll Hd1 Hd2.
  assert (client_outcome (FetchResponse res) = Returned (GeminiResult None (Some (trim s))))
    as Hres.
  { simpl. by rewrite Hok, Hj, (extract_solution_text j s Hs). }
  assert (Z.ltb d2 300 = true) as Hlt by (apply Z.ltb_lt; lia).
  split; intros Ha.
  - rewrite (page_poll_after_background page req poll env w image mimeType _ _ d1 d2
               Ha Hne Hr Hres Hpoll), Hlt. reflexivity.
  - rewrite (api_poll_after_background req poll env w image _ _ d1 d2
               Ha Hne Hr Hres Hpoll), Hlt. reflexivity.
Qed.

Lemma X6_witness :
  fst (serve (PageWorker.fetch demo_page) (demo_poll "task-0" "query-secret") demo_env
         (later 10 (after_background (PageWorker.fetch demo_page) PageWorker.run_job
                      (demo_submit demo_body) demo_env 400 (demo_world (answer_reply " 42 ")))))
  = json_response (completed_json (trim " 42 "))
  ∧ fst (serve ApiWorker.fetch (demo_poll "task-0" "query-secret") demo_env
           (later 10 (after_background ApiWorker.fetch ApiWorker.run_job
                        (demo_submit demo_body) demo_env 400
                        (demo_world (answer_reply " 42 ")))))
    = json_response (completed_json (trim " 42 ")).
Proof.
  assert (0 <= 400) as Hd1 by lia.
  assert (0 <= 10 < 300) as Hd2 by lia.
  pose proof (X6_answer_is_polled_as_completed demo_page (demo_submit demo_body)
                (demo_poll "task-0" "query-secret") demo_env (demo_world (answer_reply " 42 "))
                (Some (JStr "iVBORw0KGgo=")) (Some (JStr "image/png"))
                (ProviderResponse 200 "{...}" (Some (provider_answer " 42 ")))
                (provider_answer " 42 ") " 42 " 400 10
                (demo_first_id _) (demo_provider _) eq_refl eq_refl (demo_answer_field _)
                (demo_poll_of _) Hd1 Hd2) as H.
  exact (conj (proj1 H demo_accepted_by_page) (proj2 H demo_accepted_by_api)).
Defined.

(** X7: a task whose provider call fails cleanly is polled as an error
    with the detail.  After an accepted submission, when the provider
    answers with a non-success status the stored message is
    "Gemini API error: " followed by the body text of the provider, and
    when it answers with a success status and a JSON body without a
    string in its answer field the stored message is
    "Failed to parse Gemini response"; every poll of the returned
    identifier made less than 300 seconds after that write answers the
    error state with that message, in both scripts. *)
Theorem X7_provider_failure_is_polled_as_error (page : string) (req poll : request)
    (env : environment) (w : world) (image mimeType : jsval) (res : provider_response)
    (d1 d2 : Z) :
  is_empty (next_id w) = false → provider_replies w (FetchResponse res) →
  poll_of poll env (next_id w) → 0 <= d1 → 0 <= d2 < 300 →
  (ok res = false →
     (accepted_by_page req env image mimeType →
        fst (serve (PageWorker.fetch page) poll env
               (later d2 (after_background (PageWorker.fetch page) PageWorker.run_job
                            req env d1 w)))
        = json_response (error_json ("Gemini API error: " +:+ res_text res)))
     ∧ (accepted_by_api req env image →
          fst (serve ApiWorker.fetch poll env
                 (later d2 (after_background ApiWorker.fetch ApiWorker.run_job req env d1 w)))
          = json_response (error_json ("Gemini API error: " +:+ res_text res))))
  ∧ (∀ j, ok res = true → res_json res = Some j →
       (∀ s, answer_field j ≠ Returned (Some (JStr s))) →
       (accepted_by_page req env image mimeType →
          fst (serve (PageWorker.fetch page) poll env
                 (later d2 (after_background (PageWorker.fetch page) PageWorker.run_job
                              req env d1 w)))
          = json_response (error_json "Failed to parse Gemini response"))
       ∧ (accepted_by_api req env image →
            fst (serve ApiWorker.fetch poll env
                   (later d2 (after_background ApiWorker.fetch ApiWorker.run_job req env d1 w)))
            = json_response (error_json "Failed to parse Gemini response"))).
Proof.
  intros Hne Hr Hpoll Hd1 Hd2.
  assert (Z.ltb d2 300 = true) as Hlt by (apply Z.ltb_lt; lia).
  split.
  - intros Hok.
    assert (client_outcome (FetchResponse res)
            = Returned (GeminiResult (Some ("Gemini API error: " +:+ res_text res)) None))
      as Hres by (simpl; by rewrite Hok).
    split; intros Ha.
    + rewrite (page_poll_after_background page req poll env w image mimeType _ _ d1 d2
                 Ha Hne Hr Hres Hpoll), Hlt. reflexivity.
    + rewrite (api_poll_after_background req poll env w image _ _ d1 d2
                 Ha Hne Hr Hres Hpoll), Hlt. reflexivity.
  - intros j Hok Hj Hno.
    assert (client_outcome (FetchResponse res)
            = Returned (GeminiResult (Some "Failed to parse Gemini response") None)) as Hres.
    { simpl. rewrite Hok, Hj. by destruct (extract_solution_no_text j Hno) as [e ->]. }
    split; intros Ha.
    + rewrite (page_poll_after_background page req poll env w image mimeType _ _ d1 d2
                 Ha Hne Hr Hres Hpoll), Hlt. reflexivity.
    + rewrite (api_poll_after_background req poll env w image _ _ d1 d2
                 Ha Hne Hr Hres Hpoll), Hlt. reflexivity.
Qed.

Lemma X7_witness :
  fst (serve (PageWorker.fetch demo_page) (demo_poll "task-0" "query-secret") demo_env
         (later 10 (after_background (PageWorker.fetch demo_page) PageWorker.run_job
                      (demo_submit demo_body) demo_env 5
                      (demo_world (FetchResponse (ProviderResponse 500 "quota exceeded" None))))))
  = json_response (error_json ("Gemini API error: " +:+ "quota exceeded"))
  ∧ fst (serve ApiWorker.fetch (demo_poll "task-0" "query-secret") demo_env
           (later 10 (after_background ApiWorker.fetch ApiWorker.run_job
                        (demo_submit demo_body) demo_env 5
                        (demo_world (FetchResponse
                                       (ProviderResponse 500 "quota exceeded" None))))))
    = json_response (error_json ("Gemini API error: " +:+ "quota exceeded")).
Proof.
  assert (0 <= 5) as Hd1 by lia.
  assert (0 <= 10 < 300) as Hd2 by lia.
  pose proof (proj1 (X7_provider_failure_is_polled_as_error demo_page (demo_submit demo_body)
                       (demo_poll "task-0" "query-secret") demo_env
                       (demo_world (FetchResponse (ProviderResponse 500 "quota exceeded" None)))
                       (Some (JStr "iVBORw0KGgo=")) (Some (JStr "image/png"))
                       (ProviderResponse 500 "quota exceeded" None) 5 10
                       (demo_first_id _) (demo_provider _) (demo_poll_of _) Hd1 Hd2)
                eq_refl) as H.
  exact (conj (proj1 H demo_accepted_by_page) (proj2 H demo_accepted_by_api)).
Defined.

(** X8: an entry disappears 300 seconds after its last write.  After an
    accepted submission, a poll of the returned identifier made 300
    seconds or more after the submission, the background step not having
    written, answers 404 and no longer pending; and when the background
    step has written its state, a poll made 300 seconds or more after
    that write answers 404, in both scripts. *)
Theorem X8_entry_expires_300_seconds_after_last_write (page : string) (req poll : request)
    (env : environment) (w : world) (image mimeType : jsval) (d : Z) :
  is_empty (next_id w) = false → poll_of poll env (next_id w) → 300 <= d →
  (accepted_by_page req env image mimeType →
     fst (serve (PageWorker.fetch page) poll env
            (later d (snd (serve (PageWorker.fetch page) req env w))))
     = text_response "Task not found or expired" 404
     ∧ ∀ reply result d1,
         provider_replies w reply → client_outcome reply = Returned result →
         fst (serve (PageWorker.fetch page) poll env
                (later d (after_background (PageWorker.fetch page) PageWorker.run_job
                            req env d1 w)))
         = text_response "Task not found or expired" 404)
  ∧ (accepted_by_api req env image →
       fst (serve ApiWorker.fetch poll env (later d (snd (serve ApiWorker.fetch req env w))))
       = text_response "Task not found or expired" 404
       ∧ ∀ reply result d1,
           provider_replies w reply → client_outcome reply = Returned result →
           fst (serve ApiWorker.fetch poll env
                  (later d (after_background ApiWorker.fetch ApiWorker.run_job req env d1 w)))
           = text_response "Task not found or expired" 404).
Proof.
  intros Hne Hpoll Hd.
  assert (Z.ltb d 300 = false) as Hge by (apply Z.ltb_ge; lia).
  split; intros Ha.
  - split.
    + destruct Ha as (Hc & Hp & Hs & Hdecl).
      rewrite (page_serve_poll page poll env _ (next_id w) Hc Hpoll Hne).
      rewrite (page_serve_created page req env w image mimeType Hc Hp Hs Hdecl).
      unfold later, page_lookup_response. simpl.
      by rewrite (store_get_expired (next_id w) pending_json (clock w) d (kv_data w) Hd).
    + intros reply result d1 Hr Hres.
      by rewrite (page_poll_after_background page req poll env w image mimeType _ _ d1 d
                    Ha Hne Hr Hres Hpoll), Hge.
  - split.
    + destruct Ha as (Hc & Hp & Hs).
      rewrite (api_serve_poll poll env _ (next_id w) Hc Hpoll Hne).
      rewrite (api_serve_created req env w image Hc Hp Hs).
      unfold later, api_lookup_response. simpl.
      by rewrite (store_get_expired (next_id w) pending_json (clock w) d (kv_data w) Hd).
    + intros reply result d1 Hr Hres.
      by rewrite (api_poll_after_background req poll env w image _ _ d1 d
                    Ha Hne Hr Hres Hpoll), Hge.
Qed.

Lemma X8_witness :
  fst (serve (PageWorker.fetch demo_page) (demo_poll "task-0" "query-secret") demo_env
         (later 300 (snd (serve (PageWorker.fetch demo_page) (demo_submit demo_body) demo_env
                            (demo_world html_reply)))))
  = text_response "Task not found or expired" 404
  ∧ fst (serve ApiWorker.fetch (demo_poll "task-0" "query-secret") demo_env
           (later 300 (snd (serve ApiWorker.fetch (demo_submit demo_body) demo_env
                              (demo_world html_reply)))))
    = text_response "Task not found or expired" 404.
Proof.
  assert (300 <= 300) as Hd by lia.
  pose proof (X8_entry_expires_300_seconds_after_last_write demo_page (demo_submit demo_body)
                (demo_poll "task-0" "query-secret") demo_env (demo_world html_reply)
                (Some (JStr "iVBORw0KGgo=")) (Some (JStr "image/png")) 300
                (demo_first_id _) (demo_poll_of _) Hd) as H.
  exact (conj (proj1 (proj1 H demo_accepted_by_page))
              (proj1 (proj2 H demo_accepted_by_api))).
Defined.

(** ** Writes stay under the identifier of their task *)

Lemma created_other (j : job) (w : world) (other : string) :
  other ≠ job_taskId j → kv_data (created j w) !! other = kv_data w !! other.
Proof. intros H. simpl. by rewrite lookup_insert_ne. Qed.

Lemma terminated_other (id final : string) (w : world) (other : string) :
  other ≠ id → kv_data (terminated id final w) !! other = kv_data w !! other.
Proof. intros H. simpl. by rewrite lookup_insert_ne. Qed.

Lemma submit_class_other (handle : request -> configuration -> M response)
    (req : request) (config : configuration) (w : world) (other : string) :
  submit_outcome_class handle req config w → other ≠ next_id w →
  kv_data (snd (handle req config w)) !! other = kv_data w !! other.
Proof.
  intros [(r & -> & _) | [(j & -> & Hid & _) | [[-> _] | [-> _]]]] Hne; simpl; try done.
  rewrite lookup_insert_ne; [done|]. by rewrite Hid.
Qed.

Lemma job_effect_other (j : job) (w : world) (o : outcome unit) (w' : world) (other : string) :
  job_effect j w o w' → other ≠ job_taskId j → kv_data w' !! other = kv_data w !! other.
Proof.
  intros [e | final] Hne; [done|]. by apply terminated_other.
Qed.

(** X9: a submission and a background step touch the store under one
    key only.  Whatever the request, a submit handler leaves the entry
    of every identifier other than the one it draws as it was, and
    whatever the task, the background step leaves the entry of every
    identifier other than that of its task as it was (value and expiry),
    in both scripts: tasks do not disturb one another. *)
Theorem X9_writes_touch_only_their_own_entry (req : request) (config : configuration)
    (j : job) (w : world) (other : string) :
  (other ≠ next_id w →
     kv_data (snd (PageWorker.handleSubmit req config w)) !! other = kv_data w !! other
     ∧ kv_data (snd (ApiWorker.handleSubmit req config w)) !! other = kv_data w !! other)
  ∧ (other ≠ job_taskId j →
       kv_data (snd (PageWorker.run_job j w)) !! other = kv_data w !! other
       ∧ kv_data (snd (ApiWorker.run_job j w)) !! other = kv_data w !! other).
Proof.
  split; intros Hne; split.
  - by apply submit_class_other; [apply page_submit_class|].
  - by apply submit_class_other; [apply api_submit_class|].
  - by eapply job_effect_other; [apply page_run_job_effect|].
  - by eapply job_effect_other; [apply api_run_job_effect|].
Qed.

Lemma X9_witness :
  kv_data (snd (PageWorker.run_job
                  (Job "task-1" (Some (JStr "iVBORw0KGgo=")) (Some (Some (JStr "image/png")))
                       (read_config demo_env))
                  (submitted (PageWorker.fetch demo_page) (answer_reply "7")))) !! "task-0"
  = kv_data (submitted (PageWorker.fetch demo_page) (answer_reply "7")) !! "task-0"
  ∧ kv_data (snd (ApiWorker.run_job
                    (Job "task-1" (Some (JStr "iVBORw0KGgo=")) (Some (Some (JStr "image/png")))
                         (read_config demo_env))
                    (submitted (PageWorker.fetch demo_page) (answer_reply "7")))) !! "task-0"
    = kv_data (submitted (PageWorker.fetch demo_page) (answer_reply "7")) !! "task-0".
Proof.
  apply (proj2 (X9_writes_touch_only_their_own_entry (demo_submit demo_body)
                  (read_config demo_env)
                  (Job "task-1" (Some (JStr "iVBORw0KGgo=")) (Some (Some (JStr "image/png")))
                       (read_config demo_env))
                  (submitted (PageWorker.fetch demo_page) (answer_reply "7")) "task-0")).
  discriminate.
Defined.

(** ** Invariants of every execution *)

Lemma page_fetch_request_effect (page : string) (req : request) (env : environment)
    (w : world) :
  request_effect w (snd (PageWorker.fetch page req env w)).
Proof.
  unfold PageWorker.fetch.
  destruct (first_falsy _); [by left|].
  destruct (String.eqb _ "/"); [by left|].
  destruct (String.eqb _ "/submit").
  { destruct (page_submit_class req (read_config env) w)
      as [(r & -> & _) | [(j & -> & Hid & _) | [[-> _] | [-> _]]]]; simpl.
    - by left.
    - right; right; right. by exists j.
    - by left.
    - right; right; left. done. }
  destruct (String.eqb _ "/result"); [|by left].
  destruct (page_result_frame req (read_config env) w) as [-> | [id ->]].
  - by left.
  - right; left. by exists id.
Qed.

Lemma api_fetch_request_effect (req : request) (env : environment) (w : world) :
  request_effect w (snd (ApiWorker.fetch req env w)).
Proof.
  unfold ApiWorker.fetch.
  destruct (first_falsy _); [by left|].
  destruct (String.eqb _ "/submit").
  { destruct (api_submit_class req (read_config env) w)
      as [(r & -> & _) | [(j & -> & Hid & _) | [[-> _] | [-> _]]]]; simpl.
    - by left.
    - right; right; right. by exists j.
    - by left.
    - right; right; left. done. }
  destruct (String.eqb _ "/result"); [|by left].
  destruct (api_result_frame req (read_config env) w) as [-> | [id ->]].
  - by left.
  - right; left. by exists id.
Qed.

Lemma error_text_state (message : string) :
  is_empty message = false → task_state_text (error_json message).
Proof. intros H. right; left. by exists message. Qed.

Lemma page_job_background_effect (j : job) (w : world) :
  background_effect j w (snd (PageWorker.run_job j w)).
Proof.
  unfold PageWorker.run_job, PageWorker.solveAndStore, PageWorker.callGemini, global_fetch.
  run_m.
  destruct (gemini w _ _) as [|res]; [by left|].
  destruct (ok res); simpl.
  - unfold response_json. destruct (res_json res) as [body|]; run_m; [|by left].
    unfold kv_put.
    destruct (extract_solution body) as [s|e]; simpl;
      (destruct (kv (job_config j)) as [[]|]; [right|by left]).
    + exists (completed_json s). split; [|reflexivity]. right; right. by exists s.
    + exists (error_json "Failed to parse Gemini response").
      split; [|reflexivity]. by apply error_text_state.
  - unfold kv_put. destruct (kv (job_config j)) as [[]|]; [right|by left].
    exists (error_json ("Gemini API error: " +:+ res_text res)).
    split; [|reflexivity]. by apply error_text_state.
Qed.

Lemma api_job_background_effect (j : job) (w : world) :
  background_effect j w (snd (ApiWorker.run_job j w)).
Proof.
  unfold ApiWorker.run_job, ApiWorker.solveAndStore, ApiWorker.callGemini, global_fetch.
  run_m.
  destruct (gemini w _ _) as [|res]; [by left|].
  destruct (ok res); simpl.
  - unfold response_json. destruct (res_json res) as [body|]; run_m; [|by left].
    unfold kv_put.
    destruct (extract_solution body) as [s|e]; simpl;
      (destruct (kv (job_config j)) as [[]|]; [right|by left]).
    + exists (completed_json s). split; [|reflexivity]. right; right. by exists s.
    + exists (error_json "Failed to parse Gemini response").
      split; [|reflexivity]. by apply error_text_state.
  - unfold kv_put. destruct (kv (job_config j)) as [[]|]; [right|by left].
    exists (error_json ("Gemini API error: " +:+ res_text res)).
    split; [|reflexivity]. by apply error_text_state.
Qed.

Lemma serve_snd (entry : request -> environment -> M response) (req : request)
    (env : environment) (w : world) :
  ∃ r, snd (serve entry req env w) = log (EvRespond r) (snd (entry req env w)).
Proof.
  unfold serve. destruct (entry req env w) as [[r|e] w']; simpl; eauto.
Qed.

Lemma settle_cases (runner : job -> M unit) (n : nat) (w : world) :
  settle runner n w = w
  ∨ ∃ j fulfilled,
      background w !! n = Some j
      ∧ settle runner n w
        = log (EvSettled (job_taskId j) fulfilled)
              (snd (runner j (set_background (remove_nth n) w))).
Proof.
  unfold settle. destruct (background w !! n) as [j|]; [|by left].
  right. exists j.
  destruct (runner j (set_background (remove_nth n) w)) as [[u|e] w']; simpl; eauto.
Qed.

Lemma store_well_formed_log (e : event) (w : world) :
  store_well_formed w → store_well_formed (log e w).
Proof. intros H. exact H. Qed.

Lemma store_well_formed_insert (id value : string) (w w' : world) :
  store_well_formed w → task_state_text value →
  kv_data w' = <[id := KvEntry value (clock w + 300)]> (kv_data w) → clock w' = clock w →
  store_well_formed w'.
Proof.
  intros Hw Hv Hkv Hc id' e He. rewrite Hkv in He. rewrite Hc.
  destruct (decide (id = id')) as [<- | Hne].
  - rewrite lookup_insert_eq in He. injection He as <-. simpl. split; [done|lia].
  - rewrite lookup_insert_ne in He by done. by apply (Hw id').
Qed.

Lemma store_well_formed_request (w w' : world) :
  store_well_formed w → request_effect w w' → store_well_formed w'.
Proof.
  intros Hw [-> | [[id ->] | [-> | (j & Hid & ->)]]]; try exact Hw.
  apply (store_well_formed_insert (job_taskId j) pending_json w); try done. by left.
Qed.

Lemma store_well_formed_background (j : job) (w w' : world) :
  store_well_formed w → background_effect j w w' → store_well_formed w'.
Proof.
  intros Hw [-> | (final & Hf & ->)]; [exact Hw|].
  by apply (store_well_formed_insert (job_taskId j) final w).
Qed.

Section Executions.

Variable entry : request -> environment -> M response.
Variable runner : job -> M unit.

Hypothesis entry_request_effect : ∀ req env w, request_effect w (snd (entry req env w)).
Hypothesis runner_background_effect : ∀ j w, background_effect j w (snd (runner j w)).

Lemma step_store_well_formed (env : environment) (w w' : world) :
  step entry runner env w w' → store_well_formed w → store_well_formed w'.
Proof.
  intros Hs Hw. destruct Hs as [req w | n j w Hj | d w Hd | g w].
  - destruct (serve_snd entry req env w) as [r ->].
    apply store_well_formed_log.
    by apply (store_well_formed_request w), entry_request_effect.
  - destruct (settle_cases runner n w) as [-> | (j' & fulfilled & _ & ->)]; [done|].
    apply store_well_formed_log.
    by apply (store_well_formed_background j' (set_background (remove_nth n) w)),
             runner_background_effect.
  - intros id e He. destruct (Hw id e He) as [Hv Hx]. split; [done|]. simpl. lia.
  - exact Hw.
Qed.

Lemma steps_store_well_formed (env : environment) (w0 w : world) :
  steps entry runner env w0 w → store_well_formed w0 → store_well_formed w.
Proof.
  induction 1 as [w | w1 w2 w3 _ IH Hs]; [done|].
  intros Hw. eapply step_store_well_formed; eauto.
Qed.

End Executions.

Lemma empty_store_well_formed (w : world) : kv_data w = ∅ → store_well_formed w.
Proof. intros H id e He. rewrite H in He. by rewrite lookup_empty in He. Qed.

Lemma task_state_text_not_empty (v : string) : task_state_text v → is_empty v = false.
Proof. by intros [-> | [(m & _ & ->) | (s & ->)]]. Qed.

Lemma lookup_response_state (id : string) (w : world) :
  store_well_formed w →
  page_lookup_response id (clock w) (kv_data w) = api_lookup_response id (clock w) (kv_data w)
  ∧ (api_lookup_response id (clock w) (kv_data w)
     = text_response "Task not found or expired" 404
     ∨ ∃ v, task_state_text v
            ∧ api_lookup_response id (clock w) (kv_data w) = json_response v).
Proof.
  intros Hw. unfold page_lookup_response, api_lookup_response, store_get.
  destruct (kv_data w !! id) as [e|] eqn:He; [|split; [done|by left]].
  destruct (Hw id e He) as [Hv _].
  destruct (Z.ltb (clock w) (entry_expiry e)); [|split; [done|by left]].
  rewrite (task_state_text_not_empty _ Hv). split; [done|]. right. by exists (entry_value e).
Qed.

(** X10: a poll never shows anything but a task state or "not found".
    In every execution of either script that starts with an empty store,
    every entry of the store holds the pending text, an error text with
    a message that is not empty, or a completed text, and expires at
    most 300 seconds from the current time; so a poll with the right
    credential answers 404 or 200 with one of these three texts, and the
    empty-value test of the script with the page never decides. *)
Theorem X10_polls_answer_a_task_state_or_404 (page : string) (env : environment)
    (w0 w : world) (poll : request) (id : string) :
  kv_data w0 = ∅ → configured env = true → poll_of poll env id → is_empty id = false →
  (steps (PageWorker.fetch page) PageWorker.run_job env w0 w →
     store_well_formed w
     ∧ page_lookup_response id (clock w) (kv_data w)
       = api_lookup_response id (clock w) (kv_data w)
     ∧ (fst (serve (PageWorker.fetch page) poll env w)
        = text_response "Task not found or expired" 404
        ∨ ∃ v, task_state_text v
               ∧ fst (serve (PageWorker.fetch page) poll env w) = json_response v))
  ∧ (steps ApiWorker.fetch ApiWorker.run_job env w0 w →
       store_well_formed w
       ∧ (fst (serve ApiWorker.fetch poll env w)
          = text_response "Task not found or expired" 404
          ∨ ∃ v, task_state_text v
                 ∧ fst (serve ApiWorker.fetch poll env w) = json_response v)).
Proof.
  intros H0 Hc Hpoll Hne. split; intros Hsteps.
  - assert (store_well_formed w) as Hw.
    { apply (steps_store_well_formed (PageWorker.fetch page) PageWorker.run_job
               (page_fetch_request_effect page) page_job_background_effect env w0 w Hsteps).
      by apply empty_store_well_formed. }
    destruct (lookup_response_state id w Hw) as [Heq Hcases].
    split; [exact Hw|]. split; [exact Heq|].
    rewrite (page_serve_poll page poll env w id Hc Hpoll Hne), Heq. exact Hcases.
  - assert (store_well_formed w) as Hw.
    { apply (steps_store_well_formed ApiWorker.fetch ApiWorker.run_job
               api_fetch_request_effect api_job_background_effect env w0 w Hsteps).
      by apply empty_store_well_formed. }
    destruct (lookup_response_state id w Hw) as [Heq Hcases].
    split; [exact Hw|].
    rewrite (api_serve_poll poll env w id Hc Hpoll Hne). exact Hcases.
Qed.

Lemma demo_poll_first (key : string) :
  key = "query-secret" → poll_of (demo_poll "task-0" key) demo_env "task-0".
Proof.
  intros ->. split; [reflexivity|]. split; [reflexivity|]. split.
  - exists "query-secret". split; reflexivity.
  - reflexivity.
Defined.

Lemma demo_page_execution (reply : fetch_outcome) :
  steps (PageWorker.fetch demo_page) PageWorker.run_job demo_env (demo_world reply)
    (settled (PageWorker.fetch demo_page) PageWorker.run_job reply).
Proof.
  unfold settled, submitted.
  eapply steps_snoc.
  - eapply steps_snoc; [apply steps_refl|apply step_serve].
  - eapply (step_settle _ _ _ 0
              (Job "task-0" (Some (JStr "iVBORw0KGgo=")) (Some (Some (JStr "image/png")))
                   (read_config demo_env))).
    vm_compute. reflexivity.
Defined.

Lemma demo_api_execution (reply : fetch_outcome) :
  steps ApiWorker.fetch ApiWorker.run_job demo_env (demo_world reply)
    (settled ApiWorker.fetch ApiWorker.run_job reply).
Proof.
  unfold settled, submitted.
  eapply steps_snoc.
  - eapply steps_snoc; [apply steps_refl|apply step_serve].
  - eapply (step_settle _ _ _ 0
              (Job "task-0" (Some (JStr "iVBORw0KGgo=")) None (read_config demo_env))).
    vm_compute. reflexivity.
Defined.

Lemma X10_witness :
  (store_well_formed (settled (PageWorker.fetch demo_page) PageWorker.run_job
                        (answer_reply " 42 "))
   ∧ page_lookup_response "task-0"
       (clock (settled (PageWorker.fetch demo_page) PageWorker.run_job (answer_reply " 42 ")))
       (kv_data (settled (PageWorker.fetch demo_page) PageWorker.run_job (answer_reply " 42 ")))
     = api_lookup_response "task-0"
         (clock (settled (PageWorker.fetch demo_page) PageWorker.run_job (answer_reply " 42 ")))
         (kv_data (settled (PageWorker.fetch demo_page) PageWorker.run_job
                     (answer_reply " 42 ")))
   ∧ (fst (serve (PageWorker.fetch demo_page) (demo_poll "task-0" "query-secret") demo_env
             (settled (PageWorker.fetch demo_page) PageWorker.run_job (answer_reply " 42 ")))
      = text_response "Task not found or expired" 404
      ∨ ∃ v, task_state_text v
             ∧ fst (serve (PageWorker.fetch demo_page) (demo_poll "task-0" "query-secret")
                      demo_env
                      (settled (PageWorker.fetch demo_page) PageWorker.run_job
                         (answer_reply " 42 ")))
               = json_response v))
  ∧ (store_well_formed (settled ApiWorker.fetch ApiWorker.run_job (answer_reply " 42 "))
     ∧ (fst (serve ApiWorker.fetch (demo_poll "task-0" "query-secret") demo_env
               (settled ApiWorker.fetch ApiWorker.run_job (answer_reply " 42 ")))
        = text_response "Task not found or expired" 404
        ∨ ∃ v, task_state_text v
               ∧ fst (serve ApiWorker.fetch (demo_poll "task-0" "query-secret") demo_env
                        (settled ApiWorker.fetch ApiWorker.run_job (answer_reply " 42 ")))
                 = json_response v)).
Proof.
  split.
  - exact (proj1 (X10_polls_answer_a_task_state_or_404 demo_page demo_env
                    (demo_world (answer_reply " 42 "))
                    (settled (PageWorker.fetch demo_page) PageWorker.run_job
                       (answer_reply " 42 "))
                    (demo_poll "task-0" "query-secret") "task-0"
                    eq_refl eq_refl (demo_poll_first _ eq_refl) eq_refl)
             (demo_page_execution _)).
  - exact (proj2 (X10_polls_answer_a_task_state_or_404 demo_page demo_env
                    (demo_world (answer_reply " 42 "))
                    (settled ApiWorker.fetch ApiWorker.run_job (answer_reply " 42 "))
                    (demo_poll "task-0" "query-secret") "task-0"
                    eq_refl eq_refl (demo_poll_first _ eq_refl) eq_refl)
             (demo_api_execution _)).
Defined.

(** ** Create, then terminate, and nothing more *)

Lemma writes_of_app (id : string) (tr evs : list event) :
  writes_of id (tr ++ evs) = (writes_of id tr ++ writes_of id evs)%list.
Proof. unfold writes_of. apply flat_map_app. Qed.

Lemma writes_of_put (id key value : string) (ttl : Z) :
  writes_of id [EvKvPut key value ttl] = if String.eqb key id then [value] else [].
Proof. unfold writes_of. simpl. by rewrite app_nil_r. Qed.

Lemma writes_of_log (id : string) (e : event) (w : world) :
  is_store_write e = false → writes_of id (trace (log e w)) = writes_of id (trace w).
Proof.
  intros H. simpl. rewrite writes_of_app.
  destruct e; try discriminate H; unfold writes_of; simpl; by rewrite app_nil_r.
Qed.

Lemma writes_of_created (id : string) (j : job) (w : world) :
  writes_of id (trace (created j w))
  = (writes_of id (trace w) ++ if String.eqb (job_taskId j) id then [pending_json] else [])%list.
Proof.
  simpl. rewrite writes_of_app. f_equal. unfold writes_of. simpl.
  by rewrite app_nil_r.
Qed.

Lemma writes_of_terminated (id key final : string) (w : world) :
  writes_of id (trace (terminated key final w))
  = (writes_of id (trace w) ++ if String.eqb key id then [final] else [])%list.
Proof. simpl. by rewrite writes_of_app, writes_of_put. Qed.

Lemma drawn_mono (w w' : world) (id : string) :
  entropy w' = entropy w → (uuids_drawn w ≤ uuids_drawn w')%nat → drawn w id → drawn w' id.
Proof.
  intros He Hn (k & Hk & Hid). exists k. split; [lia|]. by rewrite He.
Qed.

Lemma next_id_not_drawn (w : world) :
  distinct_identifiers (entropy w) → ¬ drawn w (next_id w).
Proof.
  intros Hd (k & Hk & Hid). unfold next_id in Hid. apply Hd in Hid. lia.
Qed.

(** A change of the world that writes nothing and keeps the promises. *)
Lemma lifecycle_quiet (w w' : world) :
  lifecycle_inv w → entropy w' = entropy w → (uuids_drawn w ≤ uuids_drawn w')%nat →
  background w' = background w → (∀ id, writes_of id (trace w') = writes_of id (trace w)) →
  lifecycle_inv w'.
Proof.
  intros (Hd & Hi & Hii & Hiii & Hiv) He Hn Hb Hw.
  split; [by rewrite He|]. split; [|split; [|split]].
  - intros id Hne. rewrite Hw in Hne. eapply drawn_mono; eauto.
  - intros j Hj. rewrite Hb in Hj. destruct (Hii j Hj) as [H1 H2].
    split; [eapply drawn_mono; eauto|by rewrite Hw].
  - by rewrite Hb.
  - intros id. unfold create_then_terminate. rewrite Hw. apply Hiv.
Qed.

Lemma lifecycle_log (e : event) (w : world) :
  is_store_write e = false → lifecycle_inv w → lifecycle_inv (log e w).
Proof.
  intros He Hw. apply (lifecycle_quiet w); try done.
  intros id. by apply writes_of_log.
Qed.

Lemma lifecycle_created (j : job) (w : world) :
  lifecycle_inv w → job_taskId j = next_id w → lifecycle_inv (created j w).
Proof.
  intros (Hd & Hi & Hii & Hiii & Hiv) Hid.
  pose proof (next_id_not_drawn w Hd) as Hfresh.
  assert (writes_of (job_taskId j) (trace w) = []) as Hnone.
  { destruct (writes_of (job_taskId j) (trace w)) eqn:E; [done|].
    exfalso. apply Hfresh. rewrite <- Hid. apply Hi. by rewrite E. }
  assert (∀ j', j' ∈ background w → job_taskId j' ≠ job_taskId j) as Hother.
  { intros j' Hj' Heq. apply Hfresh. rewrite <- Hid, <- Heq. by apply Hii. }
  assert (∀ id, drawn w id → drawn (created j w) id) as Hmono.
  { intros id. apply drawn_mono; simpl; [done|lia]. }
  assert (drawn (created j w) (job_taskId j)) as Hnew.
  { exists (uuids_drawn w). split; [simpl; lia|]. by rewrite Hid. }
  split; [exact Hd|]. split; [|split; [|split]].
  - intros id. rewrite writes_of_created.
    destruct (String.eqb (job_taskId j) id) eqn:E.
    + apply String.eqb_eq in E. subst id. intros _. exact Hnew.
    + rewrite app_nil_r. intros Hne. by apply Hmono, Hi.
  - intros j' Hj'. simpl in Hj'. rewrite writes_of_created.
    apply elem_of_app in Hj' as [Hj' | Hj'].
    + destruct (Hii j' Hj') as [H1 H2]. split; [by apply Hmono|].
      rewrite (eqb_false_of_neq (job_taskId j) (job_taskId j')).
      * by rewrite app_nil_r.
      * intros Heq. by apply (Hother j' Hj').
    + apply list_elem_of_singleton in Hj'. subst j'.
      split; [exact Hnew|]. by rewrite Hnone, String.eqb_refl.
  - simpl. rewrite fmap_app. apply NoDup_app. split; [exact Hiii|]. split.
    + intros id Hin Hin'. apply list_elem_of_singleton in Hin'. subst id.
      apply list_elem_of_fmap in Hin as (j' & Heq & Hj'). by apply (Hother j' Hj').
    + apply NoDup_singleton.
  - intros id. unfold create_then_terminate. rewrite writes_of_created.
    destruct (String.eqb (job_taskId j) id) eqn:E.
    + apply String.eqb_eq in E. subst id. rewrite Hnone. right; left. done.
    + rewrite app_nil_r. apply Hiv.
Qed.

Lemma lifecycle_terminated (id final : string) (w : world) :
  lifecycle_inv w → writes_of id (trace w) = [pending_json] →
  (∀ j, j ∈ background w → job_taskId j ≠ id) →
  lifecycle_inv (terminated id final w).
Proof.
  intros (Hd & Hi & Hii & Hiii & Hiv) Hone Hother.
  split; [exact Hd|]. split; [|split; [|split]].
  - intros id'. rewrite writes_of_terminated.
    destruct (String.eqb id id') eqn:E.
    + apply String.eqb_eq in E. subst id'. intros _.
      destruct (Hi id) as (k & Hk & Hid); [by rewrite Hone|]. by exists k.
    + rewrite app_nil_r. intros Hne.
      destruct (Hi id' Hne) as (k & Hk & Hid). by exists k.
  - intros j Hj. simpl in Hj. destruct (Hii j Hj) as [(k & Hk & Hid) H2].
    split; [by exists k|]. rewrite writes_of_terminated.
    rewrite (eqb_false_of_neq id (job_taskId j)).
    + by rewrite app_nil_r.
    + intros Heq. by apply (Hother j Hj).
  - exact Hiii.
  - intros id'. unfold create_then_terminate. rewrite writes_of_terminated.
    destruct (String.eqb id id') eqn:E.
    + apply String.eqb_eq in E. subst id'. rewrite Hone. right; right. by exists final.
    + rewrite app_nil_r. apply Hiv.
Qed.

Lemma remove_nth_fmap_NoDup {A B : Type} (f : A → B) (n : nat) (l : list A) (x : A) :
  NoDup (f <$> l) → l !! n = Some x →
  NoDup (f <$> remove_nth n l) ∧ ∀ y, y ∈ remove_nth n l → f y ≠ f x.
Proof.
  revert n. induction l as [|a l IH]; intros n Hnd Hx; [done|].
  rewrite fmap_cons in Hnd. apply NoDup_cons in Hnd as [Ha Hnd].
  destruct n as [|n]; simpl in *.
  - injection Hx as <-. split; [done|].
    intros y Hy Heq. apply Ha. rewrite <- Heq. apply list_elem_of_fmap. by exists y.
  - destruct (IH n Hnd Hx) as [IH1 IH2]. split.
    + rewrite ?fmap_cons. apply NoDup_cons. split; [|done].
      intros Hin. apply Ha. apply list_elem_of_fmap in Hin as (y & Heq & Hy).
      apply list_elem_of_fmap. exists y. split; [done|]. by eapply elem_of_remove_nth.
    + intros y [-> | Hy]%elem_of_cons; [|by apply IH2].
      intros Heq. apply Ha. rewrite Heq. apply list_elem_of_fmap. exists x.
      split; [done|]. by eapply list_elem_of_lookup_2.
Qed.

Lemma lifecycle_forget (n : nat) (j : job) (w : world) :
  lifecycle_inv w → background w !! n = Some j →
  lifecycle_inv (set_background (remove_nth n) w)
  ∧ writes_of (job_taskId j) (trace w) = [pending_json]
  ∧ ∀ j', j' ∈ remove_nth n (background w) → job_taskId j' ≠ job_taskId j.
Proof.
  intros (Hd & Hi & Hii & Hiii & Hiv) Hj.
  destruct (remove_nth_fmap_NoDup job_taskId n (background w) j Hiii Hj) as [Hnd Hother].
  split; [|split; [|exact Hother]].
  - split; [exact Hd|]. split; [exact Hi|]. split; [|split; [exact Hnd|exact Hiv]].
    intros j' Hj'. simpl in Hj'. apply Hii. by eapply elem_of_remove_nth.
  - apply Hii. by eapply list_elem_of_lookup_2.
Qed.

Section Lifecycle.

Variable entry : request -> environment -> M response.
Variable runner : job -> M unit.

Hypothesis entry_request_effect : ∀ req env w, request_effect w (snd (entry req env w)).
Hypothesis runner_background_effect : ∀ j w, background_effect j w (snd (runner j w)).

Lemma step_lifecycle (env : environment) (w w' : world) :
  step entry runner env w w' → lifecycle_inv w → lifecycle_inv w'.
Proof.
  intros Hs Hw. destruct Hs as [req w | n j w Hj | d w Hd | g w].
  - destruct (serve_snd entry req env w) as [r ->].
    apply lifecycle_log; [done|].
    destruct (entry_request_effect req env w) as [-> | [[id ->] | [-> | (j & Hid & ->)]]].
    + exact Hw.
    + by apply lifecycle_log.
    + apply (lifecycle_quiet w); try done; simpl; [lia|].
      intros id. by rewrite writes_of_app, app_nil_r.
    + by apply lifecycle_created.
  - destruct (settle_cases runner n w) as [-> | (j' & fulfilled & Hj' & ->)]; [done|].
    apply lifecycle_log; [done|].
    destruct (lifecycle_forget n j' w Hw Hj') as (Hw0 & Hone & Hother).
    destruct (runner_background_effect j' (set_background (remove_nth n) w))
      as [-> | (final & _ & ->)]; [exact Hw0|].
    by apply lifecycle_terminated.
  - by apply (lifecycle_quiet w).
  - by apply (lifecycle_quiet w).
Qed.

Lemma steps_lifecycle (env : environment) (w0 w : world) :
  steps entry runner env w0 w → lifecycle_inv w0 → lifecycle_inv w.
Proof.
  induction 1 as [w | w1 w2 w3 _ IH Hs]; [done|].
  intros Hw. eapply step_lifecycle; eauto.
Qed.

End Lifecycle.

Lemma fresh_lifecycle (w0 : world) :
  trace w0 = [] → background w0 = [] → distinct_identifiers (entropy w0) → lifecycle_inv w0.
Proof.
  intros Ht Hb Hd. split; [exact Hd|]. split; [|split; [|split]].
  - intros id. by rewrite Ht.
  - intros j. rewrite Hb. by intros ?%elem_of_nil.
  - rewrite Hb. apply NoDup_nil_2.
  - intros id. left. by rewrite Ht.
Qed.

(** X11: create, then terminate, and nothing more.  In every execution
    of either script that starts with an empty trace and no detached
    work, and in which no identifier is drawn twice, the values written
    to the store under any one identifier are none, or the pending text
    alone, or the pending text followed by exactly one more text: a task
    is written at most twice, the pending state always first, and it is
    never set back to pending after its terminal write. *)
Theorem X11_each_task_is_written_at_most_twice (page : string) (env : environment)
    (w0 w : world) (id : string) :
  trace w0 = [] → background w0 = [] → distinct_identifiers (entropy w0) →
  (steps (PageWorker.fetch page) PageWorker.run_job env w0 w →
     create_then_terminate (trace w) id)
  ∧ (steps ApiWorker.fetch ApiWorker.run_job env w0 w →
       create_then_terminate (trace w) id).
Proof.
  intros Ht Hb Hd. pose proof (fresh_lifecycle w0 Ht Hb Hd) as H0.
  split; intros Hsteps.
  - apply (steps_lifecycle (PageWorker.fetch page) PageWorker.run_job
             (page_fetch_request_effect page) page_job_background_effect env w0 w Hsteps H0).
  - apply (steps_lifecycle ApiWorker.fetch ApiWorker.run_job
             api_fetch_request_effect api_job_background_effect env w0 w Hsteps H0).
Qed.

Lemma demo_distinct (reply : fetch_outcome) : distinct_identifiers (entropy (demo_world reply)).
Proof.
  intros a b H. simpl in H.
  apply (inj (String.app "task-")) in H. by apply (inj pretty) in H.
Qed.

Lemma X11_witness :
  create_then_terminate
    (trace (settled (PageWorker.fetch demo_page) PageWorker.run_job (answer_reply " 42 ")))
    "task-0"
  ∧ create_then_terminate
      (trace (settled ApiWorker.fetch ApiWorker.run_job (answer_reply " 42 "))) "task-0".
Proof.
  split.
  - exact (proj1 (X11_each_task_is_written_at_most_twice demo_page demo_env
                    (demo_world (answer_reply " 42 "))
                    (settled (PageWorker.fetch demo_page) PageWorker.run_job
                       (answer_reply " 42 "))
                    "task-0" eq_refl eq_refl (demo_distinct _))
             (demo_page_execution _)).
  - exact (proj2 (X11_each_task_is_written_at_most_twice demo_page demo_env
                    (demo_world (answer_reply " 42 "))
                    (settled ApiWorker.fetch ApiWorker.run_job (answer_reply " 42 "))
                    "task-0" eq_refl eq_refl (demo_distinct _))
             (demo_api_execution _)).
Defined.

(** ** What the provider is asked *)



(** ** Shape of the client's result *)

Section Strip.

Variable one : ascii -> bool.
Variable two : ascii -> ascii -> bool.
Variable three : ascii -> ascii -> ascii -> bool.

(** [l] begins with a character to drop. *)
Let space_head (l : list ascii) : bool :=
  match l with
  | [] => false
  | a :: l1 =>
      one a
      || match l1 with
         | [] => false
         | b :: l2 =>
             two a b || match l2 with [] => false | c :: _ => three a b c end
         end
  end.

Lemma strip_stuck (l : list ascii) : space_head l = false → strip one two three l = l.
Proof.
  destruct l as [|a [|b [|c l]]]; simpl; [done|..].
  - rewrite orb_false_r. by intros ->.
  - rewrite orb_false_r. intros [-> ->]%orb_false_elim. done.
  - intros [-> [-> ->]%orb_false_elim]%orb_false_elim. done.
Qed.

Lemma strip_cases (l : list ascii) :
  (strip one two three l = l ∧ space_head l = false)
  ∨ ∃ pre rest, pre ≠ [] ∧ l = (pre ++ rest)%list
                ∧ strip one two three l = strip one two three rest.
Proof.
  destruct l as [|a l1]; [by left|]. simpl.
  destruct (one a) eqn:H1.
  { right. exists [a], l1. done. }
  destruct l1 as [|b l2]; [by left|]. simpl.
  destruct (two a b) eqn:H2.
  { right. exists [a; b], l2. done. }
  destruct l2 as [|c l3]; [by left|]. simpl.
  destruct (three a b c) eqn:H3.
  { right. exists [a; b; c], l3. done. }
  by left.
Qed.

Lemma strip_result (n : nat) (l : list ascii) :
  (List.length l ≤ n)%nat →
  space_head (strip one two three l) = false
  ∧ ∃ pre, l = (pre ++ strip one two three l)%list.
Proof.
  revert l. induction n as [|n IH]; intros l Hn.
  - destruct l; [|simpl in Hn; lia]. split; [done|]. by exists [].
  - destruct (strip_cases l) as [[-> Hh] | (pre & rest & Hpre & -> & ->)].
    + split; [done|]. by exists [].
    + destruct (IH rest) as [Hh [pre' Hrest]].
      { rewrite length_app in Hn. destruct pre; [done|]. simpl in Hn. lia. }
      split; [done|]. exists (pre ++ pre')%list. rewrite <- app_assoc. by rewrite <- Hrest.
Qed.

Lemma space_head_prefix (x y : list ascii) :
  space_head (x ++ y) = false → space_head x = false.
Proof.
  destruct x as [|a [|b [|c x]]]; simpl; [done|..].
  - intros [-> _]%orb_false_elim. done.
  - intros [-> H]%orb_false_elim. destruct y; simpl in H.
    + by rewrite H.
    + apply orb_false_elim in H as [-> _]. done.
  - done.
Qed.

Lemma strip_prefix_stuck (x y : list ascii) :
  strip one two three (x ++ y) = (x ++ y)%list → strip one two three x = x.
Proof.
  intros H. apply strip_stuck, (space_head_prefix x y).
  destruct (strip_result (List.length (x ++ y)) (x ++ y)) as [Hh _]; [done|].
  by rewrite H in Hh.
Qed.

Lemma strip_idempotent (l : list ascii) :
  strip one two three (strip one two three l) = strip one two three l.
Proof.
  apply strip_stuck. by destruct (strip_result (List.length l) l) as [Hh _].
Qed.

Lemma strip_suffix (l : list ascii) : ∃ pre, l = (pre ++ strip one two three l)%list.
Proof. by destruct (strip_result (List.length l) l) as [_ H]. Qed.

End Strip.

Lemma trim_idempotent (s : string) : trim (trim s) = trim s.
Proof.
  unfold trim, trim_end, trim_start.
  rewrite !list_ascii_of_string_of_list_ascii.
  set (front := strip is_space is_space2 is_space3).
  set (back := strip is_space (fun b a => is_space2 a b) (fun c b a => is_space3 a b c)).
  set (x := front (list_ascii_of_string s)).
  destruct (strip_suffix is_space (fun b a => is_space2 a b) (fun c b a => is_space3 a b c)
              (List.rev x)) as [pre Hpre].
  fold back in Hpre.
  assert (x = (List.rev (back (List.rev x)) ++ List.rev pre)%list) as Hx.
  { rewrite <- rev_app_distr, <- Hpre. by rewrite rev_involutive. }
  assert (front (List.rev (back (List.rev x))) = List.rev (back (List.rev x))) as Hstuck.
  { apply (strip_prefix_stuck is_space is_space2 is_space3 _ (List.rev pre)).
    rewrite <- Hx. apply strip_idempotent. }
  rewrite Hstuck, rev_involutive. unfold back. by rewrite strip_idempotent.
Qed.

Lemma client_outcome_shape (reply : fetch_outcome) (result : gemini_result) :
  client_outcome reply = Returned result → well_shaped result.
Proof.
  unfold client_outcome. destruct reply as [|res]; [discriminate|].
  destruct (ok res).
  - destruct (res_json res) as [j|]; [|discriminate].
    rewrite extract_solution_answer_field.
    destruct (answer_field j) as [[[]|]|e]; simpl; intros H; injection H as <-;
      try (left; by exists "Failed to parse Gemini response").
    right. exists (trim s). by rewrite trim_idempotent.
  - intros H. injection H as <-. left.
    by exists ("Gemini API error: " +:+ res_text res).
Qed.

(** X13: the client never touches the world, and when it resolves, in
    either script, its result has exactly one of the two fields: an
    error message that is not empty and no solution, or a solution and
    no error, where the solution has no white space or line terminator
    left at either end (trimming it again changes nothing).  The
    truthiness test of the background step on the error field therefore
    tells the two apart. *)
Theorem X13_client_result_is_well_shaped (k m : option string) (payload : json) (w : world) :
  snd (PageWorker.callGemini k m payload w) = w
  ∧ snd (ApiWorker.callGemini k m payload w) = w
  ∧ (∀ result, fst (PageWorker.callGemini k m payload w) = Returned result
               ∨ fst (ApiWorker.callGemini k m payload w) = Returned result →
               well_shaped result
               ∧ (truthy_str (error result) = true ↔ solution result = None)).
Proof.
  rewrite (page_callGemini_at k m payload w _ eq_refl),
          (api_callGemini_at k m payload w _ eq_refl). simpl.
  split; [done|]. split; [done|].
  intros result H.
  assert (well_shaped result) as Hs.
  { destruct H as [H | H]; by apply (client_outcome_shape _ _ H). }
  split; [exact Hs|].
  destruct Hs as [(msg & Hne & -> & ->) | (s & -> & -> & _)]; simpl.
  - by rewrite Hne.
  - split; discriminate.
Qed.

Lemma X13_witness :
  well_shaped (GeminiResult None (Some "42"))
  ∧ (truthy_str (error (GeminiResult None (Some "42"))) = true
     ↔ solution (GeminiResult None (Some "42")) = None).
Proof.
  apply (proj2 (proj2 (X13_client_result_is_well_shaped (Some "provider-key")
                         (Some "gemini-pro-vision") JNull (demo_world (answer_reply " 42 "))))).
  left. reflexivity.
Defined.

(** ** Fields that are present and falsy *)

(** X14: the submit handlers test the fields for truthiness, not for
    presence.  For an authenticated POST, an image that is present and
    falsy (the empty string, [0], [false] or [null]) is refused with 400
    by both scripts, and so is a falsy media type by the script with the
    page; the world is left as it was, so no identifier is drawn and no
    task is created. *)
Theorem X14_falsy_field_is_refused (req : request) (config : configuration) (w : world)
    (body : json) :
  method req = "POST" → authenticated req config → request_json req = Some body →
  (∀ image, get_prop (Some body) "image" = Returned image → truthy image = false →
     (∃ r, PageWorker.handleSubmit req config w = (Returned r, w) ∧ status r = 400)
     ∧ (∃ r, ApiWorker.handleSubmit req config w = (Returned r, w) ∧ status r = 400))
  ∧ (∀ mimeType, get_prop (Some body) "mimeType" = Returned mimeType →
       truthy mimeType = false →
       ∃ r, PageWorker.handleSubmit req config w = (Returned r, w) ∧ status r = 400).
Proof.
  intros Hm Ha Hb. split.
  - intros image Hi Hf. unfold PageWorker.handleSubmit, ApiWorker.handleSubmit.
    rewrite Hm, (authenticated_token _ _ Ha), Hb. simpl. run_m.
    rewrite Hi. simpl. rewrite Hf. simpl. split; eexists; split; reflexivity.
  - intros mimeType Ht Hf. unfold PageWorker.handleSubmit.
    rewrite Hm, (authenticated_token _ _ Ha), Hb. simpl. run_m.
    destruct (get_prop (Some body) "image") as [image|e] eqn:Hi.
    + destruct (truthy image); simpl; [|eexists; split; reflexivity].
      rewrite Ht. simpl. rewrite Hf. simpl. eexists; split; reflexivity.
    + apply (get_prop_throws _ _ "mimeType") in Hi. congruence.
Qed.

Lemma X14_witness :
  (∃ r, PageWorker.handleSubmit
          (demo_submit (JObj [("image", JStr EmptyString); ("mimeType", JStr "image/png")]))
          (read_config demo_env) (demo_world FetchRejected)
        = (Returned r, demo_world FetchRejected) ∧ status r = 400)
  ∧ (∃ r, ApiWorker.handleSubmit
            (demo_submit (JObj [("image", JStr EmptyString); ("mimeType", JStr "image/png")]))
            (read_config demo_env) (demo_world FetchRejected)
          = (Returned r, demo_world FetchRejected) ∧ status r = 400).
Proof.
  assert (authenticated
            (demo_submit (JObj [("image", JStr EmptyString); ("mimeType", JStr "image/png")]))
            (read_config demo_env)) as Ha.
  { exists "submit-secret". split; reflexivity. }
  apply (proj1 (X14_falsy_field_is_refused
                  (demo_submit (JObj [("image", JStr EmptyString);
                                      ("mimeType", JStr "image/png")]))
                  (read_config demo_env) (demo_world FetchRejected)
                  (JObj [("image", JStr EmptyString); ("mimeType", JStr "image/png")])
                  eq_refl Ha eq_refl) (Some (JStr EmptyString))); reflexivity.
Defined.

(** ** The two credentials are independent *)

(** X15: each handler reads only its own credential.  The answer of a
    submit handler and what it stores are the same for two requests that
    agree on the method, the headers and the body, under two
    configurations that agree on the submission token and the store
    binding: the path, the query string and the query credential play no
    part.  What a result handler does is the same for two requests that
    agree on the method and the query string, under two configurations
    that agree on the query credential and the store binding: the
    headers, the body and the submission token play no part.  This holds
    in both scripts. *)
Theorem X15_each_handler_reads_only_its_own_credential (req req' : request)
    (config config' : configuration) (w : world) :
  (method req = method req' → headers req = headers req' →
   request_json req = request_json req' →
   authToken config = authToken config' → kv config = kv config' →
     fst (PageWorker.handleSubmit req config w) = fst (PageWorker.handleSubmit req' config' w)
     ∧ kv_data (snd (PageWorker.handleSubmit req config w))
       = kv_data (snd (PageWorker.handleSubmit req' config' w))
     ∧ fst (ApiWorker.handleSubmit req config w) = fst (ApiWorker.handleSubmit req' config' w)
     ∧ kv_data (snd (ApiWorker.handleSubmit req config w))
       = kv_data (snd (ApiWorker.handleSubmit req' config' w)))
  ∧ (method req = method req' → searchParams req = searchParams req' →
     apiKey config = apiKey config' → kv config = kv config' →
       PageWorker.handleResult req config w = PageWorker.handleResult req' config' w
       ∧ ApiWorker.handleResult req config w = ApiWorker.handleResult req' config' w).
Proof.
  split.
  - intros Hm Hh Hb Ht Hkv.
    unfold PageWorker.handleSubmit, ApiWorker.handleSubmit.
    rewrite <- Hm, <- Hh, <- Hb, <- Ht, <- Hkv.
    destruct (negb _); [done|].
    destruct (strict_neq _ _); [done|].
    destruct (request_json req) as [body|]; [|done].
    run_m. destruct (get_prop (Some body) "image") as [image|e]; [|done].
    destruct (truthy image); simpl; [|done].
    unfold kv_put.
    destruct (get_prop (Some body) "mimeType") as [mimeType|e]; simpl.
    + destruct (truthy mimeType); simpl; destruct (kv config) as [[]|]; done.
    + destruct (kv config) as [[]|]; done.
  - intros Hm Hq Hk Hkv.
    unfold PageWorker.handleResult, ApiWorker.handleResult.
    by rewrite <- Hm, <- Hq, <- Hk, <- Hkv.
Qed.

Lemma X15_witness :
  PageWorker.handleResult (demo_poll "task-0" "query-secret") (read_config demo_env)
    (demo_world FetchRejected)
  = PageWorker.handleResult
      (Request "GET" "/anything" [("taskId", "task-0"); ("apiKey", "query-secret")]
               [("Authorization", "Bearer wrong")] (Some JNull))
      (Config None None None (Some "query-secret") (Some ResultsKV))
      (demo_world FetchRejected)
  ∧ ApiWorker.handleResult (demo_poll "task-0" "query-secret") (read_config demo_env)
      (demo_world FetchRejected)
    = ApiWorker.handleResult
        (Request "GET" "/anything" [("taskId", "task-0"); ("apiKey", "query-secret")]
                 [("Authorization", "Bearer wrong")] (Some JNull))
        (Config None None None (Some "query-secret") (Some ResultsKV))
        (demo_world FetchRejected).
Proof.
  apply (proj2 (X15_each_handler_reads_only_its_own_credential
                  (demo_poll "task-0" "query-secret")
                  (Request "GET" "/anything" [("taskId", "task-0"); ("apiKey", "query-secret")]
                           [("Authorization", "Bearer wrong")] (Some JNull))
                  (read_config demo_env)
                  (Config None None None (Some "query-secret") (Some ResultsKV))
                  (demo_world FetchRejected))); reflexivity.
Defined.
